(** * A static file server over HTTP: path resolution and verb dispatch

    Shallow embedding of the two servers of the repository:

    - the full server (GET / PUT / DELETE), module [Full];
    - the read-only server (GET only), module [ReadOnly].

    JavaScript strings are sequences of UTF-16 code units, buffers are
    sequences of octets, the file system is a finite map from canonical
    absolute paths to nodes.  The asynchronous callbacks of the source
    run exactly once per request, so each handler is a computation in a
    small monad of state and exceptions over the world (file system,
    response under construction, log of the system calls made): a call
    of [fs] that throws ends the request where it stands. *)

From Stdlib Require Import NArith List String Ascii Lia.
From Stdlib Require Import Decimal DecimalString.
From stdpp Require Import base option list gmap.

Local Open Scope N_scope.

(** ** JavaScript strings *)

Abbreviation code_unit := N.
Abbreviation jstring := (list N).
Abbreviation Buffer := (list N).

(** An ASCII literal of the source as a sequence of code units. *)
Definition js (s : string) : jstring :=
  map N_of_ascii (list_ascii_of_string s).

Definition SLASH : code_unit := 47.
Definition DOT : code_unit := 46.
Definition PERCENT : code_unit := 37.
Definition QUESTION : code_unit := 63.

Definition jstring_eqb (a b : jstring) : bool := bool_decide (a = b).

(** [String(n)] for a non-negative integer. *)
Definition String_of_N (n : N) : jstring :=
  js (NilZero.string_of_uint (N.to_uint n)).

Module JS.

(** [s.split(sep)] for a separator of one code unit: never empty. *)
Fixpoint split (sep : code_unit) (s : jstring) : list jstring :=
  match s with
  | [] => [[]]
  | c :: s' =>
      if c =? sep then [] :: split sep s'
      else match split sep s' with
           | [] => [[c]]
           | w :: ws => (c :: w) :: ws
           end
  end.

(** White space and line terminators removed by [String.prototype.trim]. *)
Definition is_white_space (c : code_unit) : bool :=
  ((9 <=? c) && (c <=? 13)) || (c =? 32) || (c =? 160) || (c =? 5760)
  || ((8192 <=? c) && (c <=? 8202)) || (c =? 8232) || (c =? 8233)
  || (c =? 8239) || (c =? 8287) || (c =? 12288) || (c =? 65279).

Fixpoint drop_while (f : code_unit -> bool) (s : jstring) : jstring :=
  match s with
  | [] => []
  | c :: s' => if f c then drop_while f s' else s
  end.

Fixpoint take_while (f : code_unit -> bool) (s : jstring) : jstring :=
  match s with
  | [] => []
  | c :: s' => if f c then c :: take_while f s' else []
  end.

Definition trim (s : jstring) : jstring :=
  rev (drop_while is_white_space (rev (drop_while is_white_space s))).

(** [a.startsWith(b)] *)
Fixpoint startsWith (a b : jstring) {struct b} : bool :=
  match b, a with
  | [], _ => true
  | y :: b', x :: a' => (x =? y) && startsWith a' b'
  | _ :: _, [] => false
  end.

(** [String.prototype.toLowerCase] on the ASCII range.  Outside it the
    full function yields ASCII only for U+212A (the letter [k]) and for
    U+0130 (an [i] followed by a combining dot); neither completes an
    entry of the extension table, and header names are ASCII, so this
    decides both uses in the servers as the full function does. *)
Definition lower_unit (c : code_unit) : code_unit :=
  if (65 <=? c) && (c <=? 90) then c + 32 else c.

Definition toLowerCase (s : jstring) : jstring := map lower_unit s.

(** *** [decodeURIComponent] (ECMAScript [Decode] with an empty
    preserved set); [None] is the [URIError] exception. *)

Definition hex_val (c : code_unit) : option N :=
  if (48 <=? c) && (c <=? 57) then Some (c - 48)
  else if (65 <=? c) && (c <=? 70) then Some (c - 55)
  else if (97 <=? c) && (c <=? 102) then Some (c - 87)
  else None.

Definition ParseHexOctet (h1 h2 : code_unit) : option N :=
  match hex_val h1, hex_val h2 with
  | Some a, Some b => Some (16 * a + b)
  | _, _ => None
  end.

(** Number of leading 1 bits of an octet. *)
Definition leading_ones (b : N) : nat :=
  if b <? 128 then 0%nat
  else if b <? 192 then 1%nat
  else if b <? 224 then 2%nat
  else if b <? 240 then 3%nat
  else if b <? 248 then 4%nat
  else 5%nat.

(** One continuation group [%XX] with [XX] in [0x80..0xBF]; returns its
    six payload bits. *)
Definition continuation (p h1 h2 : code_unit) : option N :=
  if p =? PERCENT then
    match ParseHexOctet h1 h2 with
    | Some b => if (128 <=? b) && (b <=? 191) then Some (b - 128) else None
    | None => None
    end
  else None.

Definition utf8_2 (b c1 : N) : option N :=
  let v := (b - 192) * 64 + c1 in
  if 128 <=? v then Some v else None.

Definition utf8_3 (b c1 c2 : N) : option N :=
  let v := (b - 224) * 4096 + c1 * 64 + c2 in
  if (2048 <=? v) && negb ((55296 <=? v) && (v <=? 57343)) then Some v
  else None.

Definition utf8_4 (b c1 c2 c3 : N) : option N :=
  let v := (b - 240) * 262144 + c1 * 4096 + c2 * 64 + c3 in
  if (65536 <=? v) && (v <=? 1114111) then Some v else None.

Definition UTF16EncodeCodePoint (v : N) : jstring :=
  if v <=? 65535 then [v]
  else [55296 + (v - 65536) / 1024; 56320 + (v - 65536) mod 1024].

Fixpoint decodeURIComponent (s : jstring) : option jstring :=
  match s with
  | [] => Some []
  | c :: rest =>
      if c =? PERCENT then
        match rest with
        | h1 :: h2 :: rest1 =>
            match ParseHexOctet h1 h2 with
            | None => None
            | Some b =>
                match leading_ones b with
                | 0%nat => cons b <$> decodeURIComponent rest1
                | 2%nat =>
                    match rest1 with
                    | p1 :: a1 :: b1 :: rest2 =>
                        c1 ← continuation p1 a1 b1;
                        v ← utf8_2 b c1;
                        app (UTF16EncodeCodePoint v)
                          <$> decodeURIComponent rest2
                    | _ => None
                    end
                | 3%nat =>
                    match rest1 with
                    | p1 :: a1 :: b1 :: p2 :: a2 :: b2 :: rest3 =>
                        c1 ← continuation p1 a1 b1;
                        c2 ← continuation p2 a2 b2;
                        v ← utf8_3 b c1 c2;
                        app (UTF16EncodeCodePoint v)
                          <$> decodeURIComponent rest3
                    | _ => None
                    end
                | 4%nat =>
                    match rest1 with
                    | p1 :: a1 :: b1 :: p2 :: a2 :: b2
                        :: p3 :: a3 :: b3 :: rest4 =>
                        c1 ← continuation p1 a1 b1;
                        c2 ← continuation p2 a2 b2;
                        c3 ← continuation p3 a3 b3;
                        v ← utf8_4 b c1 c2 c3;
                        app (UTF16EncodeCodePoint v)
                          <$> decodeURIComponent rest4
                    | _ => None
                    end
                | _ => None
                end
            end
        | _ => None
        end
      else cons c <$> decodeURIComponent rest
  end.

(** *** [Buffer.from(s, "utf8")] *)

Definition utf8_of_code_point (v : N) : Buffer :=
  if v <? 128 then [v]
  else if v <? 2048 then [192 + v / 64; 128 + v mod 64]
  else if v <? 65536 then
    [224 + v / 4096; 128 + (v / 64) mod 64; 128 + v mod 64]
  else [240 + v / 262144; 128 + (v / 4096) mod 64;
        128 + (v / 64) mod 64; 128 + v mod 64].

Definition is_high_surrogate (c : code_unit) : bool :=
  (55296 <=? c) && (c <=? 56319).
Definition is_low_surrogate (c : code_unit) : bool :=
  (56320 <=? c) && (c <=? 57343).

Definition REPLACEMENT : N := 65533.

Fixpoint utf8_of_string (s : jstring) : Buffer :=
  match s with
  | [] => []
  | c :: rest =>
      if is_high_surrogate c then
        match rest with
        | d :: rest' =>
            if is_low_surrogate d then
              utf8_of_code_point
                (65536 + (c - 55296) * 1024 + (d - 56320))
                ++ utf8_of_string rest'
            else utf8_of_code_point REPLACEMENT ++ utf8_of_string rest
        | [] => utf8_of_code_point REPLACEMENT
        end
      else if is_low_surrogate c then
        utf8_of_code_point REPLACEMENT ++ utf8_of_string rest
      else utf8_of_code_point c ++ utf8_of_string rest
  end.

End JS.

(** ** Node's [path] module on POSIX *)

Module Path.

Definition is_slash (c : code_unit) : bool := c =? SLASH.
Definition is_dot (c : code_unit) : bool := c =? DOT.

Definition segments (p : jstring) : list jstring := JS.split SLASH p.

Fixpoint join (segs : list jstring) : jstring :=
  match segs with
  | [] => []
  | [s] => s
  | s :: segs' => s ++ SLASH :: join segs'
  end.

(** [normalizeString]: empty and [.] segments disappear, [..] removes
    the segment before it; above the start it is kept only when
    [allowAboveRoot].  [acc] is the result so far, last segment first. *)
Fixpoint normalize_go (allowAboveRoot : bool) (acc segs : list jstring)
  : list jstring :=
  match segs with
  | [] => rev acc
  | seg :: segs' =>
      if jstring_eqb seg [] || jstring_eqb seg (js ".") then
        normalize_go allowAboveRoot acc segs'
      else if jstring_eqb seg (js "..") then
        match acc with
        | top :: acc' =>
            if jstring_eqb top (js "..") then
              normalize_go allowAboveRoot
                (if allowAboveRoot then seg :: acc else acc) segs'
            else normalize_go allowAboveRoot acc' segs'
        | [] =>
            normalize_go allowAboveRoot
              (if allowAboveRoot then [seg] else []) segs'
        end
      else normalize_go allowAboveRoot (seg :: acc) segs'
  end.

Definition normalizeString (path : jstring) (allowAboveRoot : bool)
  : jstring :=
  join (normalize_go allowAboveRoot [] (segments path)).

Definition isAbsolute (p : jstring) : bool :=
  match p with
  | c :: _ => is_slash c
  | [] => false
  end.

(** The loop of [resolve]: arguments from the last to the first, then
    the working directory, until an absolute path has been built. *)
Fixpoint resolve_go (paths : list jstring) (resolvedPath : jstring)
  : jstring * bool :=
  match paths with
  | [] => (resolvedPath, false)
  | p :: ps =>
      if jstring_eqb p [] then resolve_go ps resolvedPath
      else
        let r := p ++ SLASH :: resolvedPath in
        if isAbsolute p then (r, true) else resolve_go ps r
  end.

(** [path.resolve(...args)] in a process whose working directory is
    [cwd]. *)
Definition resolve (cwd : jstring) (args : list jstring) : jstring :=
  let '(resolvedPath, resolvedAbsolute) :=
    resolve_go (rev args ++ [cwd]) [] in
  let res := normalizeString resolvedPath (negb resolvedAbsolute) in
  if resolvedAbsolute then SLASH :: res
  else if jstring_eqb res [] then js "." else res.

(** [path.dirname(p)] *)
Definition dirname (p : jstring) : jstring :=
  match p with
  | [] => js "."
  | c0 :: tl =>
      let hasRoot := is_slash c0 in
      let upto :=
        JS.drop_while (fun c => negb (is_slash c))
          (JS.drop_while is_slash (rev tl)) in
      match upto with
      | [] => if hasRoot then js "/" else js "."
      | _ :: _ =>
          let end_ := length upto in
          if hasRoot && Nat.eqb end_ 1 then js "//" else take end_ p
      end
  end.

(** [path.extname(p)]: from the last dot of the last component, empty
    when there is no dot, when the component starts with its only
    candidate dot, or when the component is [..]. *)
Definition extname (p : jstring) : jstring :=
  let base := JS.take_while (fun c => negb (is_slash c))
                (JS.drop_while is_slash (rev p)) in
  let after := JS.take_while (fun c => negb (is_dot c)) base in
  match drop (length after) base with
  | [] => []
  | _ :: before =>
      match before with
      | [] => []
      | _ :: _ =>
          if jstring_eqb before [DOT] && jstring_eqb after [] then []
          else DOT :: rev after
      end
  end.

End Path.

(** ** Content types (identical in both servers) *)

Definition guessContentType (filePath : jstring) : jstring :=
  let ext := JS.toLowerCase (Path.extname filePath) in
  if jstring_eqb ext (js ".html") then js "text/html; charset=utf-8"
  else if jstring_eqb ext (js ".css") then js "text/css; charset=utf-8"
  else if jstring_eqb ext (js ".js") then js "text/javascript; charset=utf-8"
  else if jstring_eqb ext (js ".json") then
    js "application/json; charset=utf-8"
  else if jstring_eqb ext (js ".txt") then js "text/plain; charset=utf-8"
  else if jstring_eqb ext (js ".png") then js "image/png"
  else if jstring_eqb ext (js ".jpg") || jstring_eqb ext (js ".jpeg") then
    js "image/jpeg"
  else if jstring_eqb ext (js ".gif") then js "image/gif"
  else if jstring_eqb ext (js ".svg") then js "image/svg+xml"
  else js "application/octet-stream".

(** [PUBLIC_DIR = path.resolve(process.cwd(), "public")] *)
Definition PUBLIC_DIR (cwd : jstring) : jstring :=
  Path.resolve cwd [cwd; js "public"].

(** ** The file system and the [fs] module *)

Inductive node :=
| File (data : Buffer)
| Dir.

Inductive errno :=
  ENOENT | ENOTDIR | EISDIR | EACCES | EPERM | EIO | ENOSPC | ENAMETOOLONG.

Global Instance errno_eq_dec : EqDecision errno.
Proof. solve_decision. Defined.

Inductive syscall :=
| SysStat (p : jstring)
| SysReadFile (p : jstring)
| SysWriteFile (p : jstring) (data : Buffer)
| SysUnlink (p : jstring).

(** What a call can see of a node through [fs.Stats]. *)
Record Stats := { isFile : bool; isDirectory : bool }.

Definition stats_of (n : node) : Stats :=
  match n with
  | File _ => {| isFile := true; isDirectory := false |}
  | Dir => {| isFile := false; isDirectory := true |}
  end.

(** [fs.stat], [fs.readFile], [fs.writeFile] and [fs.unlink] validate
    their path before anything else: a path that holds U+0000 makes the
    call throw at once, and its callback never runs. *)
Definition has_nul (p : jstring) : bool := existsb (N.eqb 0) p.

(** What a call of the [fs] module does: it throws, or its callback gets
    an error, or its callback gets the result. *)
Inductive fs_result (A : Type) :=
| Throws
| Fails (code : errno)
| Gives (a : A).
Arguments Throws {A}.
Arguments Fails {A} code.
Arguments Gives {A} a.

(** The directories on the way to [p]: its parent, the parent of that,
    and so on up to the root. *)
Fixpoint ancestors_go (fuel : nat) (p : jstring) : list jstring :=
  match fuel with
  | O => []
  | S fuel' =>
      let d := Path.dirname p in
      if Nat.ltb (length d) (length p) then d :: ancestors_go fuel' d
      else []
  end.

Definition ancestors (p : jstring) : list jstring :=
  ancestors_go (length p) p.

(** The way to [p] runs through a regular file. *)
Definition blocked (fs : gmap jstring node) (p : jstring) : bool :=
  existsb (fun a => match fs !! a with
                    | Some (File _) => true
                    | _ => false
                    end)
    (ancestors p).

(** Failures that the tree does not explain (permissions, a full or
    failing device, a race with another process) are injected by
    [fault]: a call it maps to an error fails with that error.  A name
    that is absent is [ENOENT], or [ENOTDIR] when the way to it runs
    through a regular file.  A tree never holds anything below a regular
    file; should the map do so, [stat] and [readFile] answer from the
    node.  A name with U+0000 is refused before the tree is looked
    at. *)
Module Fs.
Section WithFaults.
Variable fault : syscall -> option errno.

Definition absent (fs : gmap jstring node) (p : jstring) : errno :=
  if blocked fs p then ENOTDIR else ENOENT.

Definition stat (fs : gmap jstring node) (p : jstring) : fs_result Stats :=
  if has_nul p then Throws
  else
    match fault (SysStat p) with
    | Some e => Fails e
    | None =>
        match fs !! p with
        | Some n => Gives (stats_of n)
        | None => Fails (absent fs p)
        end
    end.

Definition readFile (fs : gmap jstring node) (p : jstring)
  : fs_result Buffer :=
  if has_nul p then Throws
  else
    match fault (SysReadFile p) with
    | Some e => Fails e
    | None =>
        match fs !! p with
        | Some (File d) => Gives d
        | Some Dir => Fails EISDIR
        | None => Fails (absent fs p)
        end
    end.

(** The file can be opened for writing: the way to it is made of
    directories, its parent is one, and it is not one itself.  Nothing
    creates a directory. *)
Definition opens (fs : gmap jstring node) (p : jstring) : errno + unit :=
  if blocked fs p then inl ENOTDIR
  else
    match fs !! p with
    | Some Dir => inl EISDIR
    | _ =>
        match fs !! Path.dirname p with
        | Some Dir => inr tt
        | Some (File _) => inl ENOTDIR
        | None => inl ENOENT
        end
    end.

(** Creates or truncates, then writes. *)
Definition writeFile (fs : gmap jstring node) (p : jstring)
  (data : Buffer) : fs_result (gmap jstring node) :=
  if has_nul p then Throws
  else
    match fault (SysWriteFile p data) with
    | Some e => Fails e
    | None =>
        match opens fs p with
        | inl e => Fails e
        | inr _ => Gives (<[p := File data]> fs)
        end
    end.

(** The tree after a [writeFile] that failed.  The file is opened, that
    is created or truncated, before anything is written: a write that
    fails after that leaves it behind with the octets written so far;
    [torn] says whether an injected failure came that late, and after
    how many octets. *)
Definition torn_write (torn : syscall -> option nat)
  (fs : gmap jstring node) (p : jstring) (data : Buffer)
  : gmap jstring node :=
  match fault (SysWriteFile p data), torn (SysWriteFile p data),
        opens fs p with
  | Some _, Some n, inr _ => <[p := File (take n data)]> fs
  | _, _, _ => fs
  end.

Definition unlink (fs : gmap jstring node) (p : jstring)
  : fs_result (gmap jstring node) :=
  if has_nul p then Throws
  else
    match fault (SysUnlink p) with
    | Some e => Fails e
    | None =>
        if blocked fs p then Fails ENOTDIR
        else
          match fs !! p with
          | Some (File _) => Gives (delete p fs)
          | Some Dir => Fails EISDIR
          | None => Fails ENOENT
          end
    end.
End WithFaults.
End Fs.

Definition no_fault : syscall -> option errno := fun _ => None.

(** ** Requests and responses ([http]) *)

(** [req.method], [req.url], and the body stream: its [data] chunks and
    whether it finished with [error] instead of [end]. *)
Record IncomingMessage := {
  method : option jstring;
  url : option jstring;
  chunks : list Buffer;
  stream_failed : bool
}.

(** The response object: [resHeaders] are the headers set on it, what
    [res.getHeader] returns, with names stored lower-cased as
    [setHeader] does; [ended] holds the octets given to [res.end], and
    nothing until then. *)
Record ServerResponse := {
  statusCode : N;
  resHeaders : gmap jstring jstring;
  ended : option Buffer
}.

Definition fresh_response : ServerResponse :=
  {| statusCode := 200; resHeaders := ∅; ended := None |}.

Definition setStatus (c : N) (r : ServerResponse) : ServerResponse :=
  {| statusCode := c; resHeaders := resHeaders r; ended := ended r |}.

Definition setHeader (k v : jstring) (r : ServerResponse) : ServerResponse :=
  {| statusCode := statusCode r;
     resHeaders := <[JS.toLowerCase k := v]> (resHeaders r);
     ended := ended r |}.

Definition getHeader (r : ServerResponse) (k : jstring) : option jstring :=
  resHeaders r !! JS.toLowerCase k.

(** A [Buffer | string] argument that may be left out. *)
Definition body_arg := option (Buffer + jstring).

Definition octets_of (body : body_arg) : Buffer :=
  match body with
  | None => []
  | Some (inl b) => b
  | Some (inr s) => JS.utf8_of_string s
  end.

Definition res_end (body : body_arg) (r : ServerResponse) : ServerResponse :=
  {| statusCode := statusCode r;
     resHeaders := resHeaders r;
     ended := Some (octets_of body) |}.

(** A [Record<string, string>] literal: keys in insertion order. *)
Definition headers_obj := list (jstring * jstring).

Definition obj_has (k : jstring) (o : headers_obj) : bool :=
  existsb (fun kv => jstring_eqb (fst kv) k) o.

Definition obj_set (k v : jstring) (o : headers_obj) : headers_obj :=
  if obj_has k o then
    map (fun kv => if jstring_eqb (fst kv) k then (k, v) else kv) o
  else o ++ [(k, v)].

(** ** The world of one request *)

Record Env := {
  cwd : jstring;                      (* process.cwd() *)
  now : jstring;                      (* new Date().toUTCString() *)
  fault : syscall -> option errno;
  torn : syscall -> option nat
}.

Record World := {
  fs : gmap jstring node;
  res : ServerResponse;
  trace : list syscall
}.

(** A computation changes the world and returns a value, or throws: the
    handlers have no [try] around their calls, so an exception ends the
    request with the world as it is. *)
Definition M (A : Type) : Type := World -> option A * World.

Global Instance M_ret : MRet M := fun A a w => (Some a, w).
Global Instance M_bind : MBind M :=
  fun A B f m w =>
    match m w with
    | (Some a, w') => f a w'
    | (None, w') => (None, w')
    end.

Definition on_res (f : ServerResponse -> ServerResponse) : M unit :=
  fun w => (Some tt, {| fs := fs w; res := f (res w); trace := trace w |}).

Definition log_call (c : syscall) (w : World) : World :=
  {| fs := fs w; res := res w; trace := trace w ++ [c] |}.

Definition with_fs (fs' : gmap jstring node) (w : World) : World :=
  {| fs := fs'; res := res w; trace := trace w |}.

(** The calls as the handlers make them; the value is what the callback
    receives. *)
Section Syscalls.
Variable e : Env.

Definition fs_stat (p : jstring) : M (errno + Stats) :=
  fun w =>
    match Fs.stat (fault e) (fs w) p with
    | Throws => (None, w)
    | Fails err => (Some (inl err), log_call (SysStat p) w)
    | Gives st => (Some (inr st), log_call (SysStat p) w)
    end.

Definition fs_readFile (p : jstring) : M (errno + Buffer) :=
  fun w =>
    match Fs.readFile (fault e) (fs w) p with
    | Throws => (None, w)
    | Fails err => (Some (inl err), log_call (SysReadFile p) w)
    | Gives data => (Some (inr data), log_call (SysReadFile p) w)
    end.

Definition fs_writeFile (p : jstring) (data : Buffer) : M (option errno) :=
  fun w =>
    let w' := log_call (SysWriteFile p data) w in
    match Fs.writeFile (fault e) (fs w) p data with
    | Throws => (None, w)
    | Fails err =>
        (Some (Some err),
         with_fs (Fs.torn_write (fault e) (torn e) (fs w) p data) w')
    | Gives fs' => (Some None, with_fs fs' w')
    end.

Definition fs_unlink (p : jstring) : M (option errno) :=
  fun w =>
    let w' := log_call (SysUnlink p) w in
    match Fs.unlink (fault e) (fs w) p with
    | Throws => (None, w)
    | Fails err => (Some (Some err), w')
    | Gives fs' => (Some None, with_fs fs' w')
    end.
End Syscalls.

Definition LF : code_unit := 10.

(** A one-line message of the source, ["...\n"]. *)
Definition line (s : string) : body_arg := Some (inr (js s ++ [LF])).

(** The header literal [{ "Content-Type": "text/plain; charset=utf-8" }]. *)
Definition PLAIN : headers_obj :=
  [(js "Content-Type", js "text/plain; charset=utf-8")].

(** What [parseAndResolvePath] returns: [{ absPath?, status? }]. *)
Record Parsed := { absPath : option jstring; status : option N }.

(** [!v] for an optional string: undefined and the empty string. *)
Definition falsy (v : option jstring) : bool :=
  match v with
  | None => true
  | Some s => jstring_eqb s []
  end.

Definition status_is (p : Parsed) (c : N) : bool :=
  bool_decide (status p = Some c).

(** ** The full server: GET, PUT and DELETE *)

Module Full.

Definition toBuffer (body : body_arg) : Buffer :=
  match body with
  | None => []
  | Some (inl b) => b
  | Some (inr s) => JS.utf8_of_string s
  end.

Definition parseAndResolvePath (cwd : jstring) (rawUrl : jstring)
  : Parsed :=
  let pathname :=
    JS.trim (default (js "/") (head (JS.split QUESTION rawUrl))) in
  match JS.decodeURIComponent pathname with
  | None => {| absPath := None; status := Some 400 |}
  | Some decodedPath =>
      let normalized :=
        if jstring_eqb decodedPath (js "/") then js "/index.html"
        else decodedPath in
      let absPath' :=
        Path.resolve cwd [PUBLIC_DIR cwd; js "." ++ normalized] in
      if negb (JS.startsWith absPath' (PUBLIC_DIR cwd)) then
        {| absPath := None; status := Some 403 |}
      else {| absPath := Some absPath'; status := None |}
  end.

(** [cb(err, body)]: the concatenated chunks on [end], the error on
    [error]. *)
Definition readRequestBody (req : IncomingMessage)
  : bool * option Buffer :=
  if stream_failed req then (true, None)
  else (false, Some (concat (chunks req))).

Section Handlers.
Variable e : Env.

Definition send (statusCode : N) (headers : headers_obj)
  (body : body_arg) : M unit :=
  let buf := toBuffer body in
  let headers :=
    if negb (obj_has (js "Content-Length") headers) then
      obj_set (js "Content-Length")
        (String_of_N (N.of_nat (length buf))) headers
    else headers in
  let headers :=
    if negb (obj_has (js "Content-Type") headers) then
      obj_set (js "Content-Type") (js "text/plain; charset=utf-8")
        headers
    else headers in
  on_res (fun r =>
    let r := setStatus statusCode r in
    let r := setHeader (js "Date") (now e) r in
    let r := setHeader (js "Connection") (js "close") r in
    let r := fold_left (fun r kv => setHeader (fst kv) (snd kv) r)
               headers r in
    res_end (Some (inl buf)) r).

Definition handleGet (absPath : jstring) : M unit :=
  st ← fs_stat e absPath;
  match st with
  | inl _ => send 404 PLAIN (line "Not Found")
  | inr st =>
      if negb (isFile st) then send 404 PLAIN (line "Not Found")
      else
        r ← fs_readFile e absPath;
        match r with
        | inl _ => send 500 PLAIN (line "Internal Server Error")
        | inr data =>
            send 200
              [(js "Content-Type", guessContentType absPath);
               (js "Content-Length",
                String_of_N (N.of_nat (length data)))]
              (Some (inl data))
        end
  end.

Definition handlePut (absPath : jstring) (req : IncomingMessage)
  : M unit :=
  let parent := Path.dirname absPath in
  parentSt ← fs_stat e parent;
  match parentSt with
  | inl _ => send 404 PLAIN (line "Not Found")
  | inr parentSt =>
      if negb (isDirectory parentSt) then
        send 404 PLAIN (line "Not Found")
      else
        st ← fs_stat e absPath;
        let existed :=
          match st with
          | inl _ => false
          | inr st => isFile st
          end in
        match readRequestBody req with
        | (false, Some body) =>
            writeErr ← fs_writeFile e absPath body;
            match writeErr with
            | Some _ => send 500 PLAIN (line "Internal Server Error")
            | None =>
                let code := if existed then 200 else 201 in
                send code PLAIN (Some (inr []))
            end
        | _ => send 500 PLAIN (line "Internal Server Error")
        end
  end.

Definition handleDelete (absPath : jstring) : M unit :=
  err ← fs_unlink e absPath;
  match err with
  | Some code =>
      if bool_decide (code = ENOENT) then
        send 404 PLAIN (line "Not Found")
      else send 500 PLAIN (line "Internal Server Error")
  | None =>
      send 204
        [(js "Content-Type", js "text/plain; charset=utf-8");
         (js "Content-Length", js "0")]
        None
  end.

Definition handler (req : IncomingMessage) : M unit :=
  let method := default [] (method req) in
  let rawUrl := default (js "/") (url req) in
  let parsed := parseAndResolvePath (cwd e) rawUrl in
  if status_is parsed 400 then send 400 PLAIN (line "Bad Request")
  else if status_is parsed 403 then send 403 PLAIN (line "Forbidden")
  else if falsy (absPath parsed) then
    send 500 PLAIN (line "Internal Server Error")
  else
    let absPath := default [] (absPath parsed) in
    if jstring_eqb method (js "GET") then handleGet absPath
    else if jstring_eqb method (js "PUT") then handlePut absPath req
    else if jstring_eqb method (js "DELETE") then handleDelete absPath
    else send 405 PLAIN (line "Method Not Allowed").

(** One request against the file system [fs0]: the world when the
    handler and its callbacks have run. *)
Definition serve (fs0 : gmap jstring node) (req : IncomingMessage)
  : World :=
  snd (handler req
         {| fs := fs0; res := fresh_response; trace := [] |}).
End Handlers.

End Full.

(** ** The read-only server: GET *)

Module ReadOnly.

Section Handlers.
Variable e : Env.

Definition send (statusCode : N) (headers : headers_obj)
  (body : body_arg) : M unit :=
  on_res (fun r =>
    let r := setStatus statusCode r in
    let r := setHeader (js "Date") (now e) r in
    let r := setHeader (js "Connection") (js "close") r in
    let r := fold_left (fun r kv => setHeader (fst kv) (snd kv) r)
               headers r in
    res_end body r).

Definition handler (req : IncomingMessage) : M unit :=
  let method := default [] (method req) in
  let rawUrl := default (js "/") (url req) in
  if negb (jstring_eqb method (js "GET")) then
    send 405 PLAIN (line "Method Not Allowed")
  else
    let pathname :=
      JS.trim (default (js "/") (head (JS.split QUESTION rawUrl))) in
    let requestPath :=
      if jstring_eqb pathname (js "/") then js "/index.html"
      else pathname in
    match JS.decodeURIComponent requestPath with
    | None => send 400 PLAIN (line "Bad Request")
    | Some decodedPath =>
        let absPath :=
          Path.resolve (cwd e)
            [PUBLIC_DIR (cwd e); js "." ++ decodedPath] in
        if negb (JS.startsWith absPath (PUBLIC_DIR (cwd e))) then
          send 403 PLAIN (line "Forbidden")
        else
          st ← fs_stat e absPath;
          match st with
          | inl _ => send 404 PLAIN (line "Not Found")
          | inr st =>
              if negb (isFile st) then
                send 404 PLAIN (line "Not Found")
              else
                r ← fs_readFile e absPath;
                match r with
                | inl _ =>
                    send 500 PLAIN (line "Internal Server Error")
                | inr data =>
                    send 200
                      [(js "Content-Type", guessContentType absPath);
                       (js "Content-Length",
                        String_of_N (N.of_nat (length data)))]
                      (Some (inl data))
                end
          end
    end.

Definition serve (fs0 : gmap jstring node) (req : IncomingMessage)
  : World :=
  snd (handler req
         {| fs := fs0; res := fresh_response; trace := [] |}).
End Handlers.

End ReadOnly.

(** ** Confinement, as the specification words it *)

(** The directories and the file name of a canonical absolute path. *)
Definition components (p : jstring) : list jstring :=
  filter (fun s => s <> []) (Path.segments p).

(** [p] is the root or lies below it: the components of the root are the
    first components of [p]. *)
Definition within_root (root p : jstring) : bool :=
  Path.isAbsolute p && bool_decide (components root `prefix_of` components p).

(** The path component of a raw URL: before the first [?], trimmed. *)
Definition pathname_of (rawUrl : jstring) : jstring :=
  JS.trim (default (js "/") (head (JS.split QUESTION rawUrl))).

(** [req.url ?? "/"] *)
Definition rawUrl_of (req : IncomingMessage) : jstring :=
  default (js "/") (url req).

(** A method the full server implements. *)
Definition supported (req : IncomingMessage) : bool :=
  let m := default [] (method req) in
  jstring_eqb m (js "GET") || jstring_eqb m (js "PUT")
  || jstring_eqb m (js "DELETE").

(** The four headers every response must carry, the length being that of
    the body sent. *)
Definition framed (e : Env) (r : ServerResponse) : Prop :=
  getHeader r (js "Date") = Some (now e)
  /\ getHeader r (js "Connection") = Some (js "close")
  /\ is_Some (getHeader r (js "Content-Type"))
  /\ exists b, ended r = Some b
       /\ getHeader r (js "Content-Length")
          = Some (String_of_N (N.of_nat (length b))).

(** The entries [send] iterates over: the caller's, then the defaults
    for the names it did not give. *)
Definition final_headers (hs : headers_obj) (buf : Buffer) : headers_obj :=
  hs
  ++ (if obj_has (js "Content-Length") hs then []
      else [(js "Content-Length", String_of_N (N.of_nat (length buf)))])
  ++ (if obj_has (js "Content-Type") hs then []
      else [(js "Content-Type", js "text/plain; charset=utf-8")]).

(** Whether [p] is a regular file of the tree. *)
Definition is_regular (fs0 : gmap jstring node) (p : jstring) : bool :=
  match fs0 !! p with
  | Some (File _) => true
  | _ => false
  end.

(** A segment that normalisation keeps as it is: not empty, not [.],
    not [..], without a slash. *)
Definition is_plain_seg (s : jstring) : bool :=
  negb (jstring_eqb s []) && negb (jstring_eqb s (js "."))
  && negb (jstring_eqb s (js "..")) && forallb (fun c => negb (c =? SLASH)) s.

(** The directories of the canonical form of an absolute path. *)
Definition canonical_segments (p : jstring) : list jstring :=
  Path.normalize_go false [] (Path.segments p).

(** ** A small deployment, for concrete runs

    The process runs in [/srv] and serves [/srv/public]; next to the
    served directory lies [/srv/public-evil]. *)

Definition ex_env : Env :=
  {| cwd := js "/srv";
     now := js "Mon, 02 Nov 2026 12:00:00 GMT";
     fault := no_fault;
     torn := fun _ => None |}.

Definition ex_fs : gmap jstring node :=
  <[js "/srv/public/index.html" :=
      File (JS.utf8_of_string (js "<h1>hi</h1>"))]>
  (<[js "/srv/public-evil/secret.txt" :=
      File (JS.utf8_of_string (js "s3cret"))]>
  (<[js "/srv/public-evil" := Dir]>
  (<[js "/srv/public" := Dir]>
  (<[js "/srv" := Dir]> ∅)))).

Definition ex_req (m u : string) (body : Buffer) : IncomingMessage :=
  {| method := Some (js m); url := Some (js u);
     chunks := [body]; stream_failed := false |}.

(** The same deployment on a failing disk: every write fails with EIO
    after two octets, when the file has already been opened. *)
Definition ex_env_failing_disk : Env :=
  {| cwd := js "/srv";
     now := js "Mon, 02 Nov 2026 12:00:00 GMT";
     fault := fun c => match c with
                       | SysWriteFile _ _ => Some EIO
                       | _ => None
                       end;
     torn := fun _ => Some 2%nat |}.

(** ** Vocabulary of the further properties *)

(** A segment that normalisation does not drop: not empty, not [.]. *)
Definition is_kept_seg (s : jstring) : bool :=
  negb (jstring_eqb s []) && negb (jstring_eqb s (js ".")).

(** [normalized] of the resolver: the default resource for [/]. *)
Definition normalized_of (decodedPath : jstring) : jstring :=
  if jstring_eqb decodedPath (js "/") then js "/index.html"
  else decodedPath.

(** A call that changes the tree names a path that has [root] as a
    prefix of its string. *)
Definition confined_call (root : jstring) (c : syscall) : bool :=
  match c with
  | SysWriteFile p _ | SysUnlink p => JS.startsWith p root
  | SysStat _ | SysReadFile _ => true
  end.

(** A call that only reads the tree. *)
Definition is_read_call (c : syscall) : bool :=
  match c with
  | SysStat _ | SysReadFile _ => true
  | SysWriteFile _ _ | SysUnlink _ => false
  end.

(** The one-line text the servers send with an error status. *)
Definition error_text (c : N) : jstring :=
  if c =? 400 then js "Bad Request"
  else if c =? 403 then js "Forbidden"
  else if c =? 404 then js "Not Found"
  else if c =? 405 then js "Method Not Allowed"
  else js "Internal Server Error".

Definition is_success (c : N) : bool := (c =? 200) || (c =? 201) || (c =? 204).

(** Two final worlds that a client and the tree cannot tell apart, the
    [Content-Length] header left aside. *)
Definition same_answer (a b : World) : Prop :=
  statusCode (res a) = statusCode (res b)
  /\ ended (res a) = ended (res b)
  /\ getHeader (res a) (js "Content-Type")
     = getHeader (res b) (js "Content-Type")
  /\ getHeader (res a) (js "Date") = getHeader (res b) (js "Date")
  /\ getHeader (res a) (js "Connection")
     = getHeader (res b) (js "Connection")
  /\ fs a = fs b
  /\ trace a = trace b.

(** The part of a file name before its last dot: not empty, no slash. *)
Definition is_stem (s : jstring) : bool :=
  negb (jstring_eqb s []) && forallb (fun c => negb (Path.is_slash c)) s.

(** The part of a file name after its last dot: not empty, no slash, no
    dot. *)
Definition is_extension (s : jstring) : bool :=
  negb (jstring_eqb s [])
  && forallb (fun c => negb (Path.is_slash c)) s
  && forallb (fun c => negb (Path.is_dot c)) s.

(** The request was answered with status [c]: a response went out. *)
Definition answered (w : World) (c : N) : Prop :=
  is_Some (ended (res w)) /\ statusCode (res w) = c.

(** * Properties *)

(** ** Strings and paths *)

Lemma jstring_eqb_eq a b : jstring_eqb a b = true <-> a = b.
Proof. unfold jstring_eqb. apply bool_decide_eq_true. Qed.

Lemma jstring_eqb_neq a b : jstring_eqb a b = false <-> a <> b.
Proof. unfold jstring_eqb. apply bool_decide_eq_false. Qed.

Lemma startsWith_prefix a b : JS.startsWith a b = true <-> b `prefix_of` a.
Proof.
  revert a. induction b as [|y b IH]; intros a; simpl.
  - split; [intros _; apply prefix_nil | reflexivity].
  - destruct a as [|x a].
    + split; [discriminate | intros H; destruct (prefix_nil_not _ _ H)].
    + rewrite andb_true_iff, N.eqb_eq, IH. split.
      * intros [-> H]. by apply prefix_cons.
      * intros H. split.
        -- symmetry. eapply prefix_cons_inv_1, H.
        -- eapply prefix_cons_inv_2, H.
Qed.

Lemma resolve_nonempty cwd args : Path.resolve cwd args <> [].
Proof.
  unfold Path.resolve.
  destruct (Path.resolve_go _ _) as [rp abs].
  destruct abs; [discriminate|].
  destruct (jstring_eqb _ []) eqn:E; [discriminate|].
  by apply jstring_eqb_neq.
Qed.

(** ** The resolver *)

Lemma parse_unfold cwd rawUrl :
  Full.parseAndResolvePath cwd rawUrl =
  match JS.decodeURIComponent (pathname_of rawUrl) with
  | None => {| absPath := None; status := Some 400 |}
  | Some d =>
      let n := if jstring_eqb d (js "/") then js "/index.html" else d in
      let p := Path.resolve cwd [PUBLIC_DIR cwd; js "." ++ n] in
      if JS.startsWith p (PUBLIC_DIR cwd)
      then {| absPath := Some p; status := None |}
      else {| absPath := None; status := Some 403 |}
  end.
Proof.
  unfold Full.parseAndResolvePath, pathname_of.
  destruct (JS.decodeURIComponent _); [|reflexivity].
  cbv zeta. by destruct (JS.startsWith _ _).
Qed.

Lemma parse_cases cwd rawUrl :
  (exists p, p <> []
     /\ Full.parseAndResolvePath cwd rawUrl
        = {| absPath := Some p; status := None |})
  \/ Full.parseAndResolvePath cwd rawUrl
     = {| absPath := None; status := Some 400 |}
  \/ Full.parseAndResolvePath cwd rawUrl
     = {| absPath := None; status := Some 403 |}.
Proof.
  rewrite parse_unfold.
  destruct (JS.decodeURIComponent _) as [d|]; [|by right; left].
  cbv zeta. destruct (JS.startsWith _ _).
  - left. eexists. split; [apply resolve_nonempty | reflexivity].
  - by right; right.
Qed.

Lemma parse_resolved_nonempty cwd rawUrl p :
  Full.parseAndResolvePath cwd rawUrl = {| absPath := Some p; status := None |}
  -> p <> [].
Proof.
  intros H. destruct (parse_cases cwd rawUrl) as [(q & Hq & E)|[E|E]];
    rewrite E in H; by simplify_eq.
Qed.

(** What the resolver does guarantee: the root is a prefix of the result
    as a string. *)
Lemma parse_resolved_prefix cwd rawUrl p :
  Full.parseAndResolvePath cwd rawUrl = {| absPath := Some p; status := None |}
  -> PUBLIC_DIR cwd `prefix_of` p.
Proof.
  rewrite parse_unfold.
  destruct (JS.decodeURIComponent _) as [d|]; [|discriminate].
  cbv zeta. destruct (JS.startsWith _ _) eqn:E; [|discriminate].
  intros [= <-]. by apply startsWith_prefix.
Qed.

(** ** Response shaping *)

Section SetHeaders.
Implicit Types (hs : headers_obj) (r : ServerResponse).

Local Abbreviation set_all l x :=
  (fold_left (fun acc kv => setHeader (fst kv) (snd kv) acc) l x).

Lemma set_all_status hs r : statusCode (set_all hs r) = statusCode r.
Proof. revert r. induction hs as [|kv hs IH]; intros r; simpl; [done|]. by rewrite IH. Qed.

Lemma set_all_ended hs r : ended (set_all hs r) = ended r.
Proof. revert r. induction hs as [|kv hs IH]; intros r; simpl; [done|]. by rewrite IH. Qed.

Lemma getHeader_setHeader k v r k' :
  getHeader (setHeader k v r) k' =
  if decide (JS.toLowerCase k = JS.toLowerCase k') then Some v
  else getHeader r k'.
Proof. unfold getHeader, setHeader; simpl. apply lookup_insert. Qed.

(** Entries under another name leave a header alone. *)
Lemma set_all_skip hs r k :
  Forall (fun kv => JS.toLowerCase (fst kv) <> JS.toLowerCase k) hs ->
  getHeader (set_all hs r) k = getHeader r k.
Proof.
  revert r. induction hs as [|kv hs IH]; intros r Hall; simpl; [done|].
  inversion Hall as [|? ? Hne Hrest]; subst.
  rewrite IH by done.
  rewrite getHeader_setHeader. by rewrite decide_False.
Qed.

(** When every entry under a name carries [v], and there is one, the
    header ends up as [v]. *)
Lemma set_all_value hs r k v :
  Exists (fun kv => JS.toLowerCase (fst kv) = JS.toLowerCase k) hs ->
  Forall (fun kv => JS.toLowerCase (fst kv) = JS.toLowerCase k
                    -> snd kv = v) hs ->
  getHeader (set_all hs r) k = Some v.
Proof.
  revert r. induction hs as [|kv hs IH]; intros r Hex Hall.
  - inversion Hex.
  - inversion Hall as [|? ? Hv Hrest]; subst. simpl.
    destruct (decide (Exists
      (fun kv => JS.toLowerCase (fst kv) = JS.toLowerCase k) hs))
      as [Hin|Hnot].
    + by apply IH.
    + rewrite set_all_skip.
      * rewrite getHeader_setHeader.
        inversion Hex as [? ? Hk|? ? Hk]; subst; [|done].
        rewrite decide_True by done. f_equal. by apply Hv.
      * by apply (not_Exists_Forall _).
  Qed.
End SetHeaders.

Lemma obj_has_app k a b : obj_has k (a ++ b) = obj_has k a || obj_has k b.
Proof. unfold obj_has. apply existsb_app. Qed.

Lemma obj_has_Exists k hs :
  obj_has k hs = true <-> Exists (fun kv => fst kv = k) hs.
Proof.
  unfold obj_has. rewrite existsb_exists, Exists_exists.
  split; intros (kv & Hin & H); exists kv;
    (split; [by apply list_elem_of_In | by apply jstring_eqb_eq]).
Qed.

Lemma obj_set_absent k v hs :
  obj_has k hs = false -> obj_set k v hs = hs ++ [(k, v)].
Proof. unfold obj_set. by intros ->. Qed.

Lemma send_run e c hs body w :
  Full.send e c hs body w =
  (Some tt,
   {| fs := fs w;
      res :=
        res_end (Some (inl (Full.toBuffer body)))
          (fold_left (fun r kv => setHeader (fst kv) (snd kv) r)
             (final_headers hs (Full.toBuffer body))
             (setHeader (js "Connection") (js "close")
                (setHeader (js "Date") (now e) (setStatus c (res w)))));
      trace := trace w |}).
Proof.
  unfold Full.send, on_res, final_headers.
  destruct (obj_has (js "Content-Length") hs) eqn:ECL; cbn [negb].
  - destruct (obj_has (js "Content-Type") hs) eqn:ECT; cbn [negb].
    + by rewrite app_nil_r.
    + by rewrite (obj_set_absent _ _ _ ECT).
  - rewrite (obj_set_absent _ _ _ ECL), obj_has_app.
    change (obj_has (js "Content-Type") [_]) with false.
    rewrite orb_false_r.
    destruct (obj_has (js "Content-Type") hs) eqn:ECT; cbn [negb].
    + by rewrite app_nil_r.
    + rewrite obj_set_absent, <- app_assoc; [done|].
      rewrite obj_has_app, ECT. reflexivity.
Qed.

Ltac closed_ne :=
  let H := fresh in intros H; vm_compute in H; discriminate H.

Ltac header_lookup :=
  repeat (rewrite getHeader_setHeader;
          first [ rewrite decide_True by reflexivity
                | rewrite decide_False by closed_ne ]);
  try reflexivity.

Lemma getHeader_res_end b r k : getHeader (res_end b r) k = getHeader r k.
Proof. reflexivity. Qed.

Lemma send_fs e c hs body w : fs (snd (Full.send e c hs body w)) = fs w.
Proof. reflexivity. Qed.

Lemma send_trace e c hs body w :
  trace (snd (Full.send e c hs body w)) = trace w.
Proof. reflexivity. Qed.

Lemma send_status e c hs body w :
  statusCode (res (snd (Full.send e c hs body w))) = c.
Proof. rewrite send_run. simpl. by rewrite set_all_status. Qed.

Lemma send_ended e c hs body w :
  ended (res (snd (Full.send e c hs body w))) = Some (Full.toBuffer body).
Proof. by rewrite send_run. Qed.

(** A call whose header literal names the content type only. *)
Lemma send_plain_headers e c body w :
  let r := res (snd (Full.send e c PLAIN body w)) in
  getHeader r (js "Date") = Some (now e)
  /\ getHeader r (js "Connection") = Some (js "close")
  /\ getHeader r (js "Content-Type") = Some (js "text/plain; charset=utf-8")
  /\ getHeader r (js "Content-Length")
     = Some (String_of_N (N.of_nat (length (Full.toBuffer body)))).
Proof.
  rewrite send_run. cbv zeta. unfold final_headers.
  change (obj_has (js "Content-Length") PLAIN) with false.
  change (obj_has (js "Content-Type") PLAIN) with true.
  cbn [app PLAIN fold_left fst snd res].
  rewrite !getHeader_res_end. repeat split; header_lookup.
Qed.

(** A call whose header literal names both the type and the length. *)
Lemma send_typed_headers e c ct cl body w :
  let r := res (snd (Full.send e c
                  [(js "Content-Type", ct); (js "Content-Length", cl)]
                  body w)) in
  getHeader r (js "Date") = Some (now e)
  /\ getHeader r (js "Connection") = Some (js "close")
  /\ getHeader r (js "Content-Type") = Some ct
  /\ getHeader r (js "Content-Length") = Some cl.
Proof.
  rewrite send_run. cbv zeta. unfold final_headers.
  change (obj_has (js "Content-Length") [_; _]) with true.
  change (obj_has (js "Content-Type") [_; _]) with true.
  cbn [app fold_left fst snd res].
  rewrite !getHeader_res_end. repeat split; header_lookup.
Qed.

Lemma send_plain_framed e c body w :
  framed e (res (snd (Full.send e c PLAIN body w))).
Proof.
  destruct (send_plain_headers e c body w) as (HD & HC & HT & HL).
  split; [done|]. split; [done|]. split; [by rewrite HT|].
  eexists. split; [apply send_ended | done].
Qed.

Lemma send_typed_framed e c ct body w :
  framed e
    (res (snd (Full.send e c
       [(js "Content-Type", ct);
        (js "Content-Length",
         String_of_N (N.of_nat (length (Full.toBuffer body))))]
       body w))).
Proof.
  destruct (send_typed_headers e c ct
              (String_of_N (N.of_nat (length (Full.toBuffer body)))) body w)
    as (HD & HC & HT & HL).
  split; [done|]. split; [done|]. split; [by rewrite HT|].
  eexists. split; [apply send_ended | done].
Qed.

(** The defaults of [send]: a literal without a name gets the default
    for it, whatever else it holds. *)
Lemma send_default_type e c hs body w :
  obj_has (js "Content-Type") hs = false ->
  getHeader (res (snd (Full.send e c hs body w))) (js "Content-Type")
  = Some (js "text/plain; charset=utf-8").
Proof.
  intros H. rewrite send_run. cbn [snd res]. rewrite getHeader_res_end.
  unfold final_headers. rewrite H, !app_assoc, fold_left_app.
  cbn [fold_left fst snd]. header_lookup.
Qed.

Lemma send_default_length e c hs body w :
  obj_has (js "Content-Length") hs = false ->
  getHeader (res (snd (Full.send e c hs body w))) (js "Content-Length")
  = Some (String_of_N (N.of_nat (length (Full.toBuffer body)))).
Proof.
  intros H. rewrite send_run. cbn [snd res]. rewrite getHeader_res_end.
  unfold final_headers. rewrite H, app_assoc, fold_left_app.
  destruct (obj_has (js "Content-Type") hs);
    cbn [fold_left fst snd]; rewrite fold_left_app;
    cbn [fold_left fst snd]; header_lookup.
Qed.

(** ** The dispatcher of the full server *)

Lemma handler_bad_request e req w :
  Full.parseAndResolvePath (cwd e) (rawUrl_of req)
  = {| absPath := None; status := Some 400 |} ->
  Full.handler e req w = Full.send e 400 PLAIN (line "Bad Request") w.
Proof. unfold Full.handler. fold (rawUrl_of req). by intros ->. Qed.

Lemma handler_forbidden e req w :
  Full.parseAndResolvePath (cwd e) (rawUrl_of req)
  = {| absPath := None; status := Some 403 |} ->
  Full.handler e req w = Full.send e 403 PLAIN (line "Forbidden") w.
Proof. unfold Full.handler. fold (rawUrl_of req). by intros ->. Qed.

Lemma handler_resolved e req w p :
  Full.parseAndResolvePath (cwd e) (rawUrl_of req)
  = {| absPath := Some p; status := None |} ->
  Full.handler e req w =
  let m := default [] (method req) in
  if jstring_eqb m (js "GET") then Full.handleGet e p w
  else if jstring_eqb m (js "PUT") then Full.handlePut e p req w
  else if jstring_eqb m (js "DELETE") then Full.handleDelete e p w
  else Full.send e 405 PLAIN (line "Method Not Allowed") w.
Proof.
  intros H. pose proof (parse_resolved_nonempty _ _ _ H) as Hne.
  unfold Full.handler. fold (rawUrl_of req). rewrite H.
  change (status_is _ 400) with false.
  change (status_is _ 403) with false.
  cbn [absPath falsy default]. apply jstring_eqb_neq in Hne.
  rewrite Hne. cbv zeta delta [id] beta.
  destruct (jstring_eqb _ (js "GET")); [done|].
  destruct (jstring_eqb _ (js "PUT")); [done|].
  by destruct (jstring_eqb _ (js "DELETE")).
Qed.

Lemma handleGet_run e p w :
  Full.handleGet e p w =
  let w1 := log_call (SysStat p) w in
  match Fs.stat (fault e) (fs w) p with
  | Throws => (None, w)
  | Fails _ => Full.send e 404 PLAIN (line "Not Found") w1
  | Gives st =>
      if isFile st then
        let w2 := log_call (SysReadFile p) w1 in
        match Fs.readFile (fault e) (fs w) p with
        | Throws => (None, w1)
        | Fails _ =>
            Full.send e 500 PLAIN (line "Internal Server Error") w2
        | Gives data =>
            Full.send e 200
              [(js "Content-Type", guessContentType p);
               (js "Content-Length", String_of_N (N.of_nat (length data)))]
              (Some (inl data)) w2
        end
      else Full.send e 404 PLAIN (line "Not Found") w1
  end.
Proof.
  unfold Full.handleGet, mbind, M_bind, fs_stat. cbv zeta.
  destruct (Fs.stat _ _ _) as [|err|st]; [done..|].
  destruct (isFile st); [|done]. cbn [negb].
  unfold fs_readFile. cbn [fs log_call].
  by destruct (Fs.readFile _ _ _).
Qed.

Lemma handlePut_run e p req w :
  Full.handlePut e p req w =
  let w1 := log_call (SysStat (Path.dirname p)) w in
  match Fs.stat (fault e) (fs w) (Path.dirname p) with
  | Throws => (None, w)
  | Fails _ => Full.send e 404 PLAIN (line "Not Found") w1
  | Gives parentSt =>
      if isDirectory parentSt then
        let w2 := log_call (SysStat p) w1 in
        let existed :=
          match Fs.stat (fault e) (fs w) p with
          | Gives st => isFile st
          | _ => false
          end in
        match Fs.stat (fault e) (fs w) p with
        | Throws => (None, w1)
        | _ =>
            match Full.readRequestBody req with
            | (false, Some body) =>
                let w3 := log_call (SysWriteFile p body) w2 in
                match Fs.writeFile (fault e) (fs w) p body with
                | Throws => (None, w2)
                | Fails _ =>
                    Full.send e 500 PLAIN (line "Internal Server Error")
                      (with_fs
                         (Fs.torn_write (fault e) (torn e) (fs w) p body)
                         w3)
                | Gives fs' =>
                    Full.send e (if existed then 200 else 201) PLAIN
                      (Some (inr [])) (with_fs fs' w3)
                end
            | _ =>
                Full.send e 500 PLAIN (line "Internal Server Error") w2
            end
        end
      else Full.send e 404 PLAIN (line "Not Found") w1
  end.
Proof.
  unfold Full.handlePut, mbind, M_bind, fs_stat. cbv zeta.
  destruct (Fs.stat _ _ (Path.dirname p)) as [|err|pst]; [done..|].
  destruct (isDirectory pst); [|done]. cbn [negb fs log_call].
  destruct (Fs.stat _ _ p) as [|err|st]; [done| |];
    (destruct (Full.readRequestBody req) as [[|] [body|]]; try done;
     unfold fs_writeFile; cbn [fs log_call];
     by destruct (Fs.writeFile _ _ _ _)).
Qed.

Lemma handleDelete_run e p w :
  Full.handleDelete e p w =
  let w1 := log_call (SysUnlink p) w in
  match Fs.unlink (fault e) (fs w) p with
  | Throws => (None, w)
  | Fails code =>
      if bool_decide (code = ENOENT) then
        Full.send e 404 PLAIN (line "Not Found") w1
      else Full.send e 500 PLAIN (line "Internal Server Error") w1
  | Gives fs' =>
      Full.send e 204
        [(js "Content-Type", js "text/plain; charset=utf-8");
         (js "Content-Length", js "0")]
        None (with_fs fs' w1)
  end.
Proof.
  unfold Full.handleDelete, mbind, M_bind, fs_unlink. cbv zeta.
  destruct (Fs.unlink _ _ _) as [|code|fs']; [done| |done].
  by destruct (bool_decide _).
Qed.

(** ** The read-only server's [send] *)

Lemma ro_send_fs e c hs body w : fs (snd (ReadOnly.send e c hs body w)) = fs w.
Proof. reflexivity. Qed.

Lemma ro_send_trace e c hs body w :
  trace (snd (ReadOnly.send e c hs body w)) = trace w.
Proof. reflexivity. Qed.

Lemma ro_send_status e c hs body w :
  statusCode (res (snd (ReadOnly.send e c hs body w))) = c.
Proof. unfold ReadOnly.send, on_res. simpl. by rewrite set_all_status. Qed.

(** ** The file system calls *)

Lemma stat_throws f fs0 q :
  Fs.stat f fs0 q = Throws <-> has_nul q = true.
Proof.
  unfold Fs.stat. destruct (has_nul q); [done|].
  destruct (f _); [done|]. by destruct (fs0 !! q).
Qed.

Lemma ro_send_ended e c hs body w :
  ended (res (snd (ReadOnly.send e c hs body w))) = Some (octets_of body).
Proof. reflexivity. Qed.

Lemma readFile_throws f fs0 q :
  Fs.readFile f fs0 q = Throws <-> has_nul q = true.
Proof.
  unfold Fs.readFile. destruct (has_nul q); [done|].
  destruct (f _); [done|]. by destruct (fs0 !! q) as [[?|]|].
Qed.

Lemma writeFile_throws f fs0 q d :
  Fs.writeFile f fs0 q d = Throws <-> has_nul q = true.
Proof.
  unfold Fs.writeFile. destruct (has_nul q); [done|].
  destruct (f _); [done|]. by destruct (Fs.opens fs0 q).
Qed.

Lemma unlink_throws f fs0 q :
  Fs.unlink f fs0 q = Throws <-> has_nul q = true.
Proof.
  unfold Fs.unlink. destruct (has_nul q); [done|].
  destruct (f _); [done|]. destruct (blocked fs0 q); [done|].
  by destruct (fs0 !! q) as [[?|]|].
Qed.

Lemma stat_no_fault f fs0 q :
  has_nul q = false ->
  f (SysStat q) = None ->
  Fs.stat f fs0 q =
  match fs0 !! q with
  | Some n => Gives (stats_of n)
  | None => Fails (Fs.absent fs0 q)
  end.
Proof. unfold Fs.stat. by intros -> ->. Qed.

Lemma stat_dir_inv f fs0 q st :
  Fs.stat f fs0 q = Gives st -> isDirectory st = true ->
  fs0 !! q = Some Dir.
Proof.
  unfold Fs.stat. destruct (has_nul q); [discriminate|].
  destruct (f _); [discriminate|].
  destruct (fs0 !! q) as [[d|]|]; try discriminate; intros [= <-]; done.
Qed.

Lemma ancestors_go_shorter fuel p a :
  a ∈ ancestors_go fuel p -> (length a < length p)%nat.
Proof.
  revert p. induction fuel as [|fuel IH]; intros p; simpl.
  - by intros ?%elem_of_nil.
  - destruct (Nat.ltb _ _) eqn:E; [|by intros ?%elem_of_nil].
    apply Nat.ltb_lt in E.
    intros [->|Hin]%elem_of_cons; [done|].
    apply IH in Hin. lia.
Qed.

Lemma ancestors_not_self p : p ∉ ancestors p.
Proof. intros H%ancestors_go_shorter. lia. Qed.

(** Only the nodes on the way to [p] decide whether it is blocked. *)
Lemma blocked_ext fs1 fs2 p :
  (forall a, a ∈ ancestors p -> fs1 !! a = fs2 !! a) ->
  blocked fs1 p = blocked fs2 p.
Proof.
  unfold blocked. induction (ancestors p) as [|a l IH]; [done|].
  intros H. simpl. rewrite (H a) by apply list_elem_of_here.
  rewrite IH; [done|]. intros b Hb. apply H. by apply list_elem_of_further.
Qed.

Lemma blocked_insert fs0 p n : blocked (<[p := n]> fs0) p = blocked fs0 p.
Proof.
  apply blocked_ext. intros a Ha. apply lookup_insert_ne.
  intros <-. by apply (ancestors_not_self p).
Qed.

Lemma blocked_delete fs0 p : blocked (delete p fs0) p = blocked fs0 p.
Proof.
  apply blocked_ext. intros a Ha. apply lookup_delete_ne.
  intros <-. by apply (ancestors_not_self p).
Qed.

Lemma opens_inv fs0 p :
  Fs.opens fs0 p = inr tt ->
  blocked fs0 p = false /\ fs0 !! p <> Some Dir
  /\ fs0 !! Path.dirname p = Some Dir.
Proof.
  unfold Fs.opens. destruct (blocked fs0 p); [discriminate|].
  destruct (fs0 !! p) as [[d0|]|] eqn:Ep; try discriminate;
    destruct (fs0 !! Path.dirname p) as [[d1|]|] eqn:Ed; try discriminate;
    done.
Qed.

Lemma writeFile_inv f fs0 p d fs1 :
  Fs.writeFile f fs0 p d = Gives fs1 ->
  fs1 = <[p := File d]> fs0
  /\ fs0 !! p <> Some Dir
  /\ fs0 !! Path.dirname p = Some Dir
  /\ has_nul p = false
  /\ blocked fs0 p = false.
Proof.
  unfold Fs.writeFile. destruct (has_nul p); [discriminate|].
  destruct (f _); [discriminate|].
  destruct (Fs.opens fs0 p) as [?|[]] eqn:Eo; [discriminate|].
  intros [= <-]. destruct (opens_inv _ _ Eo) as (? & ? & ?). done.
Qed.

Lemma unlink_inv f fs0 p fs1 :
  Fs.unlink f fs0 p = Gives fs1 ->
  fs1 = delete p fs0 /\ is_regular fs0 p = true
  /\ has_nul p = false /\ blocked fs0 p = false.
Proof.
  unfold Fs.unlink, is_regular. destruct (has_nul p); [discriminate|].
  destruct (f _); [discriminate|].
  destruct (blocked fs0 p); [discriminate|].
  destruct (fs0 !! p) as [[d0|]|]; try discriminate.
  by intros [= <-].
Qed.

(** ** C10: the three results of the resolver *)

(** C10. For every working directory and every input string,
    [parseAndResolvePath] returns exactly one of: a non-empty resolved
    path without status, status 400 without path, status 403 without
    path.  Hence one of the three guards of the handler that precede its
    last fallback holds, and the fallback answering 500 is never taken. *)
Theorem parseAndResolvePath_three_results cwd rawUrl :
  let r := Full.parseAndResolvePath cwd rawUrl in
  ((exists p, p <> [] /\ r = {| absPath := Some p; status := None |})
   \/ r = {| absPath := None; status := Some 400 |}
   \/ r = {| absPath := None; status := Some 403 |})
  /\ status_is r 400 || status_is r 403 || negb (falsy (absPath r)) = true.
Proof.
  cbv zeta. split; [apply parse_cases|].
  destruct (parse_cases cwd rawUrl) as [(p & Hne & ->)|[->| ->]];
    [|reflexivity|reflexivity].
  change (status_is _ 400) with false.
  change (status_is _ 403) with false.
  cbn [absPath falsy orb]. apply jstring_eqb_neq in Hne. by rewrite Hne.
Qed.

(** ** C3: malformed percent-encoding *)



(** ** C2: methods the server does not implement *)

(** C2 as stated fails: on the small deployment a PATCH of [/%zz], a
    method the server does not implement, is answered 400 by the full
    server, not 405. *)
Lemma patch_malformed_is_400 :
  let req := ex_req "PATCH" "/%zz" [] in
  supported req = false
  /\ statusCode (res (Full.serve ex_env ex_fs req)) = 400
  /\ statusCode (res (Full.serve ex_env ex_fs req)) <> 405.
Proof. vm_compute. repeat split; discriminate. Qed.

(** C2, amended. For a request whose method is not GET, PUT or DELETE
    both servers answer without a system call and leave the file system
    as it was.  The full server resolves the path first: it answers 400
    when the percent-decoding of the path fails, 403 when the resolved
    path does not start with the string of the served root, and 405 in
    every other case, so also for a path that resolves into a sibling
    directory whose name starts with the name of the root.  The
    read-only server answers 405 whatever the path. *)
Theorem unsupported_method_response e fs0 req :
  supported req = false ->
  (let w := Full.serve e fs0 req in
   fs w = fs0 /\ trace w = [] /\ is_Some (ended (res w))
   /\ statusCode (res w)
      = match JS.decodeURIComponent (pathname_of (rawUrl_of req)) with
        | None => 400
        | Some d =>
            if JS.startsWith
                 (Path.resolve (cwd e)
                    [PUBLIC_DIR (cwd e); js "." ++ normalized_of d])
                 (PUBLIC_DIR (cwd e))
            then 405
            else 403
        end)
  /\ (let w := ReadOnly.serve e fs0 req in
      fs w = fs0 /\ trace w = [] /\ is_Some (ended (res w))
      /\ statusCode (res w) = 405).
Proof.
  unfold supported. cbv zeta. intros Hm.
  apply orb_false_elim in Hm as [Hm HD].
  apply orb_false_elim in Hm as [HG HP].
  split.
  - unfold Full.serve, normalized_of.
    pose proof (parse_unfold (cwd e) (rawUrl_of req)) as Hu. cbv zeta in Hu.
    destruct (JS.decodeURIComponent _) as [d|].
    + destruct (JS.startsWith _ _).
      * rewrite (handler_resolved _ _ _ _ Hu). cbv zeta.
        rewrite HG, HP, HD.
        by rewrite send_status, send_fs, send_trace, send_ended.
      * rewrite (handler_forbidden _ _ _ Hu).
        by rewrite send_status, send_fs, send_trace, send_ended.
    + rewrite (handler_bad_request _ _ _ Hu).
      by rewrite send_status, send_fs, send_trace, send_ended.
  - unfold ReadOnly.serve, ReadOnly.handler. rewrite HG. cbn [negb].
    by rewrite ro_send_status, ro_send_fs, ro_send_trace, ro_send_ended.
Qed.

Lemma unsupported_method_response_witness :
  let good := ex_req "PATCH" "/index.html" [] in
  let sibling := ex_req "PATCH" "/../public-evil/secret.txt" [] in
  let above := ex_req "PATCH" "/../../etc/passwd" [] in
  supported good = false
  /\ statusCode (res (Full.serve ex_env ex_fs good)) = 405
  /\ statusCode (res (ReadOnly.serve ex_env ex_fs good)) = 405
  /\ statusCode (res (Full.serve ex_env ex_fs sibling)) = 405
  /\ statusCode (res (Full.serve ex_env ex_fs above)) = 403.
Proof.
  cbv zeta.
  destruct (unsupported_method_response ex_env ex_fs
              (ex_req "PATCH" "/index.html" []) eq_refl)
    as ((_ & _ & _ & H1) & (_ & _ & _ & H2)).
  destruct (unsupported_method_response ex_env ex_fs
              (ex_req "PATCH" "/../public-evil/secret.txt" []) eq_refl)
    as ((_ & _ & _ & H3) & _).
  destruct (unsupported_method_response ex_env ex_fs
              (ex_req "PATCH" "/../../etc/passwd" []) eq_refl)
    as ((_ & _ & _ & H4) & _).
  split; [reflexivity|]. split; [exact H1|]. split; [exact H2|].
  split; [exact H3 | exact H4].
Defined.

(** ** C6: PUT below a missing directory *)

(** C6. For a PUT whose path resolves to [p], by what the stat of the
    parent directory of [p] does.  When it fails, or reports something
    that is not a directory, the answer is 404 with the line
    [Not Found], the file system is unchanged and that stat is the only
    system call.  When it throws, which it does when the parent holds
    U+0000, no response is sent at all: the claim's 404 is missing
    there.  Nothing is created in either case. *)
Theorem put_missing_parent_404 e fs0 req p :
  default [] (method req) = js "PUT" ->
  Full.parseAndResolvePath (cwd e) (rawUrl_of req)
  = {| absPath := Some p; status := None |} ->
  let w := Full.serve e fs0 req in
  let not_found :=
    statusCode (res w) = 404
    /\ ended (res w) = Some (JS.utf8_of_string (js "Not Found" ++ [LF]))
    /\ fs w = fs0
    /\ trace w = [SysStat (Path.dirname p)] in
  match Fs.stat (fault e) fs0 (Path.dirname p) with
  | Throws =>
      has_nul (Path.dirname p) = true
      /\ ended (res w) = None /\ fs w = fs0 /\ trace w = []
  | Fails _ => not_found
  | Gives st => isDirectory st = false -> not_found
  end.
Proof.
  intros Hm Hp. cbv zeta. unfold Full.serve.
  rewrite (handler_resolved _ _ _ _ Hp). cbv zeta. rewrite Hm.
  change (jstring_eqb (js "PUT") (js "GET")) with false.
  change (jstring_eqb (js "PUT") (js "PUT")) with true.
  cbv iota. rewrite handlePut_run. cbv zeta. cbn [fs].
  destruct (Fs.stat _ _ _) as [|err|st] eqn:Est.
  - apply stat_throws in Est. done.
  - by rewrite send_status, send_fs, send_trace, send_ended.
  - intros ->. by rewrite send_status, send_fs, send_trace, send_ended.
Qed.

Lemma put_missing_parent_404_witness :
  let missing := ex_req "PUT" "/missingdir/foo.txt" (js "hello") in
  let nul := ex_req "PUT" "/%00/x" (js "hello") in
  (Fs.stat no_fault ex_fs (js "/srv/public/missingdir") = Fails ENOENT
   /\ statusCode (res (Full.serve ex_env ex_fs missing)) = 404
   /\ fs (Full.serve ex_env ex_fs missing) = ex_fs)
  /\ (Full.parseAndResolvePath (js "/srv") (js "/%00/x")
      = {| absPath := Some (js "/srv/public/" ++ [0; SLASH] ++ js "x");
           status := None |}
      /\ ended (res (Full.serve ex_env ex_fs nul)) = None
      /\ trace (Full.serve ex_env ex_fs nul) = []).
Proof.
  cbv zeta. split.
  - split; [reflexivity|].
    pose proof (put_missing_parent_404 ex_env ex_fs
                  (ex_req "PUT" "/missingdir/foo.txt" (js "hello"))
                  (js "/srv/public/missingdir/foo.txt") eq_refl eq_refl)
      as (H1 & _ & H2 & _).
    split; [exact H1 | exact H2].
  - split; [reflexivity|].
    pose proof (put_missing_parent_404 ex_env ex_fs
                  (ex_req "PUT" "/%00/x" (js "hello"))
                  (js "/srv/public/" ++ [0; SLASH] ++ js "x")
                  eq_refl eq_refl)
      as (_ & H1 & _ & H2).
    split; [exact H1 | exact H2].
Defined.

(** ** C7: DELETE *)

Ltac dispatch Hp Hm :=
  unfold Full.serve; rewrite (handler_resolved _ _ _ _ Hp);
  cbv zeta; rewrite Hm;
  repeat match goal with
    | |- context [jstring_eqb (js ?a) (js ?b)] =>
        let v := eval vm_compute in (jstring_eqb (js a) (js b)) in
        change (jstring_eqb (js a) (js b)) with v
    end;
  cbv iota.

(** C7 as stated fails: on the small deployment [/index.html/x] names
    no file, and its DELETE is answered 500, not 404.  The removal fails
    with ENOTDIR, because the way to that name runs through a regular
    file, and only ENOENT is answered 404. *)
Lemma delete_below_file_is_500 :
  let req := ex_req "DELETE" "/index.html/x" [] in
  let w := Full.serve ex_env ex_fs req in
  Full.parseAndResolvePath (cwd ex_env) (rawUrl_of req)
  = {| absPath := Some (js "/srv/public/index.html/x"); status := None |}
  /\ ex_fs !! js "/srv/public/index.html/x" = None
  /\ Fs.unlink (fault ex_env) ex_fs (js "/srv/public/index.html/x")
     = Fails ENOTDIR
  /\ statusCode (res w) = 500
  /\ ended (res w)
     = Some (JS.utf8_of_string (js "Internal Server Error" ++ [LF]))
  /\ statusCode (res w) <> 404.
Proof. vm_compute. repeat split; discriminate. Qed.

(** C7, amended. For a DELETE whose path resolves to [p], by what the
    removal does.  When it succeeds the answer is 204 with an empty body
    and the header [Content-Length: 0], and the file is gone, so that
    the same DELETE repeated is answered 404.  When it fails with ENOENT
    the answer is 404; when it fails with any other error, ENOTDIR for a
    name below a regular file among them, the answer is 500.  A failed
    removal leaves the file system as it was.  The removal returns in
    one of these ways unless [p] holds U+0000. *)
Theorem delete_responses e fs0 req p :
  default [] (method req) = js "DELETE" ->
  Full.parseAndResolvePath (cwd e) (rawUrl_of req)
  = {| absPath := Some p; status := None |} ->
  let w := Full.serve e fs0 req in
  match Fs.unlink (fault e) fs0 p with
  | Gives fs1 =>
      statusCode (res w) = 204 /\ ended (res w) = Some []
      /\ getHeader (res w) (js "Content-Length") = Some (js "0")
      /\ fs w = fs1 /\ fs1 !! p = None
      /\ forall e2, cwd e2 = cwd e -> fault e2 (SysUnlink p) = None ->
           let w2 := Full.serve e2 (fs w) req in
           statusCode (res w2) = 404 /\ is_Some (ended (res w2))
           /\ fs w2 = fs w
  | Fails ENOENT =>
      statusCode (res w) = 404 /\ is_Some (ended (res w)) /\ fs w = fs0
  | Fails _ =>
      statusCode (res w) = 500 /\ is_Some (ended (res w)) /\ fs w = fs0
  | Throws => has_nul p = true
  end.
Proof.
  intros Hm Hp. cbv zeta. dispatch Hp Hm.
  rewrite handleDelete_run. cbv zeta. cbn [fs].
  destruct (Fs.unlink (fault e) fs0 p) as [|code|fs1] eqn:Eu.
  - by apply unlink_throws in Eu.
  - destruct (bool_decide (code = ENOENT)) eqn:E.
    + apply bool_decide_eq_true in E as ->.
      by rewrite send_status, send_fs, send_ended.
    + apply bool_decide_eq_false in E.
      rewrite send_status, send_fs, send_ended. by destruct code.
  - apply unlink_inv in Eu as (-> & Hreg & Hnul & Hblk).
    rewrite send_status, send_fs, send_ended. cbn [fs with_fs].
    split; [done|]. split; [done|].
    split; [apply send_typed_headers|]. split; [done|].
    split; [apply lookup_delete_eq|].
    intros e2 Hcwd Hf. rewrite <- Hcwd in Hp. dispatch Hp Hm.
    rewrite handleDelete_run. cbv zeta. cbn [fs].
    unfold Fs.unlink.
    rewrite Hnul, Hf, blocked_delete, Hblk, lookup_delete_eq.
    rewrite bool_decide_eq_true_2 by done.
    by rewrite send_status, send_ended, send_fs.
Qed.

Lemma delete_responses_witness :
  let req := ex_req "DELETE" "/index.html" [] in
  let w := Full.serve ex_env ex_fs req in
  statusCode (res w) = 204 /\ ended (res w) = Some []
  /\ getHeader (res w) (js "Content-Length") = Some (js "0")
  /\ statusCode (res (Full.serve ex_env (fs w) req)) = 404.
Proof.
  cbv zeta.
  pose proof (delete_responses ex_env ex_fs
                (ex_req "DELETE" "/index.html" [])
                (js "/srv/public/index.html") eq_refl eq_refl) as H.
  cbv zeta in H.
  change (Fs.unlink (fault ex_env) ex_fs (js "/srv/public/index.html"))
    with (Gives (delete (js "/srv/public/index.html") ex_fs)) in H.
  cbv iota in H.
  destruct H as (H1 & H2 & H3 & _ & _ & H4).
  split; [exact H1|]. split; [exact H2|]. split; [exact H3|].
  exact (proj1 (H4 ex_env eq_refl eq_refl)).
Defined.

(** ** C4: the status of a PUT *)

Lemma stat_gives_nul f fs0 q st :
  Fs.stat f fs0 q = Gives st -> has_nul q = false.
Proof.
  intros H. destruct (has_nul q) eqn:E; [|done].
  apply (stat_throws f fs0) in E. congruence.
Qed.

Lemma is_regular_stat f fs0 p :
  has_nul p = false ->
  f (SysStat p) = None ->
  match Fs.stat f fs0 p with
  | Gives st => isFile st
  | _ => false
  end = is_regular fs0 p.
Proof.
  intros Hn Hf. rewrite (stat_no_fault _ _ _ Hn Hf). unfold is_regular.
  by destruct (fs0 !! p) as [[d|]|].
Qed.

(** C4. For a PUT whose path resolves to [p], when the parent directory
    of [p] is there, the whole body has been read and the write
    succeeds, the answer has an empty body and its status is 200 when
    the stat of [p] reported a regular file and 201 otherwise; unless
    that stat itself failed, this is whether [p] was a regular file of
    the tree.  The file system is then the one the write produced, and
    the same PUT repeated on it is answered 200 and changes nothing. *)
Theorem put_status_codes e fs0 req p pst body fs1 :
  default [] (method req) = js "PUT" ->
  Full.parseAndResolvePath (cwd e) (rawUrl_of req)
  = {| absPath := Some p; status := None |} ->
  Fs.stat (fault e) fs0 (Path.dirname p) = Gives pst ->
  isDirectory pst = true ->
  Full.readRequestBody req = (false, Some body) ->
  Fs.writeFile (fault e) fs0 p body = Gives fs1 ->
  let w := Full.serve e fs0 req in
  let existed :=
    match Fs.stat (fault e) fs0 p with
    | Gives st => isFile st
    | _ => false
    end in
  statusCode (res w) = (if existed then 200 else 201)
  /\ (fault e (SysStat p) = None -> existed = is_regular fs0 p)
  /\ ended (res w) = Some []
  /\ fs w = fs1
  /\ forall e2,
       cwd e2 = cwd e ->
       fault e2 (SysStat (Path.dirname p)) = None ->
       fault e2 (SysStat p) = None ->
       fault e2 (SysWriteFile p body) = None ->
       let w2 := Full.serve e2 (fs w) req in
       statusCode (res w2) = 200 /\ ended (res w2) = Some []
       /\ fs w2 = fs w.
Proof.
  intros Hm Hp Hpst Hdir Hbody Hwr. cbv zeta.
  assert (Hrun : forall e' fs' ex,
    cwd e' = cwd e ->
    Fs.stat (fault e') fs' (Path.dirname p) = Gives pst ->
    Fs.writeFile (fault e') fs' p body = Gives (<[p := File body]> fs') ->
    match Fs.stat (fault e') fs' p with
    | Gives st => isFile st
    | _ => false
    end = ex ->
    let w := Full.serve e' fs' req in
    statusCode (res w) = (if ex then 200 else 201)
    /\ ended (res w) = Some [] /\ fs w = <[p := File body]> fs').
  { intros e' fs' ex Hc Hs Hw <-. cbv zeta. rewrite <- Hc in Hp.
    dispatch Hp Hm. rewrite handlePut_run. cbv zeta. cbn [fs].
    rewrite Hs, Hdir, Hbody, Hw.
    destruct (Fs.stat (fault e') fs' p) as [|err|st] eqn:Est.
    - apply stat_throws in Est. apply writeFile_inv in Hw.
      destruct Hw as (_ & _ & _ & Hn & _). congruence.
    - by rewrite send_status, send_fs, send_ended.
    - by rewrite send_status, send_fs, send_ended. }
  destruct (writeFile_inv _ _ _ _ _ Hwr)
    as (-> & HnotDir & Hparent & Hnul & Hblk).
  destruct (Hrun e fs0 _ eq_refl Hpst Hwr eq_refl) as (H1 & H2 & H3).
  split; [done|]. split; [by apply is_regular_stat|].
  split; [done|]. split; [done|].
  intros e2 Hc Hf1 Hf2 Hf3. cbv zeta. rewrite H3.
  assert (Hne : p <> Path.dirname p) by (intros E; congruence).
  pose proof (stat_gives_nul _ _ _ _ Hpst) as Hnd.
  destruct (Hrun e2 (<[p := File body]> fs0) true Hc) as (G1 & G2 & G3).
  - rewrite (stat_no_fault _ _ _ Hnd Hf1), lookup_insert_ne, Hparent by done.
    f_equal. unfold Fs.stat in Hpst. rewrite Hnd in Hpst.
    destruct (fault e _); [discriminate|]. rewrite Hparent in Hpst.
    by simplify_eq.
  - unfold Fs.writeFile, Fs.opens.
    by rewrite Hnul, Hf3, blocked_insert, Hblk, lookup_insert_eq,
      lookup_insert_ne, Hparent.
  - by rewrite (stat_no_fault _ _ _ Hnul Hf2), lookup_insert_eq.
  - split; [done|]. split; [done|]. by rewrite G3, insert_insert_eq.
Qed.

Lemma put_status_codes_witness :
  let req := ex_req "PUT" "/foo.txt" (js "hello") in
  let w := Full.serve ex_env ex_fs req in
  is_regular ex_fs (js "/srv/public/foo.txt") = false
  /\ statusCode (res w) = 201
  /\ statusCode (res (Full.serve ex_env (fs w) req)) = 200.
Proof.
  cbv zeta. split; [reflexivity|].
  destruct (put_status_codes ex_env ex_fs
              (ex_req "PUT" "/foo.txt" (js "hello"))
              (js "/srv/public/foo.txt") (stats_of Dir) (js "hello")
              (<[js "/srv/public/foo.txt" := File (js "hello")]> ex_fs)
              eq_refl eq_refl eq_refl eq_refl eq_refl eq_refl)
    as (H1 & _ & _ & _ & H5).
  split; [exact H1|].
  exact (proj1 (H5 ex_env eq_refl eq_refl eq_refl eq_refl)).
Defined.

(** ** C5: PUT then GET *)

Lemma handleGet_regular e p d w :
  has_nul p = false ->
  fs w !! p = Some (File d) ->
  fault e (SysStat p) = None ->
  fault e (SysReadFile p) = None ->
  Full.handleGet e p w =
  Full.send e 200
    [(js "Content-Type", guessContentType p);
     (js "Content-Length", String_of_N (N.of_nat (length d)))]
    (Some (inl d)) (log_call (SysReadFile p) (log_call (SysStat p) w)).
Proof.
  intros Hn Hd Hs Hr. rewrite handleGet_run. cbv zeta.
  rewrite (stat_no_fault _ _ _ Hn Hs), Hd. cbn [stats_of isFile].
  unfold Fs.readFile. by rewrite Hn, Hr, Hd.
Qed.

Lemma guessContentType_txt p :
  JS.toLowerCase (Path.extname p) = js ".txt" ->
  guessContentType p = js "text/plain; charset=utf-8".
Proof. unfold guessContentType. by intros ->. Qed.

Lemma answered_send e c hs body w c' :
  answered (snd (Full.send e c hs body w)) c' <-> c = c'.
Proof.
  unfold answered. rewrite send_status, send_ended. split; [by intros []|].
  intros ->. by split.
Qed.

Lemma not_answered_unsent w c : ended (res w) = None -> ~ answered w c.
Proof. intros H [[b Hb] _]. congruence. Qed.

(** A PUT answered 200 or 201 has written the concatenated chunks of its
    body at the resolved path, which holds no U+0000, below a
    directory. *)
Lemma put_success_inv e fs0 req p :
  default [] (method req) = js "PUT" ->
  Full.parseAndResolvePath (cwd e) (rawUrl_of req)
  = {| absPath := Some p; status := None |} ->
  let w := Full.serve e fs0 req in
  answered w 200 \/ answered w 201 ->
  fs w = <[p := File (concat (chunks req))]> fs0
  /\ has_nul p = false
  /\ blocked fs0 p = false
  /\ fs0 !! Path.dirname p = Some Dir.
Proof.
  intros Hm Hp. cbv zeta. dispatch Hp Hm.
  rewrite handlePut_run. cbv zeta. cbn [fs].
  destruct (Fs.stat _ _ (Path.dirname p)) as [|err|pst].
  { intros [H|H]; by apply not_answered_unsent in H. }
  { rewrite !answered_send. intros [|]; discriminate. }
  destruct (isDirectory pst).
  2:{ rewrite !answered_send. intros [|]; discriminate. }
  destruct (Fs.stat _ _ p) as [|err|st] eqn:Est.
  { intros [H|H]; by apply not_answered_unsent in H. }
  all: unfold Full.readRequestBody; destruct (stream_failed req);
    [rewrite !answered_send; intros [|]; discriminate|];
    destruct (Fs.writeFile _ _ _ _) as [|err'|fs1] eqn:Ew;
    [intros [H|H]; by apply not_answered_unsent in H
    |rewrite !answered_send; intros [|]; discriminate|];
    intros _; rewrite send_fs; cbn [fs with_fs];
    by destruct (writeFile_inv _ _ _ _ _ Ew) as (-> & _ & ? & ? & ?).
Qed.

(** When a PUT of the body [B] to a URL that resolves to a path with
    the extension [.txt] (in any letter case) has been answered 200 or
    201, a GET of the same URL, whose stat and read do not fail for a
    reason outside the tree, is answered 200 with body exactly [B],
    [Content-Type: text/plain; charset=utf-8] and a [Content-Length]
    that is the decimal length of [B] in octets; the GET changes
    nothing. *)
Lemma put_then_get_txt e1 e2 fs0 put get p :
  default [] (method put) = js "PUT" ->
  default [] (method get) = js "GET" ->
  rawUrl_of get = rawUrl_of put ->
  cwd e2 = cwd e1 ->
  Full.parseAndResolvePath (cwd e1) (rawUrl_of put)
  = {| absPath := Some p; status := None |} ->
  JS.toLowerCase (Path.extname p) = js ".txt" ->
  let w1 := Full.serve e1 fs0 put in
  answered w1 200 \/ answered w1 201 ->
  fault e2 (SysStat p) = None ->
  fault e2 (SysReadFile p) = None ->
  let B := concat (chunks put) in
  let w2 := Full.serve e2 (fs w1) get in
  statusCode (res w2) = 200
  /\ ended (res w2) = Some B
  /\ getHeader (res w2) (js "Content-Type")
     = Some (js "text/plain; charset=utf-8")
  /\ getHeader (res w2) (js "Content-Length")
     = Some (String_of_N (N.of_nat (length B)))
  /\ fs w2 = fs w1.
Proof.
  intros Hput Hget Hurl Hcwd Hp Hext. cbv zeta. intros Hok Hs Hr.
  destruct (put_success_inv _ _ _ _ Hput Hp Hok) as (-> & Hn & _).
  assert (Hp2 : Full.parseAndResolvePath (cwd e2) (rawUrl_of get)
                = {| absPath := Some p; status := None |})
    by (by rewrite Hcwd, Hurl).
  dispatch Hp2 Hget.
  erewrite handleGet_regular; [|done|apply lookup_insert_eq|done|done].
  rewrite send_status, send_fs, send_ended.
  rewrite (guessContentType_txt _ Hext).
  split; [done|]. split; [done|].
  split; [apply send_typed_headers|].
  split; [apply send_typed_headers|done].
Qed.

(** ** C8: the headers of every response *)

Lemma has_nul_take n p : has_nul (take n p) = true -> has_nul p = true.
Proof.
  intros H. rewrite <- (take_drop n p). unfold has_nul in *.
  by rewrite existsb_app, H.
Qed.

(** The parent of a path without U+0000 has none either. *)
Lemma dirname_nul p : has_nul (Path.dirname p) = true -> has_nul p = true.
Proof.
  unfold Path.dirname. destruct p as [|c0 tl]; [discriminate|]. cbv zeta.
  destruct (JS.drop_while _ _) as [|u upto].
  - by destruct (Path.is_slash c0).
  - destruct (_ && _); [discriminate|]. apply has_nul_take.
Qed.

Lemma ro_handler_run e req w :
  ReadOnly.handler e req w =
  if negb (jstring_eqb (default [] (method req)) (js "GET")) then
    ReadOnly.send e 405 PLAIN (line "Method Not Allowed") w
  else
    let pathname := pathname_of (rawUrl_of req) in
    let requestPath :=
      if jstring_eqb pathname (js "/") then js "/index.html"
      else pathname in
    match JS.decodeURIComponent requestPath with
    | None => ReadOnly.send e 400 PLAIN (line "Bad Request") w
    | Some d =>
        let p := Path.resolve (cwd e) [PUBLIC_DIR (cwd e); js "." ++ d] in
        if negb (JS.startsWith p (PUBLIC_DIR (cwd e))) then
          ReadOnly.send e 403 PLAIN (line "Forbidden") w
        else
          let w1 := log_call (SysStat p) w in
          match Fs.stat (fault e) (fs w) p with
          | Throws => (None, w)
          | Fails _ => ReadOnly.send e 404 PLAIN (line "Not Found") w1
          | Gives st =>
              if isFile st then
                let w2 := log_call (SysReadFile p) w1 in
                match Fs.readFile (fault e) (fs w) p with
                | Throws => (None, w1)
                | Fails _ =>
                    ReadOnly.send e 500 PLAIN
                      (line "Internal Server Error") w2
                | Gives data =>
                    ReadOnly.send e 200
                      [(js "Content-Type", guessContentType p);
                       (js "Content-Length",
                        String_of_N (N.of_nat (length data)))]
                      (Some (inl data)) w2
                end
              else ReadOnly.send e 404 PLAIN (line "Not Found") w1
          end
    end.
Proof.
  unfold ReadOnly.handler, pathname_of, rawUrl_of.
  destruct (negb _); [done|]. cbv zeta.
  destruct (JS.decodeURIComponent _) as [d|]; [|done].
  destruct (negb _); [done|].
  unfold mbind, M_bind, fs_stat.
  destruct (Fs.stat _ _ _) as [|err|st]; [done..|].
  destruct (isFile st); [|done]. cbn [negb].
  unfold fs_readFile. cbn [fs log_call].
  by destruct (Fs.readFile _ _ _).
Qed.

(** The full server either sends a framed response or sends nothing,
    and the latter only when the resolved path holds U+0000. *)
Lemma full_sent_or_thrown e fs0 req :
  let w := Full.serve e fs0 req in
  framed e (res w)
  \/ (ended (res w) = None
      /\ exists p,
           Full.parseAndResolvePath (cwd e) (rawUrl_of req)
           = {| absPath := Some p; status := None |}
           /\ has_nul p = true).
Proof.
  cbv zeta. unfold Full.serve.
  destruct (parse_cases (cwd e) (rawUrl_of req)) as [(p & _ & E)|[E|E]].
  - assert (Hthrown : forall w' : World,
      ended (res w') = None -> has_nul p = true ->
      framed e (res w')
      \/ (ended (res w') = None
          /\ exists p0,
               Full.parseAndResolvePath (cwd e) (rawUrl_of req)
               = {| absPath := Some p0; status := None |}
               /\ has_nul p0 = true)).
    { intros w' Hw' Hn. right. split; [done|]. by exists p. }
    rewrite (handler_resolved _ _ _ _ E). cbv zeta.
    destruct (jstring_eqb _ (js "GET")).
    { rewrite handleGet_run. cbv zeta. cbn [fs].
      destruct (Fs.stat _ _ _) as [|?|st] eqn:Es.
      - apply Hthrown; [done|]. by apply stat_throws in Es.
      - left. apply send_plain_framed.
      - destruct (isFile st); [|left; apply send_plain_framed].
        destruct (Fs.readFile _ _ _) as [|?|data] eqn:Er.
        + apply Hthrown; [done|]. by apply readFile_throws in Er.
        + left. apply send_plain_framed.
        + left. apply (send_typed_framed e 200 _ (Some (inl data))). }
    destruct (jstring_eqb _ (js "PUT")).
    { rewrite handlePut_run. cbv zeta. cbn [fs].
      destruct (Fs.stat _ _ (Path.dirname p)) as [|?|pst] eqn:Es.
      - apply Hthrown; [done|]. apply stat_throws in Es.
        by apply dirname_nul.
      - left. apply send_plain_framed.
      - destruct (isDirectory pst); [|left; apply send_plain_framed].
        destruct (Fs.stat _ _ p) as [|?|st] eqn:Es2.
        { apply Hthrown; [done|]. by apply stat_throws in Es2. }
        all: destruct (Full.readRequestBody req) as [[|] [body|]];
          try (left; apply send_plain_framed);
          destruct (Fs.writeFile _ _ _ _) eqn:Ew;
          [apply Hthrown; [done|]; by apply writeFile_throws in Ew
          |left; apply send_plain_framed
          |left; apply send_plain_framed]. }
    destruct (jstring_eqb _ (js "DELETE")); [|left; apply send_plain_framed].
    rewrite handleDelete_run. cbv zeta. cbn [fs].
    destruct (Fs.unlink _ _ _) as [|code|fs1] eqn:Eu.
    + apply Hthrown; [done|]. by apply unlink_throws in Eu.
    + left. destruct (bool_decide _); apply send_plain_framed.
    + left. apply (send_typed_framed e 204 _ None).
  - left. rewrite (handler_bad_request _ _ _ E). apply send_plain_framed.
  - left. rewrite (handler_forbidden _ _ _ E). apply send_plain_framed.
Qed.

(** The headers the read-only server has set when it ends a response:
    [Date], [Connection] and the [Content-Type] its handler names; a
    [Content-Length] on the 200 only. *)
Lemma read_only_headers e fs0 req b :
  let r := res (ReadOnly.serve e fs0 req) in
  ended r = Some b ->
  getHeader r (js "Date") = Some (now e)
  /\ getHeader r (js "Connection") = Some (js "close")
  /\ is_Some (getHeader r (js "Content-Type"))
  /\ getHeader r (js "Content-Length")
     = (if statusCode r =? 200
        then Some (String_of_N (N.of_nat (length b)))
        else None).
Proof.
  assert (Hplain : forall c body w,
    c <> 200 ->
    resHeaders (res w) = ∅ ->
    let r := res (snd (ReadOnly.send e c PLAIN body w)) in
    ended r = Some b ->
    getHeader r (js "Date") = Some (now e)
    /\ getHeader r (js "Connection") = Some (js "close")
    /\ is_Some (getHeader r (js "Content-Type"))
    /\ getHeader r (js "Content-Length")
       = (if statusCode r =? 200
          then Some (String_of_N (N.of_nat (length b)))
          else None)).
  { intros c body w Hc Hw. cbv zeta. rewrite ro_send_status.
    apply N.eqb_neq in Hc. rewrite Hc.
    unfold ReadOnly.send, on_res.
    cbn [snd res PLAIN fold_left fst]. rewrite !getHeader_res_end.
    intros _.
    split; [header_lookup|]. split; [header_lookup|].
    split; [header_lookup; done|]. header_lookup.
    unfold getHeader, setStatus. cbn [resHeaders]. by rewrite Hw. }
  cbv zeta. unfold ReadOnly.serve. rewrite ro_handler_run.
  destruct (negb _); [by apply Hplain|]. cbv zeta.
  destruct (JS.decodeURIComponent _) as [d|]; [|by apply Hplain].
  destruct (negb _); [by apply Hplain|]. cbn [fs].
  destruct (Fs.stat _ _ _) as [|?|st]; [discriminate|by apply Hplain|].
  destruct (isFile st); [|by apply Hplain].
  destruct (Fs.readFile _ _ _) as [|?|data];
    [discriminate|by apply Hplain|].
  rewrite ro_send_status, ro_send_ended. intros [= <-].
  unfold ReadOnly.send, on_res.
  cbn [snd res fold_left fst]. rewrite !getHeader_res_end.
  split; [header_lookup|]. split; [header_lookup|].
  split; [header_lookup; done|]. cbn [N.eqb Pos.eqb octets_of]. header_lookup.
Qed.

(** C8 as stated fails: on the small deployment the read-only server
    answers a HEAD of [/index.html] with 405 and a line of nineteen
    octets, and has set no [Content-Length] when it ends the response. *)
Lemma read_only_405_names_no_length :
  let w := ReadOnly.serve ex_env ex_fs (ex_req "HEAD" "/index.html" []) in
  statusCode (res w) = 405
  /\ ended (res w)
     = Some (JS.utf8_of_string (js "Method Not Allowed" ++ [LF]))
  /\ getHeader (res w) (js "Content-Length") = None
  /\ ~ framed ex_env (res w).
Proof.
  cbv zeta. split; [reflexivity|]. split; [reflexivity|].
  split; [reflexivity|].
  intros (_ & _ & _ & b & _ & H). vm_compute in H. discriminate H.
Qed.

(** C8, amended. Every response the full server sends, whatever the
    method, the path and the outcome, carries [Date],
    [Connection: close], a [Content-Type], and a [Content-Length] that is
    the decimal length in octets of the body sent; its [send] supplies
    [Content-Type: text/plain; charset=utf-8] whenever its caller names
    no content type, and the length of the body whenever its caller
    names no content length.  It sends a response unless the resolved
    path holds U+0000.  Every response the read-only server sends
    carries [Date], [Connection: close] and the [Content-Type] its
    handler names; its [send] has no defaults, and it sets a
    [Content-Length], the length of the file sent, on its 200 only. *)
Theorem every_response_framed e fs0 req c hs body w :
  (let wf := Full.serve e fs0 req in
   (is_Some (ended (res wf)) -> framed e (res wf))
   /\ (ended (res wf) = None ->
       exists p,
         Full.parseAndResolvePath (cwd e) (rawUrl_of req)
         = {| absPath := Some p; status := None |}
         /\ has_nul p = true))
  /\ (obj_has (js "Content-Type") hs = false ->
      getHeader (res (snd (Full.send e c hs body w))) (js "Content-Type")
      = Some (js "text/plain; charset=utf-8"))
  /\ (obj_has (js "Content-Length") hs = false ->
      getHeader (res (snd (Full.send e c hs body w))) (js "Content-Length")
      = Some (String_of_N (N.of_nat (length (Full.toBuffer body)))))
  /\ (let r := res (ReadOnly.serve e fs0 req) in
      forall b, ended r = Some b ->
        getHeader r (js "Date") = Some (now e)
        /\ getHeader r (js "Connection") = Some (js "close")
        /\ is_Some (getHeader r (js "Content-Type"))
        /\ getHeader r (js "Content-Length")
           = (if statusCode r =? 200
              then Some (String_of_N (N.of_nat (length b)))
              else None)).
Proof.
  split.
  { cbv zeta. destruct (full_sent_or_thrown e fs0 req) as [H|[Hn H]].
    - split; [done|]. destruct H as (_ & _ & _ & b & Hb & _).
      rewrite Hb. discriminate.
    - split; [|done]. rewrite Hn. by intros [? ?]. }
  split; [apply send_default_type|].
  split; [apply send_default_length|].
  cbv zeta. intros b. apply read_only_headers.
Qed.

Lemma every_response_framed_witness :
  let w0 := {| fs := ex_fs; res := fresh_response; trace := [] |} in
  let get := ex_req "GET" "/" [] in
  obj_has (js "Content-Type") [] = false
  /\ framed ex_env (res (Full.serve ex_env ex_fs get))
  /\ getHeader (res (snd (Full.send ex_env 200 [] (line "ok") w0)))
       (js "Content-Type")
     = Some (js "text/plain; charset=utf-8")
  /\ getHeader (res (snd (Full.send ex_env 200 [] (line "ok") w0)))
       (js "Content-Length")
     = Some (js "3")
  /\ getHeader (res (ReadOnly.serve ex_env ex_fs get)) (js "Content-Length")
     = Some (js "11")
  /\ getHeader (res (ReadOnly.serve ex_env ex_fs (ex_req "GET" "/nothing" [])))
       (js "Content-Length")
     = None.
Proof.
  cbv zeta. split; [reflexivity|].
  destruct (every_response_framed ex_env ex_fs (ex_req "GET" "/" [])
              200 [] (line "ok")
              {| fs := ex_fs; res := fresh_response; trace := [] |})
    as ((H1 & _) & H2 & H3 & H4).
  destruct (every_response_framed ex_env ex_fs (ex_req "GET" "/nothing" [])
              200 [] (line "ok")
              {| fs := ex_fs; res := fresh_response; trace := [] |})
    as (_ & _ & _ & H5).
  split; [apply H1; by eexists|].
  split; [exact (H2 eq_refl)|]. split; [exact (H3 eq_refl)|].
  split.
  - exact (proj2 (proj2 (proj2 (H4 _ eq_refl)))).
  - exact (proj2 (proj2 (proj2 (H5 _ eq_refl)))).
Defined.

(** ** Path algebra: splitting, joining, normalising *)

Lemma split_nonempty sep s : JS.split sep s <> [].
Proof.
  destruct s as [|c s]; simpl; [done|].
  destruct (c =? sep); [done|]. by destruct (JS.split sep s).
Qed.

Lemma split_app sep a b :
  JS.split sep (a ++ sep :: b) = JS.split sep a ++ JS.split sep b.
Proof.
  induction a as [|c a IH]; simpl.
  - by rewrite N.eqb_refl.
  - destruct (c =? sep); [by rewrite IH|].
    rewrite IH. pose proof (split_nonempty sep a).
    by destruct (JS.split sep a).
Qed.

Lemma split_plain s :
  forallb (fun c => negb (c =? SLASH)) s = true -> JS.split SLASH s = [s].
Proof.
  induction s as [|c s IH]; simpl; [done|].
  intros [Hc Hs]%andb_true_iff. apply negb_true_iff in Hc.
  by rewrite Hc, IH.
Qed.

Lemma split_no_sep s :
  Forall (fun seg => forallb (fun c => negb (c =? SLASH)) seg = true)
    (JS.split SLASH s).
Proof.
  induction s as [|c s IH]; simpl.
  - by repeat constructor.
  - destruct (c =? SLASH) eqn:E; [by constructor|].
    pose proof (split_nonempty SLASH s).
    destruct (JS.split SLASH s) as [|w ws]; [done|].
    inversion IH; subst. constructor; [|done]. simpl. by rewrite E.
Qed.

Lemma plain_seg_no_slash s :
  is_plain_seg s = true -> forallb (fun c => negb (c =? SLASH)) s = true.
Proof. unfold is_plain_seg. by intros [_ H]%andb_true_iff. Qed.

Lemma plain_seg_tests s :
  is_plain_seg s = true ->
  jstring_eqb s [] = false /\ jstring_eqb s (js ".") = false
  /\ jstring_eqb s (js "..") = false.
Proof.
  unfold is_plain_seg.
  intros [[[H1 H2]%andb_true_iff H3]%andb_true_iff _]%andb_true_iff.
  by rewrite !negb_true_iff in H1, H2, H3.
Qed.

Lemma split_join ns :
  ns <> [] -> forallb is_plain_seg ns = true ->
  JS.split SLASH (Path.join ns) = ns.
Proof.
  induction ns as [|s ns IH]; [done|]. intros _. simpl.
  intros [Hs Hns]%andb_true_iff.
  destruct ns as [|s' ns'].
  - by apply split_plain, plain_seg_no_slash.
  - rewrite split_app, IH by done.
    by rewrite split_plain by by apply plain_seg_no_slash.
Qed.

Lemma join_snoc ns s :
  ns <> [] -> Path.join (ns ++ [s]) = Path.join ns ++ SLASH :: s.
Proof.
  induction ns as [|a ns IH]; [done|]. intros _.
  destruct ns as [|b ns']; [done|].
  change (Path.join ((a :: b :: ns') ++ [s]))
    with (a ++ SLASH :: Path.join ((b :: ns') ++ [s])).
  rewrite IH by done.
  change (Path.join (a :: b :: ns')) with (a ++ SLASH :: Path.join (b :: ns')).
  by rewrite <- app_assoc.
Qed.

Lemma normalize_go_app a acc xs ys :
  Path.normalize_go a acc (xs ++ ys)
  = Path.normalize_go a (rev (Path.normalize_go a acc xs)) ys.
Proof.
  revert acc. induction xs as [|x xs IH]; intros acc; simpl.
  - by rewrite rev_involutive.
  - destruct (_ || _); [apply IH|].
    destruct (jstring_eqb x (js "..")); [|apply IH].
    destruct acc as [|top acc']; [apply IH|].
    destruct (jstring_eqb top (js "..")); apply IH.
Qed.

Lemma normalize_go_plain a acc ns :
  forallb is_plain_seg ns = true ->
  Path.normalize_go a acc ns = rev acc ++ ns.
Proof.
  revert acc. induction ns as [|s ns IH]; intros acc; simpl.
  - by rewrite app_nil_r.
  - intros [Hs Hns]%andb_true_iff.
    destruct (plain_seg_tests _ Hs) as (-> & -> & ->). simpl.
    rewrite IH by done. simpl. by rewrite <- app_assoc.
Qed.

Lemma normalize_go_is_plain acc segs :
  forallb is_plain_seg acc = true ->
  Forall (fun seg => forallb (fun c => negb (c =? SLASH)) seg = true) segs ->
  forallb is_plain_seg (Path.normalize_go false acc segs) = true.
Proof.
  revert acc. induction segs as [|s segs IH]; intros acc Hacc Hsegs; simpl.
  - rewrite forallb_forall in *. intros x Hx. apply Hacc.
    by apply in_rev.
  - inversion Hsegs as [|? ? Hs Hrest]; subst.
    destruct (jstring_eqb s []) eqn:E1; [by apply IH|].
    destruct (jstring_eqb s (js ".")) eqn:E2; [by apply IH|]. simpl.
    destruct (jstring_eqb s (js "..")) eqn:E3.
    + destruct acc as [|top acc']; [by apply IH|].
      simpl in Hacc. apply andb_true_iff in Hacc as [Htop Hacc'].
      destruct (jstring_eqb top (js "..")); apply IH; try done.
      simpl. by rewrite Htop, Hacc'.
    + apply IH; [|done]. simpl. rewrite Hacc, andb_true_r.
      unfold is_plain_seg. by rewrite E1, E2, E3, Hs.
Qed.

Lemma canonical_segments_plain p :
  forallb is_plain_seg (canonical_segments p) = true.
Proof. apply normalize_go_is_plain; [done | apply split_no_sep]. Qed.

Lemma isAbsolute_nonempty p :
  Path.isAbsolute p = true -> jstring_eqb p [] = false.
Proof. by destruct p. Qed.

Lemma forallb_snoc {A} (f : A -> bool) l x :
  forallb f (l ++ [x]) = forallb f l && f x.
Proof. rewrite forallb_app. simpl. by rewrite andb_true_r. Qed.

(** The served root is the canonical working directory followed by
    [public]. *)
Lemma PUBLIC_DIR_canonical cwd :
  Path.isAbsolute cwd = true ->
  PUBLIC_DIR cwd
  = SLASH :: Path.join (canonical_segments cwd ++ [js "public"]).
Proof.
  intros Habs. unfold PUBLIC_DIR, Path.resolve. cbn [rev app].
  cbn [Path.resolve_go].
  change (jstring_eqb (js "public") []) with false.
  change (Path.isAbsolute (js "public")) with false.
  cbv iota. rewrite (isAbsolute_nonempty _ Habs), Habs. cbv iota.
  unfold Path.normalizeString, Path.segments. cbn [negb].
  rewrite split_app, normalize_go_app.
  fold (Path.segments cwd). fold (canonical_segments cwd).
  change (JS.split SLASH (js "public" ++ SLASH :: []))
    with ([js "public"] ++ [[]]).
  rewrite (normalize_go_app _ _ [js "public"] [[]]).
  rewrite (normalize_go_plain _ _ [js "public"]) by reflexivity.
  cbn [Path.normalize_go]. change (jstring_eqb [] [] || _) with true.
  cbv iota. by rewrite !rev_involutive.
Qed.

Lemma root_segments_plain cwd :
  forallb is_plain_seg (canonical_segments cwd ++ [js "public"]) = true.
Proof. by rewrite forallb_snoc, canonical_segments_plain. Qed.

(** Resolving a relative path against the served root: normalisation
    continues from the segments of the root. *)
Lemma resolve_under_root cwd rel :
  Path.isAbsolute cwd = true ->
  rel <> [] -> Path.isAbsolute rel = false ->
  Path.resolve cwd [PUBLIC_DIR cwd; rel]
  = SLASH :: Path.join
      (Path.normalize_go false
         (rev (canonical_segments cwd ++ [js "public"]))
         (Path.segments rel)).
Proof.
  intros Habs Hne Hrel. unfold Path.resolve. cbn [rev app].
  cbn [Path.resolve_go]. apply jstring_eqb_neq in Hne.
  rewrite Hne, Hrel, (PUBLIC_DIR_canonical _ Habs).
  cbn [jstring_eqb Path.isAbsolute Path.is_slash].
  change (jstring_eqb (SLASH :: _) []) with false.
  change (Path.is_slash SLASH) with true. cbv iota.
  unfold Path.normalizeString, Path.segments. cbn [negb].
  rewrite <- app_comm_cons.
  change (JS.split SLASH (SLASH :: ?x)) with ([] :: JS.split SLASH x).
  rewrite split_app.
  rewrite split_join; [|by destruct (canonical_segments cwd)
                       |apply root_segments_plain].
  change (Path.normalize_go false [] ([] :: ?x))
    with (Path.normalize_go false [] x).
  rewrite normalize_go_app.
  rewrite (normalize_go_plain _ _ _ (root_segments_plain cwd)).
  cbn [rev app]. rewrite split_app, normalize_go_app.
  change (JS.split SLASH []) with [@nil N].
  cbn [Path.normalize_go].
  change (jstring_eqb [] [] || _) with true. cbv iota.
  by rewrite rev_involutive.
Qed.

(** No U+0000 comes into the served root that is not in the working
    directory. *)
Lemma split_nul sep s :
  has_nul s = false ->
  Forall (fun seg => has_nul seg = false) (JS.split sep s).
Proof.
  induction s as [|c s IH]; simpl; [by repeat constructor|].
  intros H. apply orb_false_elim in H as [Hc Hs]. specialize (IH Hs).
  destruct (c =? sep); [by constructor|].
  destruct (JS.split sep s) as [|w ws]; [repeat constructor|].
  - simpl. by rewrite Hc.
  - inversion IH; subst. constructor; [|done]. simpl. by rewrite Hc.
Qed.

Lemma normalize_go_nul a acc segs :
  Forall (fun seg => has_nul seg = false) acc ->
  Forall (fun seg => has_nul seg = false) segs ->
  Forall (fun seg => has_nul seg = false) (Path.normalize_go a acc segs).
Proof.
  revert acc. induction segs as [|s segs IH]; intros acc Hacc Hsegs; simpl.
  - by apply Forall_rev.
  - inversion Hsegs as [|? ? Hs Hrest]; subst.
    destruct (_ || _); [by apply IH|].
    destruct (jstring_eqb s (js "..")).
    + destruct acc as [|top acc'].
      * apply IH; [|done]. destruct a; by repeat constructor.
      * inversion Hacc; subst.
        destruct (jstring_eqb top (js "..")); [|by apply IH].
        apply IH; [|done]. destruct a; by repeat constructor.
    + apply IH; [|done]. by constructor.
Qed.

Lemma join_nul segs :
  Forall (fun seg => has_nul seg = false) segs ->
  has_nul (Path.join segs) = false.
Proof.
  induction 1 as [|s segs Hs Hrest IH]; [done|].
  destruct segs as [|t segs']; [done|].
  change (Path.join (s :: t :: segs'))
    with (s ++ SLASH :: Path.join (t :: segs')).
  unfold has_nul in *. rewrite existsb_app. cbn [existsb].
  by rewrite Hs, IH.
Qed.

Lemma PUBLIC_DIR_nul cwd :
  Path.isAbsolute cwd = true -> has_nul cwd = false ->
  has_nul (PUBLIC_DIR cwd) = false.
Proof.
  intros Habs Hn. rewrite (PUBLIC_DIR_canonical _ Habs).
  change (has_nul (SLASH :: ?l)) with (has_nul l).
  apply join_nul, Forall_app. split; [|by repeat constructor].
  apply normalize_go_nul; [constructor|]. by apply split_nul.
Qed.

Lemma normalize_go_dot a acc rest :
  Path.normalize_go a acc (js "." :: rest) = Path.normalize_go a acc rest.
Proof. reflexivity. Qed.

Lemma normalize_go_dotdot a top acc rest :
  jstring_eqb top (js "..") = false ->
  Path.normalize_go a (top :: acc) (js ".." :: rest)
  = Path.normalize_go a acc rest.
Proof.
  intros H. cbn [Path.normalize_go].
  change (jstring_eqb (js "..") [] || _) with false.
  change (jstring_eqb (js "..") (js "..")) with true.
  cbv iota. by rewrite H.
Qed.

(** A plain file name below the root resolves to the root followed by
    the name. *)
Lemma resolve_file cwd name :
  Path.isAbsolute cwd = true -> is_plain_seg name = true ->
  Path.resolve cwd [PUBLIC_DIR cwd; js "." ++ SLASH :: name]
  = PUBLIC_DIR cwd ++ SLASH :: name.
Proof.
  intros Habs Hname. rewrite resolve_under_root by done.
  unfold Path.segments. rewrite split_app.
  rewrite (split_plain name) by by apply plain_seg_no_slash.
  change (JS.split SLASH (js ".")) with [js "."].
  cbn [app]. rewrite normalize_go_dot.
  rewrite normalize_go_plain by (simpl; by rewrite Hname).
  rewrite rev_involutive, (PUBLIC_DIR_canonical _ Habs).
  rewrite join_snoc by by destruct (canonical_segments cwd).
  done.
Qed.



Lemma startsWith_app a b : JS.startsWith (a ++ b) a = true.
Proof. apply startsWith_prefix. by apply prefix_app_r. Qed.

(** A URL that is a slash and a plain name, free of escapes, white
    space and [?], resolves below the root. *)
Lemma parse_file cwd name :
  Path.isAbsolute cwd = true -> is_plain_seg name = true ->
  pathname_of (SLASH :: name) = SLASH :: name ->
  JS.decodeURIComponent (SLASH :: name) = Some (SLASH :: name) ->
  Full.parseAndResolvePath cwd (SLASH :: name)
  = {| absPath := Some (PUBLIC_DIR cwd ++ SLASH :: name); status := None |}.
Proof.
  intros Habs Hname Hpath Hdec. rewrite parse_unfold, Hpath, Hdec.
  cbv zeta.
  assert (jstring_eqb (SLASH :: name) (js "/") = false) as ->.
  { apply jstring_eqb_neq. intros [= ->]. discriminate Hname. }
  change (js "." ++ SLASH :: name) with (js "." ++ SLASH :: name).
  by rewrite (resolve_file _ _ Habs Hname), startsWith_app.
Qed.

Lemma parse_slash cwd :
  Path.isAbsolute cwd = true ->
  Full.parseAndResolvePath cwd (js "/")
  = {| absPath := Some (PUBLIC_DIR cwd ++ js "/index.html");
       status := None |}.
Proof.
  intros Habs. rewrite parse_unfold.
  change (JS.decodeURIComponent (pathname_of (js "/"))) with (Some (js "/")).
  cbv beta iota zeta.
  change (jstring_eqb (js "/") (js "/")) with true. cbv iota.
  change (js "." ++ js "/index.html")
    with (js "." ++ SLASH :: js "index.html").
  rewrite (resolve_file _ (js "index.html") Habs eq_refl).
  by rewrite startsWith_app.
Qed.


(** ** C9: the empty path *)




(** On the small deployment: the root holds [index.html], a GET of [/]
    is answered with it, a GET of the empty path is answered 404. *)
Lemma empty_path_get_not_found :
  statusCode (res (Full.serve ex_env ex_fs (ex_req "GET" "/" []))) = 200
  /\ statusCode (res (Full.serve ex_env ex_fs (ex_req "GET" "" []))) = 404
  /\ statusCode (res (ReadOnly.serve ex_env ex_fs (ex_req "GET" "/" [])))
     = 200
  /\ statusCode (res (ReadOnly.serve ex_env ex_fs (ex_req "GET" "" [])))
     = 404.
Proof. by vm_compute. Qed.

(** ** C1: confinement to the served root *)

Lemma join_snoc_single ns s t :
  Path.join (ns ++ [s ++ t]) = Path.join (ns ++ [s]) ++ t.
Proof.
  destruct ns as [|a ns]; [done|].
  rewrite !join_snoc by done. by rewrite <- app_assoc.
Qed.

Lemma filter_plain ns :
  forallb is_plain_seg ns = true ->
  filter (fun s : jstring => s <> []) ns = ns.
Proof.
  induction ns as [|s ns IH]; [done|]. simpl.
  intros [Hs Hns]%andb_true_iff.
  rewrite filter_cons_True, IH; [done..|].
  destruct (plain_seg_tests _ Hs) as (H & _). by apply jstring_eqb_neq.
Qed.

Lemma components_canonical ns :
  ns <> [] -> forallb is_plain_seg ns = true ->
  components (SLASH :: Path.join ns) = ns.
Proof.
  intros Hne Hns. unfold components, Path.segments.
  change (JS.split SLASH (SLASH :: ?x)) with ([] :: JS.split SLASH x).
  rewrite split_join by done.
  rewrite filter_cons_False by (by intros H; apply H).
  by apply filter_plain.
Qed.

Lemma escape_resolution cwd :
  Path.isAbsolute cwd = true ->
  Path.resolve cwd
    [PUBLIC_DIR cwd; js "." ++ js "/../public-evil/secret.txt"]
  = SLASH :: Path.join
      (canonical_segments cwd ++ [js "public-evil"; js "secret.txt"]).
Proof.
  intros Habs. rewrite resolve_under_root by done.
  change (Path.segments (js "." ++ js "/../public-evil/secret.txt"))
    with [js "."; js ".."; js "public-evil"; js "secret.txt"].
  rewrite normalize_go_dot, rev_app_distr. cbn [rev app].
  rewrite normalize_go_dotdot by reflexivity.
  rewrite normalize_go_plain by reflexivity.
  by rewrite rev_involutive.
Qed.

Lemma escape_is_suffixed_root cwd :
  Path.isAbsolute cwd = true ->
  SLASH :: Path.join
    (canonical_segments cwd ++ [js "public-evil"; js "secret.txt"])
  = PUBLIC_DIR cwd ++ js "-evil/secret.txt".
Proof.
  intros Habs. rewrite (PUBLIC_DIR_canonical _ Habs).
  change [js "public-evil"; js "secret.txt"]
    with ([js "public" ++ js "-evil"] ++ [js "secret.txt"]).
  rewrite app_assoc, join_snoc by by destruct (canonical_segments cwd).
  rewrite join_snoc_single. cbn [app]. by rewrite <- !app_assoc.
Qed.

(** C1 (what the code does). For every absolute working directory, the
    raw URL [/../public-evil/secret.txt] passes the prefix test of the
    resolver: the result is the string of the served root followed by
    [-evil/secret.txt], a file of the sibling directory [public-evil],
    which is neither the served root nor below it. *)
Theorem sibling_directory_escapes_root cwd :
  Path.isAbsolute cwd = true ->
  let p := PUBLIC_DIR cwd ++ js "-evil/secret.txt" in
  Full.parseAndResolvePath cwd (js "/../public-evil/secret.txt")
  = {| absPath := Some p; status := None |}
  /\ within_root (PUBLIC_DIR cwd) p = false.
Proof.
  intros Habs. cbv zeta. split.
  - rewrite parse_unfold.
    change (JS.decodeURIComponent
              (pathname_of (js "/../public-evil/secret.txt")))
      with (Some (js "/../public-evil/secret.txt")).
    cbv beta iota zeta.
    change (jstring_eqb (js "/../public-evil/secret.txt") (js "/"))
      with false.
    cbv iota.
    rewrite (escape_resolution _ Habs), (escape_is_suffixed_root _ Habs).
    by rewrite startsWith_app.
  - rewrite <- (escape_is_suffixed_root _ Habs).
    rewrite (PUBLIC_DIR_canonical _ Habs) at 1.
    unfold within_root.
    rewrite !components_canonical;
      [|by destruct (canonical_segments cwd)
       |by rewrite forallb_app, canonical_segments_plain
       |by destruct (canonical_segments cwd)
       |apply root_segments_plain].
    apply andb_false_intro2, bool_decide_eq_false.
    intros H%prefix_app_inv. apply prefix_cons_inv_1 in H.
    discriminate H.
Qed.

Lemma sibling_directory_escapes_root_witness :
  Path.isAbsolute (js "/srv") = true
  /\ PUBLIC_DIR (js "/srv") = js "/srv/public"
  /\ Full.parseAndResolvePath (js "/srv") (js "/../public-evil/secret.txt")
     = {| absPath := Some (js "/srv/public-evil/secret.txt");
          status := None |}
  /\ within_root (js "/srv/public") (js "/srv/public-evil/secret.txt")
     = false.
Proof.
  split; [reflexivity|]. split; [reflexivity|].
  exact (sibling_directory_escapes_root (js "/srv") eq_refl).
Defined.

(** On the small deployment both servers answer the GET with the content
    of the file next to the served root. *)
Lemma sibling_file_is_served :
  let req := ex_req "GET" "/../public-evil/secret.txt" [] in
  statusCode (res (Full.serve ex_env ex_fs req)) = 200
  /\ ended (res (Full.serve ex_env ex_fs req)) = Some (js "s3cret")
  /\ statusCode (res (ReadOnly.serve ex_env ex_fs req)) = 200
  /\ ended (res (ReadOnly.serve ex_env ex_fs req)) = Some (js "s3cret").
Proof. by vm_compute. Qed.

(** Paths with [..] that leave the root for anything else are refused. *)
Lemma traversal_is_forbidden :
  Full.parseAndResolvePath (js "/srv") (js "/../../etc/passwd")
  = {| absPath := None; status := Some 403 |}.
Proof. reflexivity. Qed.

(** ** C5: PUT then GET of [/foo.txt] *)

Lemma extname_foo_txt dir :
  Path.extname (dir ++ js "/foo.txt") = js ".txt".
Proof.
  unfold Path.extname. rewrite rev_app_distr.
  change (rev (js "/foo.txt")) with (js "txt.oof/").
  reflexivity.
Qed.

(** C5. In every absolute working directory, for every body [B]: when a
    PUT of [B] to [/foo.txt] has been answered 200 or 201, a GET of
    [/foo.txt], whose stat and read do not fail for a reason outside the
    tree, is answered 200 with body exactly [B],
    [Content-Type: text/plain; charset=utf-8] and a [Content-Length]
    that is the decimal length of [B] in octets. *)
Theorem put_then_get_roundtrip e1 e2 fs0 put get :
  Path.isAbsolute (cwd e1) = true ->
  cwd e2 = cwd e1 ->
  default [] (method put) = js "PUT" ->
  rawUrl_of put = js "/foo.txt" ->
  default [] (method get) = js "GET" ->
  rawUrl_of get = js "/foo.txt" ->
  let p := PUBLIC_DIR (cwd e1) ++ js "/foo.txt" in
  let w1 := Full.serve e1 fs0 put in
  answered w1 200 \/ answered w1 201 ->
  fault e2 (SysStat p) = None ->
  fault e2 (SysReadFile p) = None ->
  let B := concat (chunks put) in
  let w2 := Full.serve e2 (fs w1) get in
  statusCode (res w2) = 200
  /\ ended (res w2) = Some B
  /\ getHeader (res w2) (js "Content-Type")
     = Some (js "text/plain; charset=utf-8")
  /\ getHeader (res w2) (js "Content-Length")
     = Some (String_of_N (N.of_nat (length B))).
Proof.
  intros Habs Hcwd Hput Uput Hget Uget. cbv zeta. intros Hok Hs Hr.
  assert (Hp : Full.parseAndResolvePath (cwd e1) (rawUrl_of put)
               = {| absPath := Some (PUBLIC_DIR (cwd e1) ++ js "/foo.txt");
                    status := None |}).
  { rewrite Uput.
    exact (parse_file (cwd e1) (js "foo.txt") Habs eq_refl eq_refl eq_refl). }
  assert (Hext : JS.toLowerCase
                   (Path.extname (PUBLIC_DIR (cwd e1) ++ js "/foo.txt"))
                 = js ".txt") by (by rewrite extname_foo_txt).
  assert (Hurl : rawUrl_of get = rawUrl_of put) by (by rewrite Uget, Uput).
  destruct (put_then_get_txt e1 e2 fs0 put get _ Hput Hget Hurl Hcwd Hp
              Hext Hok Hs Hr) as (H1 & H2 & H3 & H4 & _).
  done.
Qed.

Lemma put_then_get_roundtrip_witness :
  let put := ex_req "PUT" "/foo.txt" (js "hello") in
  let get := ex_req "GET" "/foo.txt" [] in
  let w2 := Full.serve ex_env (fs (Full.serve ex_env ex_fs put)) get in
  answered (Full.serve ex_env ex_fs put) 201
  /\ statusCode (res w2) = 200
  /\ ended (res w2) = Some (js "hello")
  /\ getHeader (res w2) (js "Content-Type")
     = Some (js "text/plain; charset=utf-8")
  /\ getHeader (res w2) (js "Content-Length") = Some (js "5").
Proof.
  cbv zeta.
  assert (Hput : answered (Full.serve ex_env ex_fs
                   (ex_req "PUT" "/foo.txt" (js "hello"))) 201)
    by (split; [by eexists | reflexivity]).
  split; [exact Hput|].
  exact (put_then_get_roundtrip ex_env ex_env ex_fs
           (ex_req "PUT" "/foo.txt" (js "hello"))
           (ex_req "GET" "/foo.txt" [])
           eq_refl eq_refl eq_refl eq_refl eq_refl eq_refl
           (or_intror Hput) eq_refl eq_refl).
Defined.

(** ** Further checks of the model on the small deployment *)

(** [resolve("/")] and [resolve("/index.html")] agree. *)
Lemma parse_slash_is_index cwd :
  Path.isAbsolute cwd = true ->
  Full.parseAndResolvePath cwd (js "/")
  = Full.parseAndResolvePath cwd (js "/index.html").
Proof.
  intros Habs. rewrite (parse_slash _ Habs).
  symmetry.
  exact (parse_file cwd (js "index.html") Habs eq_refl eq_refl eq_refl).
Qed.

(** A plain file below the root is within the root. *)
Lemma file_within_root cwd name :
  Path.isAbsolute cwd = true -> is_plain_seg name = true ->
  within_root (PUBLIC_DIR cwd) (PUBLIC_DIR cwd ++ SLASH :: name) = true.
Proof.
  intros Habs Hname. unfold within_root.
  rewrite (PUBLIC_DIR_canonical _ Habs). cbn [app Path.isAbsolute].
  change (Path.is_slash SLASH) with true. cbn [andb].
  rewrite <- join_snoc by by destruct (canonical_segments cwd).
  rewrite (components_canonical (canonical_segments cwd ++ [js "public"]));
    [|by destruct (canonical_segments cwd) | apply root_segments_plain].
  rewrite components_canonical;
    [|by destruct (canonical_segments cwd)
     |by rewrite forallb_snoc, root_segments_plain, Hname].
  apply bool_decide_eq_true. by apply prefix_app_r.
Qed.

(** The scenario of the specification: the root holds [index.html] with
    content [<h1>hi</h1>]. *)
Lemma get_root_scenario :
  let r := res (Full.serve ex_env ex_fs (ex_req "GET" "/" [])) in
  statusCode r = 200
  /\ getHeader r (js "Content-Type") = Some (js "text/html; charset=utf-8")
  /\ ended r = Some (js "<h1>hi</h1>").
Proof. by vm_compute. Qed.

Lemma decode_examples :
  JS.decodeURIComponent (js "/a%20b/%e2%82%ac") = Some (js "/a b/" ++ [8364])
  /\ JS.decodeURIComponent (js "/%F0%9F%98%80") = Some (js "/" ++ [55357; 56832])
  /\ JS.decodeURIComponent (js "/%zz") = None
  /\ JS.decodeURIComponent (js "/%4") = None
  /\ JS.decodeURIComponent (js "/%C0%AF") = None
  /\ JS.decodeURIComponent (js "/%ED%A0%80") = None
  /\ JS.decodeURIComponent (js "/%E2%82") = None.
Proof. by vm_compute. Qed.

Lemma path_examples :
  Path.resolve (js "/srv") [js "/srv/public"; js "./a//b/../c/."]
  = js "/srv/public/a/c"
  /\ Path.dirname (js "/srv/public/a/c") = js "/srv/public/a"
  /\ Path.dirname (js "/srv") = js "/"
  /\ Path.extname (js "/srv/public/a.tar.GZ") = js ".GZ"
  /\ Path.extname (js "/srv/public/.profile") = []
  /\ guessContentType (js "/srv/public/Logo.PNG") = js "image/png"
  /\ guessContentType (js "/srv/public/README") = js "application/octet-stream".
Proof. by vm_compute. Qed.

(** * Further properties of the code *)

(** ** The resolver: query strings *)

Lemma head_split_app sep a b :
  head (JS.split sep (a ++ sep :: b)) = head (JS.split sep a).
Proof.
  rewrite split_app. pose proof (split_nonempty sep a).
  by destruct (JS.split sep a).
Qed.

Lemma pathname_of_query u q :
  pathname_of (u ++ QUESTION :: q) = pathname_of u.
Proof. unfold pathname_of. by rewrite head_split_app. Qed.

(** X1. Whatever follows the first [?] of the raw URL has no influence:
    the resolver returns the same result, and the full server gives the
    same final world (response, file system, calls made), with and
    without it. *)
Theorem query_string_ignored e fs0 m u q cs failed :
  Full.parseAndResolvePath (cwd e) (u ++ QUESTION :: q)
  = Full.parseAndResolvePath (cwd e) u
  /\ Full.serve e fs0
       {| method := m; url := Some (u ++ QUESTION :: q);
          chunks := cs; stream_failed := failed |}
     = Full.serve e fs0
         {| method := m; url := Some u;
            chunks := cs; stream_failed := failed |}.
Proof.
  assert (Hp : Full.parseAndResolvePath (cwd e) (u ++ QUESTION :: q)
               = Full.parseAndResolvePath (cwd e) u)
    by (by rewrite !parse_unfold, pathname_of_query).
  split; [done|].
  unfold Full.serve, Full.handler. cbn [url method].
  change (default (js "/") (Some (u ++ QUESTION :: q)))
    with (u ++ QUESTION :: q).
  rewrite Hp. reflexivity.
Qed.

(** ** The resolver: canonical results *)

Lemma forallb_rev {A} (f : A -> bool) l :
  forallb f (rev l) = forallb f l.
Proof.
  induction l as [|x l IH]; [done|]. simpl.
  rewrite forallb_app, IH. simpl. rewrite andb_true_r. apply andb_comm.
Qed.

(** What the resolver hands out, before its prefix test: normalisation
    continued from the segments of the root. *)
Lemma parse_resolved_form cwd rawUrl p :
  Path.isAbsolute cwd = true ->
  Full.parseAndResolvePath cwd rawUrl
  = {| absPath := Some p; status := None |} ->
  exists d,
    JS.decodeURIComponent (pathname_of rawUrl) = Some d
    /\ p = SLASH :: Path.join
             (Path.normalize_go false
                (rev (canonical_segments cwd ++ [js "public"]))
                (Path.segments (js "." ++ normalized_of d))).
Proof.
  intros Habs. rewrite parse_unfold.
  destruct (JS.decodeURIComponent _) as [d|]; [|discriminate].
  cbv zeta. fold (normalized_of d).
  destruct (JS.startsWith _ _); [|discriminate].
  intros [= <-]. exists d. split; [done|].
  by apply resolve_under_root.
Qed.

(** X2. In an absolute working directory every path the resolver
    returns is canonical: a slash followed by segments joined by single
    slashes, none of them empty, [.] or [..]. *)
Theorem resolved_path_is_canonical cwd rawUrl p :
  Path.isAbsolute cwd = true ->
  Full.parseAndResolvePath cwd rawUrl
  = {| absPath := Some p; status := None |} ->
  exists ns,
    forallb is_plain_seg ns = true /\ p = SLASH :: Path.join ns.
Proof.
  intros Habs Hp.
  destruct (parse_resolved_form _ _ _ Habs Hp) as (d & _ & ->).
  eexists. split; [|reflexivity].
  apply normalize_go_is_plain; [|apply split_no_sep].
  rewrite forallb_rev. apply root_segments_plain.
Qed.

Lemma resolved_path_is_canonical_witness :
  Path.isAbsolute (js "/srv") = true
  /\ Full.parseAndResolvePath (js "/srv") (js "/a//./b/../c.txt?x=1")
     = {| absPath := Some (js "/srv/public/a/c.txt"); status := None |}
  /\ exists ns,
       forallb is_plain_seg ns = true
       /\ js "/srv/public/a/c.txt" = SLASH :: Path.join ns.
Proof.
  split; [reflexivity|]. split; [reflexivity|].
  exact (resolved_path_is_canonical (js "/srv")
           (js "/a//./b/../c.txt?x=1") (js "/srv/public/a/c.txt")
           eq_refl eq_refl).
Defined.

(** ** The resolver: paths without [..] *)

Lemma normalize_go_no_dotdot a acc segs :
  Forall (fun s => s <> js "..") segs ->
  Path.normalize_go a acc segs = rev acc ++ List.filter is_kept_seg segs.
Proof.
  revert acc. induction segs as [|s segs IH]; intros acc Hall; simpl.
  - by rewrite app_nil_r.
  - inversion Hall as [|? ? Hs Hrest]; subst. unfold is_kept_seg.
    destruct (jstring_eqb s []) eqn:E1; [by apply IH|].
    destruct (jstring_eqb s (js ".")) eqn:E2; [by apply IH|]. simpl.
    apply jstring_eqb_neq in Hs. rewrite Hs, IH by done.
    simpl. by rewrite <- app_assoc.
Qed.

Lemma kept_segments_plain segs :
  Forall (fun s => s <> js "..") segs ->
  Forall (fun seg => forallb (fun c => negb (c =? SLASH)) seg = true) segs ->
  forallb is_plain_seg (List.filter is_kept_seg segs) = true.
Proof.
  induction segs as [|s segs IH]; [done|]. intros Hd Hs.
  inversion Hd as [|? ? Hd1 Hd2]; inversion Hs as [|? ? Hs1 Hs2]; subst.
  simpl. destruct (is_kept_seg s) eqn:E; [|by apply IH]. simpl.
  rewrite IH, andb_true_r by done. unfold is_plain_seg.
  unfold is_kept_seg in E. apply jstring_eqb_neq in Hd1.
  by rewrite E, Hd1, Hs1.
Qed.

Lemma join_app_slashes ns ks :
  ns <> [] ->
  Path.join (ns ++ ks) = Path.join ns ++ concat (map (cons SLASH) ks).
Proof.
  revert ns. induction ks as [|k ks IH]; intros ns Hne.
  - by rewrite !app_nil_r.
  - rewrite (assoc_L app ns [k] ks : ns ++ k :: ks = (ns ++ [k]) ++ ks).
    rewrite IH by by destruct ns.
    rewrite join_snoc by done. simpl. by rewrite <- app_assoc.
Qed.

Lemma not_dotdot_normalized d :
  js ".." ∉ Path.segments (js "." ++ d) ->
  Forall (fun s => s <> js "..") (Path.segments (js "." ++ normalized_of d)).
Proof.
  intros H. unfold normalized_of.
  destruct (jstring_eqb d (js "/")).
  - repeat constructor; closed_ne.
  - apply Forall_forall. intros s Hs ->. by apply H.
Qed.

(** What the resolver does with the string it builds, [.] followed by
    the decoded path, when that string has no [..] segment. *)
Lemma dotted_path_without_dotdot cwd rawUrl d :
  Path.isAbsolute cwd = true ->
  JS.decodeURIComponent (pathname_of rawUrl) = Some d ->
  js ".." ∉ Path.segments (js "." ++ d) ->
  let kept :=
    List.filter is_kept_seg (Path.segments (js "." ++ normalized_of d)) in
  let p := PUBLIC_DIR cwd ++ concat (map (cons SLASH) kept) in
  Full.parseAndResolvePath cwd rawUrl
  = {| absPath := Some p; status := None |}
  /\ within_root (PUBLIC_DIR cwd) p = true.
Proof.
  intros Habs Hdec Hdd. cbv zeta.
  pose proof (not_dotdot_normalized _ Hdd) as Hnd.
  set (kept := List.filter is_kept_seg _).
  assert (Hkept : forallb is_plain_seg kept = true)
    by (apply kept_segments_plain; [done | apply split_no_sep]).
  assert (Hroot : canonical_segments cwd ++ [js "public"] <> [])
    by by destruct (canonical_segments cwd).
  assert (Hres : Path.resolve cwd
                   [PUBLIC_DIR cwd; js "." ++ normalized_of d]
                 = PUBLIC_DIR cwd ++ concat (map (cons SLASH) kept)).
  { rewrite resolve_under_root by done.
    rewrite normalize_go_no_dotdot, rev_involutive by done.
    fold kept. rewrite join_app_slashes by done.
    by rewrite (PUBLIC_DIR_canonical _ Habs). }
  split.
  - rewrite parse_unfold, Hdec. cbv zeta. fold (normalized_of d).
    by rewrite Hres, startsWith_app.
  - unfold within_root. rewrite (PUBLIC_DIR_canonical _ Habs).
    cbn [app Path.isAbsolute]. change (Path.is_slash SLASH) with true.
    cbn [andb]. rewrite <- join_app_slashes by done.
    rewrite (components_canonical _ Hroot (root_segments_plain cwd)).
    rewrite components_canonical;
      [|by destruct (canonical_segments cwd)
       |by rewrite forallb_app, root_segments_plain, Hkept].
    apply bool_decide_eq_true. by apply prefix_app_r.
Qed.

Lemma segments_absolute rest :
  Path.segments (SLASH :: rest) = [] :: JS.split SLASH rest.
Proof. exact (split_app SLASH [] rest). Qed.

Lemma segments_dot_absolute rest :
  Path.segments (js "." ++ SLASH :: rest) = js "." :: JS.split SLASH rest.
Proof. exact (split_app SLASH (js ".") rest). Qed.

(** X3. In an absolute working directory, a URL whose decoded path
    starts with a slash and has no [..] segment always resolves, and
    the result is the served root followed by [/segment] for each
    segment of the path that is neither empty nor [.] (with
    [/index.html] for the path [/]): repeated slashes and [.]
    disappear, and the result is the root or lies below it. *)
Theorem dotdot_free_path_stays_within_root cwd rawUrl d :
  Path.isAbsolute cwd = true ->
  JS.decodeURIComponent (pathname_of rawUrl) = Some d ->
  Path.isAbsolute d = true ->
  js ".." ∉ Path.segments d ->
  let kept := List.filter is_kept_seg (Path.segments (normalized_of d)) in
  let p := PUBLIC_DIR cwd ++ concat (map (cons SLASH) kept) in
  Full.parseAndResolvePath cwd rawUrl
  = {| absPath := Some p; status := None |}
  /\ within_root (PUBLIC_DIR cwd) p = true.
Proof.
  intros Habs Hdec Hd Hdd. cbv zeta.
  destruct d as [|c rest]; [discriminate|].
  apply N.eqb_eq in Hd as ->.
  assert (H1 : js ".." ∉ Path.segments (js "." ++ SLASH :: rest)).
  { rewrite segments_dot_absolute. rewrite segments_absolute in Hdd.
    intros [H|H]%elem_of_cons; [discriminate H|].
    apply Hdd. by apply list_elem_of_further. }
  pose proof (dotted_path_without_dotdot cwd rawUrl _ Habs Hdec H1) as H2.
  cbv zeta in H2.
  assert (Hk : List.filter is_kept_seg
                 (Path.segments (js "." ++ normalized_of (SLASH :: rest)))
               = List.filter is_kept_seg
                   (Path.segments (normalized_of (SLASH :: rest)))).
  { unfold normalized_of.
    destruct (jstring_eqb _ _); [reflexivity|].
    by rewrite segments_dot_absolute, segments_absolute. }
  by rewrite Hk in H2.
Qed.

Lemma dotdot_free_path_stays_within_root_witness :
  Path.isAbsolute (js "/srv") = true
  /\ (js ".." ∉ Path.segments (js "//img/./my logo.png"))
  /\ Full.parseAndResolvePath (js "/srv") (js "//img/./my%20logo.png?v=2")
     = {| absPath := Some (js "/srv/public/img/my logo.png");
          status := None |}
  /\ within_root (js "/srv/public") (js "/srv/public/img/my logo.png")
     = true.
Proof.
  split; [reflexivity|].
  assert (H : js ".." ∉ Path.segments (js "//img/./my logo.png")).
  { intros Hin. vm_compute in Hin.
    repeat (apply elem_of_cons in Hin as [Hin|Hin]; [discriminate Hin|]).
    by apply elem_of_nil in Hin. }
  split; [exact H|].
  exact (dotdot_free_path_stays_within_root (js "/srv")
           (js "//img/./my%20logo.png?v=2") (js "//img/./my logo.png")
           eq_refl eq_refl eq_refl H).
Defined.

(** Without the leading slash the statement fails: the resolver puts a
    dot before the decoded path, so [./x] climbs out of the root, and a
    target in absolute form keeps the dot in its first segment. *)
Lemma relative_targets_get_a_dot :
  Full.parseAndResolvePath (js "/srv") (js "./x")
  = {| absPath := None; status := Some 403 |}
  /\ Full.parseAndResolvePath (js "/srv") (js "http://h/x")
     = {| absPath := Some (js "/srv/public/.http:/h/x"); status := None |}.
Proof. by vm_compute. Qed.

(** ** The full server: what a request can do to the world *)

(** Every way a request can go through [handler] and its callbacks.
    The goals where a call threw are given to [thrown]; each other goal
    is about the world after one call of [send]. *)
Ltac full_cases_with e req thrown :=
  let p := fresh "p" in
  let E := fresh "Eparse" in
  unfold Full.serve;
  destruct (parse_cases (cwd e) (rawUrl_of req)) as [(p & ? & E)|[E|E]];
  [ rewrite (handler_resolved _ _ _ _ E); cbv zeta;
    pose proof (proj2 (startsWith_prefix _ _)
                  (parse_resolved_prefix _ _ _ E));
    destruct (jstring_eqb _ (js "GET")) eqn:?;
    [ rewrite handleGet_run; cbv zeta; cbn [fs];
      destruct (Fs.stat _ _ _) as [|?|?st] eqn:?;
      [thrown
      |
      |destruct (isFile st) eqn:?;
        [destruct (Fs.readFile _ _ _) as [|?|?data] eqn:?; [thrown| |]|]]
    | destruct (jstring_eqb _ (js "PUT")) eqn:?;
      [ rewrite handlePut_run; cbv zeta; cbn [fs];
        destruct (Fs.stat _ _ (Path.dirname p)) as [|?|?pst] eqn:?;
        [thrown
        |
        |destruct (isDirectory pst) eqn:?;
          [destruct (Fs.stat _ _ p) as [|?|?st] eqn:?;
           [thrown
           |unfold Full.readRequestBody;
            destruct (stream_failed req) eqn:?;
            [|destruct (Fs.writeFile _ _ _ _) as [|?|?fs1] eqn:?;
              [thrown| |]]
           |unfold Full.readRequestBody;
            destruct (stream_failed req) eqn:?;
            [|destruct (Fs.writeFile _ _ _ _) as [|?|?fs1] eqn:?;
              [thrown| |destruct (isFile st) eqn:?]]]
          |]]
      | destruct (jstring_eqb _ (js "DELETE")) eqn:?;
        [ rewrite handleDelete_run; cbv zeta; cbn [fs];
          destruct (Fs.unlink _ _ _) as [|?code|?fs1] eqn:?;
          [thrown|destruct (bool_decide (code = ENOENT)) eqn:?|]
        |]]]
  | rewrite (handler_bad_request _ _ _ E)
  | rewrite (handler_forbidden _ _ _ E) ].

(** X4. Whatever the request, every call of the full server that
    changes the tree (a write or a removal) names a path whose string
    starts with the string of the served root. *)
Theorem mutations_name_prefixed_paths e fs0 req :
  forallb (confined_call (PUBLIC_DIR (cwd e)))
    (trace (Full.serve e fs0 req)) = true.
Proof.
  full_cases_with e req ltac:(reflexivity);
    rewrite send_trace; cbn [trace log_call with_fs app forallb
      confined_call andb]; try reflexivity;
    by repeat match goal with
         | H : JS.startsWith _ _ = true |- _ => rewrite H
         end.
Qed.

Lemma torn_write_cases f t fs0 p d :
  Fs.torn_write f t fs0 p d = fs0
  \/ exists n, Fs.torn_write f t fs0 p d = <[p := File (take n d)]> fs0.
Proof.
  unfold Fs.torn_write. destruct (f _); [|by left].
  destruct (t _) as [n|]; [|by left].
  destruct (Fs.opens _ _); [by left|]. right. by exists n.
Qed.

(** The ways in which a request changes the tree. *)
Lemma serve_fs_cases e fs0 req :
  let w := Full.serve e fs0 req in
  let body := concat (chunks req) in
  fs w = fs0
  \/ exists p,
       Full.parseAndResolvePath (cwd e) (rawUrl_of req)
       = {| absPath := Some p; status := None |}
       /\ ((default [] (method req) = js "PUT"
            /\ (answered w 200 \/ answered w 201)
            /\ fs w = <[p := File body]> fs0)
           \/ (default [] (method req) = js "PUT"
               /\ answered w 500
               /\ exists n, fs w = <[p := File (take n body)]> fs0)
           \/ (default [] (method req) = js "DELETE"
               /\ answered w 204
               /\ fs w = delete p fs0)).
Proof.
  cbv zeta. unfold Full.serve.
  destruct (parse_cases (cwd e) (rawUrl_of req)) as [(p & _ & E)|[E|E]].
  2:{ left. by rewrite (handler_bad_request _ _ _ E). }
  2:{ left. by rewrite (handler_forbidden _ _ _ E). }
  rewrite (handler_resolved _ _ _ _ E). cbv zeta.
  destruct (jstring_eqb _ (js "GET")) eqn:EG.
  { left. rewrite handleGet_run. cbv zeta. cbn [fs].
    destruct (Fs.stat _ _ _) as [|?|st]; [done..|].
    destruct (isFile st); [|done].
    by destruct (Fs.readFile _ _ _). }
  destruct (jstring_eqb _ (js "PUT")) eqn:EP.
  { apply jstring_eqb_eq in EP. rewrite handlePut_run. cbv zeta. cbn [fs].
    destruct (Fs.stat _ _ (Path.dirname p)) as [|?|pst]; [by left..|].
    destruct (isDirectory pst); [|by left].
    destruct (Fs.stat _ _ p) as [|?|st]; [by left| |].
    all: unfold Full.readRequestBody;
      destruct (stream_failed req); [by left|];
      destruct (Fs.writeFile _ _ _ _) as [|err|fs1] eqn:Ew; [by left| |].
    all: rewrite ?answered_send, send_fs; cbn [fs with_fs log_call].
    1,3: destruct (torn_write_cases (fault e) (torn e) fs0 p
                     (concat (chunks req))) as [->|[n ->]]; [by left|];
      right; exists p; split; [done|]; right; left;
      split; [done|]; split; [by apply answered_send|]; by exists n.
    all: apply writeFile_inv in Ew as (-> & _);
      right; exists p; split; [done|]; left;
      split; [done|]; split; [|done]; rewrite !answered_send;
      try (by right); by destruct (isFile _); [left|right]. }
  destruct (jstring_eqb _ (js "DELETE")) eqn:ED; [|by left].
  apply jstring_eqb_eq in ED. rewrite handleDelete_run. cbv zeta. cbn [fs].
  destruct (Fs.unlink _ _ _) as [|code|fs1] eqn:Eu; [by left| |].
  - left. by destruct (bool_decide _).
  - apply unlink_inv in Eu as (-> & _).
    right. exists p. split; [done|]. right; right.
    split; [done|]. split; [by apply answered_send|done].
Qed.

Lemma answered_inj w c c' : answered w c -> answered w c' -> c = c'.
Proof. intros [_ <-] [_ <-]. done. Qed.

(** X5. What a request can change.  The full server changes the tree in
    three ways only, each at the resolved path: a PUT answered 200 or
    201 has written its body there; a PUT answered 500 can leave a
    regular file with the first octets of its body there, when the
    write failed after the file had been opened; a DELETE answered 204
    has removed it.  So a GET, a request answered 400, 403, 404 or 405,
    a DELETE not answered 204 and a request that got no answer change
    nothing, and no request changes another path than the one it
    resolves to. *)
Theorem only_a_write_or_removal_changes_the_tree e fs0 req :
  let w := Full.serve e fs0 req in
  let body := concat (chunks req) in
  (fs w = fs0
   \/ exists p,
        Full.parseAndResolvePath (cwd e) (rawUrl_of req)
        = {| absPath := Some p; status := None |}
        /\ ((default [] (method req) = js "PUT"
             /\ (answered w 200 \/ answered w 201)
             /\ fs w = <[p := File body]> fs0)
            \/ (default [] (method req) = js "PUT"
                /\ answered w 500
                /\ exists n, fs w = <[p := File (take n body)]> fs0)
            \/ (default [] (method req) = js "DELETE"
                /\ answered w 204
                /\ fs w = delete p fs0)))
  /\ (default [] (method req) = js "GET" -> fs w = fs0)
  /\ (statusCode (res w) ∈ [400; 403; 404; 405] -> fs w = fs0)
  /\ (default [] (method req) = js "DELETE" ->
      statusCode (res w) <> 204 -> fs w = fs0)
  /\ (ended (res w) = None -> fs w = fs0)
  /\ (forall p q,
        Full.parseAndResolvePath (cwd e) (rawUrl_of req)
        = {| absPath := Some p; status := None |} ->
        q <> p -> fs w !! q = fs0 !! q).
Proof.
  cbv zeta. pose proof (serve_fs_cases e fs0 req) as H. cbv zeta in H.
  split; [exact H|].
  assert (Hne : forall c : N, c ∈ [400; 403; 404; 405] ->
            c <> 200 /\ c <> 201 /\ c <> 204 /\ c <> 500).
  { intros c Hc.
    repeat (apply elem_of_cons in Hc as [->|Hc]; [done|]).
    by apply elem_of_nil in Hc. }
  split; [|split; [|split; [|split]]].
  - intros Hm. destruct H as [H|(p & _ & [H|[H|H]])]; [done|..];
      destruct H as (Hm' & _); rewrite Hm in Hm'; discriminate Hm'.
  - intros Hc. apply Hne in Hc as (H0 & H1 & H4 & H5).
    destruct H as [H|(p & _ & [H|[H|H]])]; [done|..].
    + destruct H as (_ & [[_ Hs]|[_ Hs]] & _); congruence.
    + destruct H as (_ & [_ Hs] & _); congruence.
    + destruct H as (_ & [_ Hs] & _); congruence.
  - intros Hm Hc. destruct H as [H|(p & _ & [H|[H|H]])]; [done|..].
    + destruct H as (Hm' & _); rewrite Hm in Hm'; discriminate Hm'.
    + destruct H as (Hm' & _); rewrite Hm in Hm'; discriminate Hm'.
    + destruct H as (_ & [_ Hs] & _); congruence.
  - intros Hn. destruct H as [H|(p & _ & [H|[H|H]])]; [done|..].
    + destruct H as (_ & [H|H] & _); by apply not_answered_unsent in H.
    + destruct H as (_ & H & _); by apply not_answered_unsent in H.
    + destruct H as (_ & H & _); by apply not_answered_unsent in H.
  - intros p q Hp Hq.
    destruct H as [->|(p' & Hp' & H)]; [done|].
    rewrite Hp in Hp'. injection Hp' as <-.
    destruct H as [(_ & _ & ->)|[(_ & _ & n & ->)|(_ & _ & ->)]].
    + by apply lookup_insert_ne.
    + by apply lookup_insert_ne.
    + by apply lookup_delete_ne.
Qed.

Lemma only_a_write_or_removal_changes_the_tree_witness :
  let missing := Full.serve ex_env ex_fs
                   (ex_req "PUT" "/missingdir/a.txt" (js "x")) in
  let torn := Full.serve ex_env_failing_disk ex_fs
                (ex_req "PUT" "/index.html" (js "hello")) in
  (statusCode (res missing) ∈ [400; 403; 404; 405] /\ fs missing = ex_fs)
  /\ (statusCode (res torn) = 500
      /\ fs torn !! js "/srv/public/index.html" = Some (File (js "he"))
      /\ fs torn !! js "/srv/public-evil/secret.txt"
         = ex_fs !! js "/srv/public-evil/secret.txt").
Proof.
  cbv zeta. split.
  - assert (Hin : statusCode (res (Full.serve ex_env ex_fs
                     (ex_req "PUT" "/missingdir/a.txt" (js "x"))))
                  ∈ [400; 403; 404; 405])
      by (apply list_elem_of_further, list_elem_of_further,
            list_elem_of_here).
    split; [exact Hin|].
    exact (proj1 (proj2 (proj2
             (only_a_write_or_removal_changes_the_tree ex_env ex_fs
                (ex_req "PUT" "/missingdir/a.txt" (js "x"))))) Hin).
  - split; [reflexivity|]. split; [reflexivity|].
    apply (proj2 (proj2 (proj2 (proj2 (proj2
             (only_a_write_or_removal_changes_the_tree
                ex_env_failing_disk ex_fs
                (ex_req "PUT" "/index.html" (js "hello")))))))
             (js "/srv/public/index.html")); [reflexivity|closed_ne].
Defined.

(** X6. The full server answers with one of eight status codes, the
    read-only server with one of six. *)
Theorem status_codes_of_the_servers e fs0 req :
  statusCode (res (Full.serve e fs0 req))
    ∈ [200; 201; 204; 400; 403; 404; 405; 500]
  /\ statusCode (res (ReadOnly.serve e fs0 req))
    ∈ [200; 400; 403; 404; 405; 500].
Proof.
  split.
  - full_cases_with e req ltac:(apply list_elem_of_here);
      rewrite send_status; set_solver.
  - unfold ReadOnly.serve. rewrite ro_handler_run.
    destruct (negb _); [rewrite ro_send_status; set_solver|]. cbv zeta.
    destruct (JS.decodeURIComponent _) as [d|];
      [|rewrite ro_send_status; set_solver].
    destruct (negb _); [rewrite ro_send_status; set_solver|].
    destruct (Fs.stat _ _ _) as [|?|st];
      [apply list_elem_of_here|rewrite ro_send_status; set_solver|].
    destruct (isFile st); [|rewrite ro_send_status; set_solver].
    destruct (Fs.readFile _ _ _);
      [apply list_elem_of_here|rewrite ro_send_status; set_solver..].
Qed.

(** X7. Every response of the full server whose status is not 200, 201
    or 204 is plain text: its [Content-Type] is
    [text/plain; charset=utf-8] and its body is the one line that goes
    with the status, ended by a line feed. *)
Theorem error_responses_are_one_line e fs0 req :
  let r := res (Full.serve e fs0 req) in
  is_success (statusCode r) = false ->
  getHeader r (js "Content-Type") = Some (js "text/plain; charset=utf-8")
  /\ ended r = Some (JS.utf8_of_string (error_text (statusCode r) ++ [LF])).
Proof.
  cbv zeta.
  full_cases_with e req ltac:(intros Hs; discriminate Hs);
    rewrite send_status, send_ended; intros Hs; try discriminate Hs;
    (split; [apply send_plain_headers | reflexivity]).
Qed.

Lemma error_responses_are_one_line_witness :
  let r := res (Full.serve ex_env ex_fs (ex_req "DELETE" "/nothing" [])) in
  is_success (statusCode r) = false
  /\ statusCode r = 404
  /\ getHeader r (js "Content-Type") = Some (js "text/plain; charset=utf-8")
  /\ ended r = Some (js "Not Found" ++ [LF]).
Proof.
  cbv zeta. split; [reflexivity|]. split; [reflexivity|].
  exact (error_responses_are_one_line ex_env ex_fs
           (ex_req "DELETE" "/nothing" []) eq_refl).
Defined.

(** ** GET in the full server *)

(** X8. A GET whose path resolves to [p], and whose stat and read are
    not failed from outside the tree, is answered from the tree alone:
    200 with the octets of [p], the content type of its extension and
    their number as length when [p] is a regular file; 404 with
    [Not Found] when [p] is missing or is a directory, without a read.
    That is for a path without U+0000; for a path that holds one the
    stat throws, no call is made and nothing is sent.  The file system
    is not changed. *)
Theorem get_is_answered_from_the_tree e fs0 req p :
  default [] (method req) = js "GET" ->
  Full.parseAndResolvePath (cwd e) (rawUrl_of req)
  = {| absPath := Some p; status := None |} ->
  fault e (SysStat p) = None ->
  fault e (SysReadFile p) = None ->
  let w := Full.serve e fs0 req in
  fs w = fs0
  /\ if has_nul p then ended (res w) = None /\ trace w = []
     else
       match fs0 !! p with
       | Some (File d) =>
           statusCode (res w) = 200 /\ ended (res w) = Some d
           /\ getHeader (res w) (js "Content-Type")
              = Some (guessContentType p)
           /\ getHeader (res w) (js "Content-Length")
              = Some (String_of_N (N.of_nat (length d)))
           /\ trace w = [SysStat p; SysReadFile p]
       | _ =>
           statusCode (res w) = 404
           /\ ended (res w) = Some (js "Not Found" ++ [LF])
           /\ trace w = [SysStat p]
       end.
Proof.
  intros Hm Hp Hs Hr. cbv zeta. dispatch Hp Hm.
  destruct (has_nul p) eqn:Hn.
  { rewrite handleGet_run. cbv zeta. cbn [fs].
    by rewrite (proj2 (stat_throws _ _ _) Hn). }
  destruct (fs0 !! p) as [[d|]|] eqn:Ep.
  - erewrite handleGet_regular by done.
    rewrite send_status, send_fs, send_trace.
    rewrite send_ended. split; [done|]. split; [done|]. split; [done|].
    split; [apply send_typed_headers|].
    split; [apply send_typed_headers|done].
  - rewrite handleGet_run. cbv zeta. cbn [fs].
    rewrite (stat_no_fault _ _ _ Hn Hs), Ep. cbn [stats_of isFile].
    rewrite send_status, send_fs, send_trace.
    by rewrite send_ended.
  - rewrite handleGet_run. cbv zeta. cbn [fs].
    rewrite (stat_no_fault _ _ _ Hn Hs), Ep.
    rewrite send_status, send_fs, send_trace.
    by rewrite send_ended.
Qed.

Lemma get_is_answered_from_the_tree_witness :
  let w := Full.serve ex_env ex_fs (ex_req "GET" "/../public" []) in
  let n := Full.serve ex_env ex_fs (ex_req "GET" "/%00" []) in
  (ex_fs !! js "/srv/public" = Some Dir
   /\ fs w = ex_fs /\ statusCode (res w) = 404
   /\ trace w = [SysStat (js "/srv/public")])
  /\ (ended (res n) = None /\ trace n = []).
Proof.
  cbv zeta. split.
  - split; [reflexivity|].
    destruct (get_is_answered_from_the_tree ex_env ex_fs
                (ex_req "GET" "/../public" []) (js "/srv/public")
                eq_refl eq_refl eq_refl eq_refl) as (H1 & H2).
    change (has_nul (js "/srv/public")) with false in H2.
    change (ex_fs !! js "/srv/public") with (Some Dir) in H2.
    destruct H2 as (H2 & _ & H3).
    split; [exact H1|]. split; [exact H2 | exact H3].
  - exact (proj2 (get_is_answered_from_the_tree ex_env ex_fs
                    (ex_req "GET" "/%00" []) (js "/srv/public/" ++ [0])
                    eq_refl eq_refl eq_refl eq_refl)).
Defined.

Lemma extname_index_html dir :
  Path.extname (dir ++ js "/index.html") = js ".html".
Proof.
  unfold Path.extname. rewrite rev_app_distr.
  change (rev (js "/index.html")) with (js "lmth.xedni/").
  reflexivity.
Qed.

(** X9. In every absolute working directory, its name without U+0000, a
    GET of [/] (also when the request has no URL at all) is answered
    with [index.html] of the served root: when that is a regular file
    and its stat and read are not failed from outside, the answer is 200
    with its octets and [Content-Type: text/html; charset=utf-8]. *)
Theorem get_root_serves_index e fs0 req d :
  Path.isAbsolute (cwd e) = true ->
  has_nul (cwd e) = false ->
  default [] (method req) = js "GET" ->
  rawUrl_of req = js "/" ->
  let p := PUBLIC_DIR (cwd e) ++ js "/index.html" in
  fs0 !! p = Some (File d) ->
  fault e (SysStat p) = None ->
  fault e (SysReadFile p) = None ->
  let r := res (Full.serve e fs0 req) in
  statusCode r = 200 /\ ended r = Some d
  /\ getHeader r (js "Content-Type") = Some (js "text/html; charset=utf-8")
  /\ getHeader r (js "Content-Length")
     = Some (String_of_N (N.of_nat (length d))).
Proof.
  intros Habs Hnul Hm Hu. cbv zeta. intros Hd Hs Hr.
  assert (Hp : Full.parseAndResolvePath (cwd e) (rawUrl_of req)
               = {| absPath := Some (PUBLIC_DIR (cwd e) ++ js "/index.html");
                    status := None |})
    by (rewrite Hu; by apply parse_slash).
  assert (Hn : has_nul (PUBLIC_DIR (cwd e) ++ js "/index.html") = false).
  { unfold has_nul. rewrite existsb_app.
    fold (has_nul (PUBLIC_DIR (cwd e))).
    by rewrite (PUBLIC_DIR_nul _ Habs Hnul). }
  dispatch Hp Hm. erewrite handleGet_regular by done.
  rewrite send_status, send_ended.
  split; [done|]. split; [done|].
  split; [|apply send_typed_headers].
  etrans; [apply send_typed_headers|].
  unfold guessContentType. by rewrite extname_index_html.
Qed.

Lemma get_root_serves_index_witness :
  let req := {| method := Some (js "GET"); url := None;
                chunks := []; stream_failed := false |} in
  let r := res (Full.serve ex_env ex_fs req) in
  rawUrl_of req = js "/"
  /\ statusCode r = 200 /\ ended r = Some (js "<h1>hi</h1>")
  /\ getHeader r (js "Content-Type") = Some (js "text/html; charset=utf-8")
  /\ getHeader r (js "Content-Length") = Some (js "11").
Proof.
  cbv zeta. split; [reflexivity|].
  exact (get_root_serves_index ex_env ex_fs
           {| method := Some (js "GET"); url := None;
              chunks := []; stream_failed := false |}
           (js "<h1>hi</h1>")
           eq_refl eq_refl eq_refl eq_refl eq_refl eq_refl eq_refl).
Defined.

(** ** PUT and DELETE in the full server: what changes *)

(** X10. A PUT answered 200 or 201 leaves at the resolved path a regular
    file holding the chunks of the request body, concatenated in order
    of arrival, and leaves every other path of the tree as it was. *)
Theorem put_stores_body_at_target e fs0 req p :
  default [] (method req) = js "PUT" ->
  Full.parseAndResolvePath (cwd e) (rawUrl_of req)
  = {| absPath := Some p; status := None |} ->
  let w := Full.serve e fs0 req in
  answered w 200 \/ answered w 201 ->
  fs w !! p = Some (File (concat (chunks req)))
  /\ forall q, q <> p -> fs w !! q = fs0 !! q.
Proof.
  intros Hm Hp. cbv zeta. intros Hok.
  destruct (put_success_inv _ _ _ _ Hm Hp Hok) as (-> & _).
  split; [apply lookup_insert_eq|].
  intros q Hq. by apply lookup_insert_ne.
Qed.

Lemma put_stores_body_at_target_witness :
  let req := {| method := Some (js "PUT"); url := Some (js "/n.txt");
                chunks := [js "ab"; js "cd"]; stream_failed := false |} in
  let w := Full.serve ex_env ex_fs req in
  answered w 201
  /\ fs w !! js "/srv/public/n.txt" = Some (File (js "abcd"))
  /\ fs w !! js "/srv/public/index.html"
     = ex_fs !! js "/srv/public/index.html".
Proof.
  cbv zeta.
  assert (Hput : answered (Full.serve ex_env ex_fs
                   {| method := Some (js "PUT"); url := Some (js "/n.txt");
                      chunks := [js "ab"; js "cd"];
                      stream_failed := false |}) 201)
    by (split; [by eexists | reflexivity]).
  split; [exact Hput|].
  destruct (put_stores_body_at_target ex_env ex_fs
              {| method := Some (js "PUT"); url := Some (js "/n.txt");
                 chunks := [js "ab"; js "cd"]; stream_failed := false |}
              (js "/srv/public/n.txt") eq_refl eq_refl
              (or_intror Hput)) as (H1 & H2).
  split; [exact H1|]. apply H2. closed_ne.
Defined.

Lemma delete_success_inv e fs0 req p :
  default [] (method req) = js "DELETE" ->
  Full.parseAndResolvePath (cwd e) (rawUrl_of req)
  = {| absPath := Some p; status := None |} ->
  statusCode (res (Full.serve e fs0 req)) = 204 ->
  fs (Full.serve e fs0 req) = delete p fs0 /\ is_regular fs0 p = true
  /\ has_nul p = false /\ blocked fs0 p = false.
Proof.
  intros Hm Hp. dispatch Hp Hm. rewrite handleDelete_run. cbv zeta.
  cbn [fs]. destruct (Fs.unlink _ _ _) as [|code|fs1] eqn:Eu.
  - discriminate.
  - destruct (bool_decide _); rewrite send_status; discriminate.
  - intros _. rewrite send_fs. cbn [fs with_fs].
    by destruct (unlink_inv _ _ _ _ Eu) as (-> & ? & ? & ?).
Qed.

(** X11. A DELETE answered 204 has removed a regular file: the resolved
    path was a regular file, is now absent, and every other path of the
    tree is as it was. *)
Theorem delete_removes_only_target e fs0 req p :
  default [] (method req) = js "DELETE" ->
  Full.parseAndResolvePath (cwd e) (rawUrl_of req)
  = {| absPath := Some p; status := None |} ->
  let w := Full.serve e fs0 req in
  statusCode (res w) = 204 ->
  is_regular fs0 p = true
  /\ fs w !! p = None
  /\ forall q, q <> p -> fs w !! q = fs0 !! q.
Proof.
  intros Hm Hp. cbv zeta. intros Hok.
  destruct (delete_success_inv _ _ _ _ Hm Hp Hok) as (-> & Hreg & _).
  split; [done|]. split; [apply lookup_delete_eq|].
  intros q Hq. by apply lookup_delete_ne.
Qed.

Lemma delete_removes_only_target_witness :
  let w := Full.serve ex_env ex_fs (ex_req "DELETE" "/index.html" []) in
  statusCode (res w) = 204
  /\ fs w !! js "/srv/public/index.html" = None
  /\ fs w !! js "/srv/public" = Some Dir.
Proof.
  cbv zeta. split; [reflexivity|].
  destruct (delete_removes_only_target ex_env ex_fs
              (ex_req "DELETE" "/index.html" [])
              (js "/srv/public/index.html") eq_refl eq_refl eq_refl)
    as (_ & H1 & H2).
  split; [exact H1|].
  rewrite H2; [reflexivity | closed_ne].
Defined.

(** X12. Creating a file and deleting it again restores the tree: when
    the resolved path was absent, a PUT answered 200 or 201 followed by
    a DELETE of the same URL, whose removal is not failed from outside,
    is answered 204 and leaves the file system exactly as it was before
    the PUT. *)
Theorem put_then_delete_restores e1 e2 fs0 put del p :
  default [] (method put) = js "PUT" ->
  default [] (method del) = js "DELETE" ->
  rawUrl_of del = rawUrl_of put ->
  cwd e2 = cwd e1 ->
  Full.parseAndResolvePath (cwd e1) (rawUrl_of put)
  = {| absPath := Some p; status := None |} ->
  fs0 !! p = None ->
  let w1 := Full.serve e1 fs0 put in
  answered w1 200 \/ answered w1 201 ->
  fault e2 (SysUnlink p) = None ->
  let w2 := Full.serve e2 (fs w1) del in
  answered w2 204 /\ fs w2 = fs0.
Proof.
  intros Hput Hdel Hurl Hcwd Hp Habsent. cbv zeta. intros Hok Hf.
  destruct (put_success_inv _ _ _ _ Hput Hp Hok) as (-> & Hn & Hb & _).
  assert (Hp2 : Full.parseAndResolvePath (cwd e2) (rawUrl_of del)
                = {| absPath := Some p; status := None |})
    by (by rewrite Hcwd, Hurl).
  dispatch Hp2 Hdel. rewrite handleDelete_run. cbv zeta. cbn [fs].
  unfold Fs.unlink. rewrite Hn, Hf, blocked_insert, Hb, lookup_insert_eq.
  rewrite send_fs. cbn [fs with_fs].
  split; [by apply answered_send|].
  rewrite delete_insert_eq. by apply delete_id.
Qed.

Lemma put_then_delete_restores_witness :
  let put := ex_req "PUT" "/tmp.bin" (js "x") in
  let del := ex_req "DELETE" "/tmp.bin" [] in
  let w1 := Full.serve ex_env ex_fs put in
  ex_fs !! js "/srv/public/tmp.bin" = None
  /\ answered w1 201
  /\ answered (Full.serve ex_env (fs w1) del) 204
  /\ fs (Full.serve ex_env (fs w1) del) = ex_fs.
Proof.
  cbv zeta. split; [reflexivity|].
  assert (Hput : answered (Full.serve ex_env ex_fs
                   (ex_req "PUT" "/tmp.bin" (js "x"))) 201)
    by (split; [by eexists | reflexivity]).
  split; [exact Hput|].
  exact (put_then_delete_restores ex_env ex_env ex_fs
           (ex_req "PUT" "/tmp.bin" (js "x"))
           (ex_req "DELETE" "/tmp.bin" [])
           (js "/srv/public/tmp.bin")
           eq_refl eq_refl eq_refl eq_refl eq_refl eq_refl
           (or_intror Hput) eq_refl).
Defined.

(** X13. A PUT below an existing directory that cannot be completed is
    answered 500.  When the body stream ends with an error no write is
    attempted: the calls made are the two stats, and the tree is
    unchanged.  When the write itself fails, the write is the third and
    last call, every path but the target is unchanged, and the target
    is unchanged or holds a regular file with the first octets of the
    body: the file is opened, so created or truncated, before anything
    is written.  This is for a target without U+0000; with one, the
    stat of the target throws and there is no answer. *)
Theorem put_failures_are_500 e fs0 req p pst :
  default [] (method req) = js "PUT" ->
  Full.parseAndResolvePath (cwd e) (rawUrl_of req)
  = {| absPath := Some p; status := None |} ->
  Fs.stat (fault e) fs0 (Path.dirname p) = Gives pst ->
  isDirectory pst = true ->
  let w := Full.serve e fs0 req in
  let body := concat (chunks req) in
  if has_nul p then ended (res w) = None /\ fs w = fs0
  else
    (stream_failed req = true ->
     answered w 500 /\ fs w = fs0
     /\ trace w = [SysStat (Path.dirname p); SysStat p])
    /\ (stream_failed req = false ->
        forall err, Fs.writeFile (fault e) fs0 p body = Fails err ->
        answered w 500
        /\ trace w = [SysStat (Path.dirname p); SysStat p;
                      SysWriteFile p body]
        /\ (forall q, q <> p -> fs w !! q = fs0 !! q)
        /\ (fs w = fs0 \/ exists n, fs w = <[p := File (take n body)]> fs0)).
Proof.
  intros Hm Hp Hst Hdir. cbv zeta. dispatch Hp Hm.
  rewrite handlePut_run. cbv zeta. cbn [fs].
  rewrite Hst, Hdir. unfold Full.readRequestBody.
  destruct (has_nul p) eqn:Hn.
  { by rewrite (proj2 (stat_throws _ _ _) Hn). }
  assert (Hs : Fs.stat (fault e) fs0 p <> Throws)
    by (rewrite stat_throws; congruence).
  split.
  - intros ->. destruct (Fs.stat _ _ p); [done|..];
      by rewrite answered_send, send_fs, send_trace.
  - intros -> err ->.
    assert (Hgoal : forall w0 : World,
      trace w0 = [SysStat (Path.dirname p); SysStat p;
                  SysWriteFile p (concat (chunks req))] ->
      fs w0 = Fs.torn_write (fault e) (torn e) fs0 p (concat (chunks req)) ->
      let w := snd (Full.send e 500 PLAIN (line "Internal Server Error") w0) in
      answered w 500
      /\ trace w = [SysStat (Path.dirname p); SysStat p;
                    SysWriteFile p (concat (chunks req))]
      /\ (forall q, q <> p -> fs w !! q = fs0 !! q)
      /\ (fs w = fs0
          \/ exists n, fs w = <[p := File (take n (concat (chunks req)))]> fs0)).
    { intros w0 Ht Hf. cbv zeta. rewrite answered_send, send_fs, send_trace.
      split; [done|]. split; [done|]. rewrite Hf.
      destruct (torn_write_cases (fault e) (torn e) fs0 p
                  (concat (chunks req))) as [->|[n ->]].
      - split; [done|by left].
      - split; [|right; by exists n].
        intros q Hq. by apply lookup_insert_ne. }
    destruct (Fs.stat _ _ p); [done|..]; by apply Hgoal.
Qed.

Lemma put_failures_are_500_witness :
  let cut := {| method := Some (js "PUT"); url := Some (js "/up.bin");
                chunks := [js "partial"]; stream_failed := true |} in
  let w := Full.serve ex_env ex_fs cut in
  let t := Full.serve ex_env_failing_disk ex_fs
             (ex_req "PUT" "/index.html" (js "hello")) in
  (stream_failed cut = true
   /\ answered w 500 /\ fs w = ex_fs
   /\ trace w = [SysStat (js "/srv/public");
                 SysStat (js "/srv/public/up.bin")])
  /\ (answered t 500
      /\ fs t !! js "/srv/public/index.html" = Some (File (js "he"))
      /\ forall q, q <> js "/srv/public/index.html" ->
           fs t !! q = ex_fs !! q).
Proof.
  cbv zeta. split.
  - split; [reflexivity|].
    exact (proj1 (put_failures_are_500 ex_env ex_fs
                    {| method := Some (js "PUT"); url := Some (js "/up.bin");
                       chunks := [js "partial"]; stream_failed := true |}
                    (js "/srv/public/up.bin") (stats_of Dir)
                    eq_refl eq_refl eq_refl eq_refl) eq_refl).
  - destruct (proj2 (put_failures_are_500 ex_env_failing_disk ex_fs
                       (ex_req "PUT" "/index.html" (js "hello"))
                       (js "/srv/public/index.html") (stats_of Dir)
                       eq_refl eq_refl eq_refl eq_refl) eq_refl EIO eq_refl)
      as (H1 & _ & H2 & _).
    split; [exact H1|]. split; [reflexivity | exact H2].
Defined.

(** ** The read-only server *)



(** ** The two servers on a GET *)

Lemma UTF16EncodeCodePoint_nonempty v : JS.UTF16EncodeCodePoint v <> [].
Proof. unfold JS.UTF16EncodeCodePoint. by destruct (v <=? 65535). Qed.

Lemma decode_nil_inv s : JS.decodeURIComponent s = Some [] -> s = [].
Proof.
  destruct s as [|c rest]; [done|]. simpl. intros H. exfalso.
  repeat (case_match; try discriminate);
    repeat match goal with
      | H : _ ≫= _ = Some _ |- _ =>
          apply bind_Some in H as (? & ? & H)
      | H : _ <$> _ = Some _ |- _ =>
          apply fmap_Some in H as (? & ? & H)
      end;
    try discriminate;
    match goal with
    | H : [] = JS.UTF16EncodeCodePoint ?v ++ _ |- _ =>
        symmetry in H; apply app_eq_nil in H as [H _];
        by apply UTF16EncodeCodePoint_nonempty in H
    end.
Qed.

(** A path that starts with a slash decodes to [/] only when it is [/]. *)
Lemma origin_form_decodes_to_slash pn :
  Path.isAbsolute pn = true ->
  JS.decodeURIComponent pn = Some (js "/") -> pn = js "/".
Proof.
  destruct pn as [|c rest]; [discriminate|]. cbn [Path.isAbsolute].
  unfold Path.is_slash. intros ->%N.eqb_eq.
  change (JS.decodeURIComponent (SLASH :: rest))
    with (cons SLASH <$> JS.decodeURIComponent rest).
  intros (d & Hd & [= <-])%fmap_Some.
  by rewrite (decode_nil_inv _ Hd).
Qed.

Lemma ro_request_path_decode pn :
  (JS.decodeURIComponent pn = Some (js "/") -> pn = js "/") ->
  JS.decodeURIComponent
    (if jstring_eqb pn (js "/") then js "/index.html" else pn)
  = normalized_of <$> JS.decodeURIComponent pn.
Proof.
  intros H. destruct (jstring_eqb pn (js "/")) eqn:E.
  - apply jstring_eqb_eq in E as ->. reflexivity.
  - destruct (JS.decodeURIComponent pn) as [d|]; [|done].
    cbn [fmap option_fmap option_map]. f_equal. unfold normalized_of.
    destruct (jstring_eqb d (js "/")) eqn:E2; [|done].
    apply jstring_eqb_eq in E2 as ->.
    apply jstring_eqb_neq in E. by destruct E, H.
Qed.

Lemma agree_plain e c body w w' :
  fs w' = fs w -> trace w' = trace w ->
  same_answer (snd (ReadOnly.send e c PLAIN body w'))
    (snd (Full.send e c PLAIN body w)).
Proof.
  intros Hfs Htr. unfold same_answer.
  destruct (send_plain_headers e c body w) as (HD & HC & HT & _).
  rewrite send_status, ro_send_status, send_fs, ro_send_fs,
    send_trace, ro_send_trace, HD, HC, HT.
  rewrite send_ended, ro_send_ended.
  unfold ReadOnly.send, on_res. cbn [snd res PLAIN fold_left fst].
  rewrite !getHeader_res_end.
  repeat split; try done; header_lookup.
Qed.

Lemma agree_typed e c ct cl body w w' :
  fs w' = fs w -> trace w' = trace w ->
  same_answer
    (snd (ReadOnly.send e c
            [(js "Content-Type", ct); (js "Content-Length", cl)] body w'))
    (snd (Full.send e c
            [(js "Content-Type", ct); (js "Content-Length", cl)] body w)).
Proof.
  intros Hfs Htr. unfold same_answer.
  destruct (send_typed_headers e c ct cl body w) as (HD & HC & HT & _).
  rewrite send_status, ro_send_status, send_fs, ro_send_fs,
    send_trace, ro_send_trace, HD, HC, HT.
  rewrite send_ended, ro_send_ended.
  unfold ReadOnly.send, on_res. cbn [snd res fold_left fst].
  rewrite !getHeader_res_end.
  repeat split; try done; header_lookup.
Qed.

(** X15. On a GET the read-only server and the full server cannot be
    told apart: for every URL whose path decodes to [/] only when it is
    [/] itself (every path that starts with a slash is such), both give
    the same status, body, [Content-Type], [Date] and [Connection],
    make the same calls and leave the same file system. *)
Theorem servers_agree_on_get e fs0 req :
  default [] (method req) = js "GET" ->
  (JS.decodeURIComponent (pathname_of (rawUrl_of req)) = Some (js "/") ->
   pathname_of (rawUrl_of req) = js "/") ->
  same_answer (ReadOnly.serve e fs0 req) (Full.serve e fs0 req).
Proof.
  intros Hm Hpn. unfold ReadOnly.serve, ReadOnly.handler.
  rewrite Hm. change (jstring_eqb (js "GET") (js "GET")) with true.
  cbn [negb]. fold (rawUrl_of req). fold (pathname_of (rawUrl_of req)).
  rewrite (ro_request_path_decode _ Hpn).
  destruct (JS.decodeURIComponent (pathname_of (rawUrl_of req)))
    as [d|] eqn:Ed; cbn [fmap option_fmap option_map].
  2:{ assert (Hp : Full.parseAndResolvePath (cwd e) (rawUrl_of req)
                   = {| absPath := None; status := Some 400 |})
        by (by rewrite parse_unfold, Ed).
      unfold Full.serve. rewrite (handler_bad_request _ _ _ Hp).
      by apply agree_plain. }
  destruct (JS.startsWith
              (Path.resolve (cwd e)
                 [PUBLIC_DIR (cwd e); js "." ++ normalized_of d])
              (PUBLIC_DIR (cwd e))) eqn:Es; cbn [negb].
  2:{ assert (Hp : Full.parseAndResolvePath (cwd e) (rawUrl_of req)
                   = {| absPath := None; status := Some 403 |}).
      { rewrite parse_unfold, Ed. cbv zeta. fold (normalized_of d).
        by rewrite Es. }
      unfold Full.serve. rewrite (handler_forbidden _ _ _ Hp).
      by apply agree_plain. }
  assert (Hp : Full.parseAndResolvePath (cwd e) (rawUrl_of req)
               = {| absPath :=
                      Some (Path.resolve (cwd e)
                              [PUBLIC_DIR (cwd e);
                               js "." ++ normalized_of d]);
                    status := None |}).
  { rewrite parse_unfold, Ed. cbv zeta. fold (normalized_of d).
    by rewrite Es. }
  dispatch Hp Hm. rewrite handleGet_run. cbv zeta.
  unfold mbind, M_bind, fs_stat. cbn [fs].
  destruct (Fs.stat _ _ _) as [|?|st];
    [by repeat split|by apply agree_plain|].
  destruct (isFile st); cbn [negb]; [|by apply agree_plain].
  unfold fs_readFile. cbn [fs log_call].
  destruct (Fs.readFile _ _ _) as [|?|data];
    [by repeat split|by apply agree_plain | by apply agree_typed].
Qed.

Lemma servers_agree_on_get_witness :
  same_answer
    (ReadOnly.serve ex_env ex_fs (ex_req "GET" "/index.html?x" []))
    (Full.serve ex_env ex_fs (ex_req "GET" "/index.html?x" [])).
Proof.
  apply (servers_agree_on_get ex_env ex_fs
           (ex_req "GET" "/index.html?x" []) eq_refl).
  intros H. vm_compute in H. discriminate H.
Defined.

(** The condition above is needed: a path that is an encoded slash is
    [/] for the full server and the root directory for the read-only
    one. *)
Lemma encoded_slash_tells_servers_apart :
  statusCode (res (Full.serve ex_env ex_fs (ex_req "GET" "%2F" []))) = 200
  /\ statusCode (res (ReadOnly.serve ex_env ex_fs (ex_req "GET" "%2F" [])))
     = 404.
Proof. by vm_compute. Qed.

(** ** Content types *)

Lemma take_while_app_stop f a c b :
  forallb f a = true -> f c = false ->
  JS.take_while f (a ++ c :: b) = a.
Proof.
  intros Ha Hc. induction a as [|x a IH]; simpl.
  - by rewrite Hc.
  - simpl in Ha. apply andb_true_iff in Ha as [Hx Ha].
    by rewrite Hx, IH.
Qed.

Lemma take_while_all f a :
  forallb f a = true -> JS.take_while f a = a.
Proof.
  induction a as [|x a IH]; [done|]. simpl.
  intros [Hx Ha]%andb_true_iff. by rewrite Hx, IH.
Qed.

Lemma drop_while_head f a b :
  a <> [] -> forallb (fun c => negb (f c)) a = true ->
  JS.drop_while f (a ++ b) = a ++ b.
Proof.
  destruct a as [|x a]; [done|]. intros _. simpl.
  intros [Hx _]%andb_true_iff. apply negb_true_iff in Hx. by rewrite Hx.
Qed.

Lemma rev_nonempty {A} (l : list A) : l <> [] -> rev l <> [].
Proof.
  destruct l as [|x l]; [done|]. intros _ H. simpl in H.
  by apply app_eq_nil in H as [_ ?].
Qed.

Lemma extname_of_file_name dir stem ext :
  is_stem stem = true -> is_extension ext = true ->
  Path.extname (dir ++ SLASH :: stem ++ DOT :: ext) = DOT :: ext.
Proof.
  unfold is_stem, is_extension.
  intros [Hs1 Hs2]%andb_true_iff [[He1 He2]%andb_true_iff He3]%andb_true_iff.
  apply negb_true_iff, jstring_eqb_neq in Hs1, He1.
  unfold Path.extname.
  replace (rev (dir ++ SLASH :: stem ++ DOT :: ext))
    with ((rev ext ++ DOT :: rev stem) ++ SLASH :: rev dir).
  2:{ rewrite rev_app_distr. simpl. rewrite rev_app_distr. simpl.
      by rewrite <- !app_assoc. }
  rewrite <- app_assoc, drop_while_head;
    [|by apply rev_nonempty | by rewrite forallb_rev].
  rewrite app_assoc, take_while_app_stop;
    [| |reflexivity].
  2:{ rewrite forallb_app, forallb_rev. simpl.
      by rewrite forallb_rev, He2, Hs2. }
  rewrite take_while_app_stop; [|by rewrite forallb_rev|reflexivity].
  rewrite drop_app_length.
  pose proof (rev_nonempty _ Hs1) as Hst.
  destruct (rev stem) as [|x xs]; [done|].
  pose proof (rev_nonempty _ He1) as Hex.
  assert (jstring_eqb (rev ext) [] = false) as ->
    by by apply jstring_eqb_neq.
  by rewrite andb_false_r, rev_involutive.
Qed.

Lemma toLowerCase_dot ext :
  JS.toLowerCase (DOT :: ext) = DOT :: JS.toLowerCase ext.
Proof. reflexivity. Qed.

(** X16. The content type of a file depends on nothing but its
    extension, letter case aside: two paths whose last component is a
    non-empty stem, a dot and a non-empty extension, in any directories,
    get the same type as soon as their extensions agree up to the case
    of ASCII letters. *)
Theorem content_type_depends_on_extension dir1 stem1 ext1 dir2 stem2 ext2 :
  is_stem stem1 = true -> is_extension ext1 = true ->
  is_stem stem2 = true -> is_extension ext2 = true ->
  JS.toLowerCase ext1 = JS.toLowerCase ext2 ->
  guessContentType (dir1 ++ SLASH :: stem1 ++ DOT :: ext1)
  = guessContentType (dir2 ++ SLASH :: stem2 ++ DOT :: ext2).
Proof.
  intros Hs1 He1 Hs2 He2 Hlow. unfold guessContentType.
  rewrite !extname_of_file_name by done.
  by rewrite !toLowerCase_dot, Hlow.
Qed.

Lemma content_type_depends_on_extension_witness :
  guessContentType (js "/srv/public/img" ++ SLASH :: js "Holiday.2024"
                      ++ DOT :: js "JPeG")
  = guessContentType (js "/x" ++ SLASH :: js "a" ++ DOT :: js "jpeg")
  /\ guessContentType (js "/x" ++ SLASH :: js "a" ++ DOT :: js "jpeg")
     = js "image/jpeg".
Proof.
  split; [|reflexivity].
  exact (content_type_depends_on_extension
           (js "/srv/public/img") (js "Holiday.2024") (js "JPeG")
           (js "/x") (js "a") (js "jpeg")
           eq_refl eq_refl eq_refl eq_refl eq_refl).
Defined.

Lemma extname_without_inner_dot dir c t :
  forallb (fun c => negb (Path.is_slash c)) (c :: t) = true ->
  forallb (fun c => negb (Path.is_dot c)) t = true ->
  Path.extname (dir ++ SLASH :: c :: t) = [].
Proof.
  intros Hs Hd. unfold Path.extname.
  replace (rev (dir ++ SLASH :: c :: t))
    with ((rev t ++ [c]) ++ SLASH :: rev dir).
  2:{ rewrite rev_app_distr. simpl. by rewrite <- !app_assoc. }
  assert (Hs' : forallb (fun c => negb (Path.is_slash c)) (rev t ++ [c])
                = true).
  { change (rev t ++ [c]) with (rev (c :: t)). by rewrite forallb_rev. }
  rewrite drop_while_head; [|by destruct (rev t)|done].
  rewrite take_while_app_stop by done.
  destruct (Path.is_dot c) eqn:Ec.
  - rewrite take_while_app_stop;
      [|by rewrite forallb_rev|by rewrite Ec].
    by rewrite drop_app_length.
  - rewrite take_while_all.
    + by rewrite drop_all.
    + rewrite forallb_app, forallb_rev, Hd. simpl. by rewrite Ec.
Qed.

(** X17. A file whose name has no dot after its first character (a name
    without extension, or a dot file such as [.html]) is served as
    [application/octet-stream], in whatever directory it lies. *)
Theorem file_without_extension_is_octet_stream dir c t :
  forallb (fun c => negb (Path.is_slash c)) (c :: t) = true ->
  forallb (fun c => negb (Path.is_dot c)) t = true ->
  guessContentType (dir ++ SLASH :: c :: t) = js "application/octet-stream".
Proof.
  intros Hs Hd. unfold guessContentType.
  by rewrite extname_without_inner_dot.
Qed.

Lemma file_without_extension_is_octet_stream_witness :
  guessContentType (js "/srv/public.d" ++ SLASH :: DOT :: js "html")
  = js "application/octet-stream".
Proof.
  exact (file_without_extension_is_octet_stream
           (js "/srv/public.d") DOT (js "html") eq_refl eq_refl).
Defined.

(** ** How requests compose *)



(** X19. The default resource is substituted for every method, not only
    for GET: in every absolute working directory a PUT of [/] answered
    200 or 201 has written the body to [index.html] of the served
    root. *)
Theorem put_root_writes_index e fs0 req :
  Path.isAbsolute (cwd e) = true ->
  default [] (method req) = js "PUT" ->
  rawUrl_of req = js "/" ->
  let w := Full.serve e fs0 req in
  answered w 200 \/ answered w 201 ->
  fs w !! (PUBLIC_DIR (cwd e) ++ js "/index.html")
  = Some (File (concat (chunks req))).
Proof.
  intros Habs Hm Hu. cbv zeta. intros Hok.
  assert (Hp : Full.parseAndResolvePath (cwd e) (rawUrl_of req)
               = {| absPath := Some (PUBLIC_DIR (cwd e) ++ js "/index.html");
                    status := None |})
    by (rewrite Hu; by apply parse_slash).
  destruct (put_success_inv _ _ _ _ Hm Hp Hok) as (-> & _).
  apply lookup_insert_eq.
Qed.

Lemma put_root_writes_index_witness :
  let w := Full.serve ex_env ex_fs (ex_req "PUT" "/" (js "new")) in
  answered w 200
  /\ fs w !! js "/srv/public/index.html" = Some (File (js "new")).
Proof.
  cbv zeta.
  assert (Hput : answered (Full.serve ex_env ex_fs
                   (ex_req "PUT" "/" (js "new"))) 200)
    by (split; [by eexists | reflexivity]).
  split; [exact Hput|].
  exact (put_root_writes_index ex_env ex_fs (ex_req "PUT" "/" (js "new"))
           eq_refl eq_refl eq_refl (or_introl Hput)).
Defined.

(** ** The calls of one request *)

(** X20. The answers 400, 403 and 405 of the full server are given
    without any system call: such a request neither reads nor changes
    the tree. *)
Theorem rejections_make_no_call e fs0 req :
  let w := Full.serve e fs0 req in
  statusCode (res w) ∈ [400; 403; 405] ->
  trace w = [] /\ fs w = fs0.
Proof.
  cbv zeta.
  full_cases_with e req ltac:(cbn [snd res statusCode fresh_response log_call]);
    rewrite ?send_status, ?send_trace, ?send_fs;
    cbn [trace fs log_call with_fs]; try done;
    intros Hin;
    repeat (apply elem_of_cons in Hin as [Hin|Hin]; [discriminate Hin|]);
    by apply elem_of_nil in Hin.
Qed.

Lemma rejections_make_no_call_witness :
  let w := Full.serve ex_env ex_fs
             (ex_req "DELETE" "/../../etc/passwd" []) in
  statusCode (res w) = 403 /\ trace w = [] /\ fs w = ex_fs.
Proof.
  cbv zeta. split; [reflexivity|].
  apply (rejections_make_no_call ex_env ex_fs
           (ex_req "DELETE" "/../../etc/passwd" [])).
  apply list_elem_of_further, list_elem_of_here.
Defined.

(** X21. A request to the full server makes at most three system calls;
    at most one of them changes the tree, and that one comes last. *)
Theorem one_mutation_at_most_and_last e fs0 req :
  exists reads muts,
    trace (Full.serve e fs0 req) = reads ++ muts
    /\ forallb is_read_call reads = true
    /\ (length muts <= 1)%nat
    /\ (length (reads ++ muts) <= 3)%nat.
Proof.
  full_cases_with e req ltac:(cbn [snd]);
    rewrite ?send_trace; cbn [trace log_call with_fs app];
    match goal with
    | |- exists r m, ?t = r ++ m /\ _ =>
        lazymatch t with
        | [SysStat ?a; SysStat ?b; SysWriteFile ?c ?d] =>
            exists [SysStat a; SysStat b], [SysWriteFile c d]
        | [SysUnlink ?a] => exists [], [SysUnlink a]
        | _ => exists t, []
        end
    end;
    (split; [by rewrite ?app_nil_r|]); (split; [reflexivity|]);
    simpl; lia.
Qed.

(** ** The resolver: climbing out of the root *)

Lemma segments_of_climb k :
  Path.segments (js ".." ++ concat (replicate k (js "/..")))
  = replicate (S k) (js "..").
Proof.
  unfold Path.segments. induction k as [|k IH]; [reflexivity|].
  change (concat (replicate (S k) (js "/..")))
    with (SLASH :: (js ".." ++ concat (replicate k (js "/..")))).
  rewrite split_app, IH. reflexivity.
Qed.

Lemma normalize_go_climb acc k :
  forallb is_plain_seg acc = true ->
  Path.normalize_go false acc (replicate k (js "..")) = rev (drop k acc).
Proof.
  revert acc. induction k as [|k IH]; intros acc Hacc; [done|].
  destruct acc as [|top acc'].
  - change (Path.normalize_go false [] (replicate (S k) (js "..")))
      with (Path.normalize_go false [] (replicate k (js ".."))).
    by rewrite IH, drop_nil.
  - simpl in Hacc. apply andb_true_iff in Hacc as [Htop Hacc].
    destruct (plain_seg_tests _ Htop) as (_ & _ & Hdd).
    cbn [replicate]. rewrite normalize_go_dotdot by done.
    by rewrite IH.
Qed.

Lemma join_length_le ns ks :
  (length (Path.join ns) <= length (Path.join (ns ++ ks)))%nat.
Proof.
  destruct ns as [|n ns]; [simpl; lia|].
  rewrite join_app_slashes by done. rewrite length_app. lia.
Qed.

Lemma root_longer_than_ancestor cwd k :
  (length (Path.join (rev (drop k (rev (canonical_segments cwd)))))
   < length (Path.join (canonical_segments cwd ++ [js "public"])))%nat.
Proof.
  set (C := canonical_segments cwd).
  assert (HC : C = rev (drop k (rev C)) ++ rev (take k (rev C))).
  { rewrite <- rev_app_distr, take_drop. by rewrite rev_involutive. }
  rewrite HC at 2. set (A := rev (drop k (rev C))).
  set (D := rev (take k (rev C))). rewrite <- app_assoc.
  destruct A as [|a A'].
  - simpl. destruct D as [|d D']; [simpl; lia|].
    rewrite join_snoc by done. rewrite length_app. simpl. lia.
  - rewrite join_app_slashes by done.
    rewrite map_app, concat_app, !length_app. simpl. lia.
Qed.

(** X22. In every absolute working directory a URL whose decoded path
    is made only of [/..] segments, one or more, is refused with status
    403: the parent of the served root and everything above it are out
    of reach. *)
Theorem climbing_out_is_forbidden cwd rawUrl k :
  Path.isAbsolute cwd = true ->
  JS.decodeURIComponent (pathname_of rawUrl)
  = Some (concat (replicate (S k) (js "/.."))) ->
  Full.parseAndResolvePath cwd rawUrl
  = {| absPath := None; status := Some 403 |}.
Proof.
  intros Habs Hdec. rewrite parse_unfold, Hdec. cbv zeta.
  assert (jstring_eqb (concat (replicate (S k) (js "/.."))) (js "/")
          = false) as -> by by apply jstring_eqb_neq.
  rewrite resolve_under_root by done.
  change (js "." ++ concat (replicate (S k) (js "/..")))
    with (js "." ++ SLASH :: (js ".." ++ concat (replicate k (js "/..")))).
  unfold Path.segments. rewrite split_app.
  fold (Path.segments (js ".." ++ concat (replicate k (js "/..")))).
  rewrite segments_of_climb.
  change (JS.split SLASH (js ".")) with [js "."]. cbn [app].
  rewrite normalize_go_dot.
  rewrite normalize_go_climb
    by (rewrite forallb_rev; apply root_segments_plain).
  rewrite rev_app_distr. cbn [rev app drop].
  destruct (JS.startsWith _ _) eqn:Es; [|done]. exfalso.
  apply startsWith_prefix in Es. apply prefix_length in Es.
  rewrite (PUBLIC_DIR_canonical _ Habs) in Es. cbn [length] in Es.
  pose proof (root_longer_than_ancestor cwd k). lia.
Qed.

Lemma climbing_out_is_forbidden_witness :
  Path.isAbsolute (js "/srv/www") = true
  /\ Full.parseAndResolvePath (js "/srv/www") (js "/%2E%2E/../..?a=b")
     = {| absPath := None; status := Some 403 |}.
Proof.
  split; [reflexivity|].
  exact (climbing_out_is_forbidden (js "/srv/www")
           (js "/%2E%2E/../..?a=b") 2 eq_refl eq_refl).
Defined.

(** ** Paths that the file system refuses *)

(** X23. A request whose resolved path holds U+0000 changes nothing.  A
    GET or a DELETE of it is not answered at all and makes no call; a
    PUT is answered 404 when the stat of the parent fails or reports no
    directory, and is not answered otherwise, with the stat of the
    parent as its only call at most. *)
Theorem nul_path_is_not_answered e fs0 req p :
  Full.parseAndResolvePath (cwd e) (rawUrl_of req)
  = {| absPath := Some p; status := None |} ->
  has_nul p = true ->
  let w := Full.serve e fs0 req in
  let m := default [] (method req) in
  fs w = fs0
  /\ (m = js "GET" \/ m = js "DELETE" ->
      ended (res w) = None /\ trace w = [])
  /\ (m = js "PUT" ->
      (ended (res w) = None
       /\ (trace w = [] \/ trace w = [SysStat (Path.dirname p)]))
      \/ (answered w 404 /\ trace w = [SysStat (Path.dirname p)])).
Proof.
  intros Hp Hn. cbv zeta.
  pose proof (proj2 (stat_throws (fault e) fs0 p) Hn) as Hs.
  pose proof (proj2 (unlink_throws (fault e) fs0 p) Hn) as Hu.
  split; [|split].
  - unfold Full.serve. rewrite (handler_resolved _ _ _ _ Hp). cbv zeta.
    destruct (jstring_eqb _ (js "GET")).
    { rewrite handleGet_run. cbv zeta. cbn [fs]. by rewrite Hs. }
    destruct (jstring_eqb _ (js "PUT")).
    { rewrite handlePut_run. cbv zeta. cbn [fs]. rewrite Hs.
      destruct (Fs.stat _ _ (Path.dirname p)) as [|?|pst]; [done..|].
      by destruct (isDirectory pst). }
    destruct (jstring_eqb _ (js "DELETE")); [|done].
    rewrite handleDelete_run. cbv zeta. cbn [fs]. by rewrite Hu.
  - intros [Hm|Hm]; dispatch Hp Hm.
    + rewrite handleGet_run. cbv zeta. cbn [fs]. by rewrite Hs.
    + rewrite handleDelete_run. cbv zeta. cbn [fs]. by rewrite Hu.
  - intros Hm. dispatch Hp Hm.
    rewrite handlePut_run. cbv zeta. cbn [fs]. rewrite Hs.
    destruct (Fs.stat _ _ (Path.dirname p)) as [|?|pst].
    + left. split; [done|by left].
    + right. split; [by apply answered_send|by rewrite send_trace].
    + destruct (isDirectory pst).
      * left. split; [done|by right].
      * right. split; [by apply answered_send|by rewrite send_trace].
Qed.

Lemma nul_path_is_not_answered_witness :
  let get := Full.serve ex_env ex_fs (ex_req "GET" "/%00" []) in
  let del := Full.serve ex_env ex_fs (ex_req "DELETE" "/a%00.txt" []) in
  let put := Full.serve ex_env ex_fs (ex_req "PUT" "/%00" (js "x")) in
  has_nul (js "/srv/public/" ++ [0]) = true
  /\ (ended (res get) = None /\ trace get = [] /\ fs get = ex_fs)
  /\ (ended (res del) = None /\ trace del = [])
  /\ (ended (res put) = None /\ trace put = [SysStat (js "/srv/public")]).
Proof.
  cbv zeta. split; [reflexivity|].
  destruct (nul_path_is_not_answered ex_env ex_fs (ex_req "GET" "/%00" [])
              (js "/srv/public/" ++ [0]) eq_refl eq_refl) as (H1 & H2 & _).
  destruct (nul_path_is_not_answered ex_env ex_fs
              (ex_req "DELETE" "/a%00.txt" [])
              (js "/srv/public/a" ++ [0] ++ js ".txt") eq_refl eq_refl)
    as (_ & H3 & _).
  split.
  { destruct (H2 (or_introl eq_refl)) as [H4 H5].
    split; [exact H4|]. split; [exact H5 | exact H1]. }
  split; [exact (H3 (or_intror eq_refl))|].
  split; reflexivity.
Defined.

(** X24. A DELETE of a name below a regular file is an error, not a
    missing file: when the way to the resolved path runs through a
    regular file, the removal fails with ENOTDIR and the answer is 500;
    the tree is unchanged. *)
Theorem removal_below_a_file_is_an_error e fs0 req p :
  default [] (method req) = js "DELETE" ->
  Full.parseAndResolvePath (cwd e) (rawUrl_of req)
  = {| absPath := Some p; status := None |} ->
  has_nul p = false ->
  fault e (SysUnlink p) = None ->
  blocked fs0 p = true ->
  let w := Full.serve e fs0 req in
  Fs.unlink (fault e) fs0 p = Fails ENOTDIR
  /\ answered w 500
  /\ ended (res w)
     = Some (JS.utf8_of_string (js "Internal Server Error" ++ [LF]))
  /\ fs w = fs0 /\ trace w = [SysUnlink p].
Proof.
  intros Hm Hp Hn Hf Hb. cbv zeta.
  assert (Hu : Fs.unlink (fault e) fs0 p = Fails ENOTDIR)
    by (unfold Fs.unlink; by rewrite Hn, Hf, Hb).
  split; [done|]. dispatch Hp Hm.
  rewrite handleDelete_run. cbv zeta. cbn [fs]. rewrite Hu.
  rewrite bool_decide_eq_false_2 by done.
  by rewrite answered_send, send_ended, send_fs, send_trace.
Qed.

Lemma removal_below_a_file_is_an_error_witness :
  let w := Full.serve ex_env ex_fs (ex_req "DELETE" "/index.html/x" []) in
  blocked ex_fs (js "/srv/public/index.html/x") = true
  /\ answered w 500 /\ fs w = ex_fs.
Proof.
  cbv zeta. split; [reflexivity|].
  destruct (removal_below_a_file_is_an_error ex_env ex_fs
              (ex_req "DELETE" "/index.html/x" [])
              (js "/srv/public/index.html/x")
              eq_refl eq_refl eq_refl eq_refl eq_refl)
    as (_ & H1 & _ & H2 & _).
  split; [exact H1 | exact H2].
Defined.
